(** * Accessibility manager (src/js/accessibility.js): a shallow embedding

    The script is a single class, [AccessibilityManager], whose methods read
    and write the DOM, [localStorage], the timer queue and a mutation
    observer.  The embedding keeps that shape: every method is a computation
    in a small state-and-exception monad over a record [World] that holds the
    parts of the browser the class touches.

    - A node keeps the attributes that the class reads or writes on it.  The
      nodes that the class looks up by id live in typed slots of [World]: a
      form control is found among [controls], an error container among
      [error_els], and so on.  A node passed as an argument is given by its
      position in document order.
    - A method that throws leaves the state it had reached; [try_catch] and
      [try_finally] are the two statements of the source.
    - The callbacks given to [setTimeout] and [addEventListener] are data
      ([Task], [Listener]); [run_task] and [dispatch] run them.  The records
      of the mutation observer wait in a queue until the microtask
      checkpoint that ends the current task ([deliver_mutations]).
    - [loadUserPreferences] calls two methods that the class does not
      define; see [ThemeHelpers].
    - The statements of the script around the class work on [Script], the
      page together with [document.readyState] and the variable that holds
      the manager. *)

From Stdlib Require Import String Ascii NArith Lia.
From stdpp Require Import base option list gmap.

Set Warnings "-clear-no-such-hyp".
Local Open Scope N_scope.

(** ** JavaScript strings

    A JavaScript string is a sequence of UTF-16 code units; [length] counts
    code units.  Literals of the source are written [js "..."]. *)

Abbreviation jsstr := (list N).

Fixpoint js (s : string) : jsstr :=
  match s with
  | EmptyString => []
  | String a s' => N_of_ascii a :: js s'
  end.

Arguments js : simpl never.

Definition js_eqb (a b : jsstr) : bool := bool_decide (a = b).

(** [!value] for a string value. *)
Definition js_falsy (s : jsstr) : bool :=
  match s with [] => true | _ => false end.

Definition js_length (s : jsstr) : N := N.of_nat (length s).

(** [String(b)], the conversion [setAttribute] and [setItem] apply to a
    boolean argument. *)
Definition js_of_bool (b : bool) : jsstr := if b then js "true" else js "false".

(** ECMAScript WhiteSpace and LineTerminator code units: the set stripped by
    [String.prototype.trim] and matched by the class escape [\s]. *)
Definition is_js_whitespace (c : N) : bool :=
  ((0x9 <=? c) && (c <=? 0xD))
  || (c =? 0x20) || (c =? 0xA0) || (c =? 0x1680)
  || ((0x2000 <=? c) && (c <=? 0x200A))
  || (c =? 0x2028) || (c =? 0x2029) || (c =? 0x202F) || (c =? 0x205F)
  || (c =? 0x3000) || (c =? 0xFEFF).

Fixpoint trimStart (s : jsstr) : jsstr :=
  match s with
  | [] => []
  | c :: s' => if is_js_whitespace c then trimStart s' else s
  end.

Definition trimEnd (s : jsstr) : jsstr := rev (trimStart (rev s)).

Definition trim (s : jsstr) : jsstr := trimEnd (trimStart s).

(** ** Regular expressions

    The only pattern of the source is a regular one (classes, concatenation,
    [+]), tested between [^] and [$] without flags, so [test] is membership
    of the whole string in the language.  Matching is by derivatives. *)

Inductive regex : Type :=
| Void : regex
| Eps : regex
| Class : (N -> bool) -> regex
| Seq : regex -> regex -> regex
| Alt : regex -> regex -> regex
| Star : regex -> regex.

Definition Plus (r : regex) : regex := Seq r (Star r).

Fixpoint nullable (r : regex) : bool :=
  match r with
  | Void => false
  | Eps => true
  | Class _ => false
  | Seq r1 r2 => nullable r1 && nullable r2
  | Alt r1 r2 => nullable r1 || nullable r2
  | Star _ => true
  end.

Fixpoint deriv (c : N) (r : regex) : regex :=
  match r with
  | Void => Void
  | Eps => Void
  | Class p => if p c then Eps else Void
  | Seq r1 r2 =>
      if nullable r1
      then Alt (Seq (deriv c r1) r2) (deriv c r2)
      else Seq (deriv c r1) r2
  | Alt r1 r2 => Alt (deriv c r1) (deriv c r2)
  | Star r1 => Seq (deriv c r1) (Star r1)
  end.

Fixpoint regex_test (r : regex) (s : jsstr) : bool :=
  match s with
  | [] => nullable r
  | c :: s' => regex_test (deriv c r) s'
  end.

(** [[^\s@]] *)
Definition not_space_at (c : N) : bool :=
  negb (is_js_whitespace c) && negb (c =? 0x40).

(** [/^[^\s@]+@[^\s@]+\.[^\s@]+$/] *)
Definition email_pattern : regex :=
  Seq (Plus (Class not_space_at))
   (Seq (Class (N.eqb 0x40))
    (Seq (Plus (Class not_space_at))
     (Seq (Class (N.eqb 0x2E))
      (Plus (Class not_space_at))))).

(** The strings a regular expression denotes. *)
Inductive lang : regex -> jsstr -> Prop :=
| lang_eps : lang Eps []
| lang_class (p : N -> bool) (c : N) : p c = true -> lang (Class p) [c]
| lang_seq (r1 r2 : regex) (s1 s2 : jsstr) :
    lang r1 s1 -> lang r2 s2 -> lang (Seq r1 r2) (s1 ++ s2)
| lang_alt_l (r1 r2 : regex) (s : jsstr) : lang r1 s -> lang (Alt r1 r2) s
| lang_alt_r (r1 r2 : regex) (s : jsstr) : lang r2 s -> lang (Alt r1 r2) s
| lang_star_nil (r : regex) : lang (Star r) []
| lang_star_app (r : regex) (s1 s2 : jsstr) :
    lang r s1 -> lang (Star r) s2 -> lang (Star r) (s1 ++ s2).

(** An address in the shape [local@domain.tld]: three non-empty parts
    without white space and without [@]. *)
Definition address_shape (s : jsstr) : Prop :=
  exists l d t : jsstr,
    s = l ++ [0x40] ++ d ++ [0x2E] ++ t
    /\ l <> [] /\ d <> [] /\ t <> []
    /\ Forall (fun c => not_space_at c = true) l
    /\ Forall (fun c => not_space_at c = true) d
    /\ Forall (fun c => not_space_at c = true) t.

(** ** The browser state the class works on

    Each node keeps the attributes that the program reads or writes on it.
    Class lists are token sets. *)

Inductive Tag : Type := TagInput | TagSelect | TagButton | TagTextarea | TagOther.

(** A descendant of the panel, in document order. *)
Record PanelChild : Type := mkPanelChild {
  c_tag : Tag;
  c_classes : gset jsstr;
  c_tabindex : option jsstr }.

(** [#accessibilityPanel] *)
Record Panel : Type := mkPanel {
  p_classes : gset jsstr;
  p_aria_hidden : option jsstr;
  p_children : list PanelChild }.

(** [#accessibilityToggle] *)
Record Toggle : Type := mkToggle { t_aria_expanded : option jsstr }.

(** [#textSize]; assigning [value] selects the option with that value, and
    leaves the value empty when there is none. *)
Record Select : Type := mkSelect {
  sel_options : list jsstr;
  sel_value : jsstr }.

(** [#highContrast], [#reducedMotion], [#toggleTheme] *)
Record Checkbox : Type := mkCheckbox {
  cb_checked : bool;
  cb_aria_pressed : option jsstr }.

(** [#themeToggle] *)
Record PressButton : Type := mkPressButton { pb_aria_pressed : option jsstr }.

Record ThemeWidgets : Type := mkThemeWidgets {
  themeToggle : option PressButton;
  toggleTheme : option Checkbox }.

Record Widgets : Type := mkWidgets {
  textSize_select : option Select;
  highContrast_box : option Checkbox;
  reducedMotion_box : option Checkbox;
  theme_widgets : ThemeWidgets }.

(** A form control of the page, found by [getElementById] through [f_id];
    [f_in_form] tells whether it is a descendant of [#contactForm]. *)
Record Field : Type := mkField {
  f_id : jsstr;
  f_name : jsstr;
  f_value : jsstr;
  f_default : jsstr;
  f_aria_invalid : option jsstr;
  f_in_form : bool }.

(** A per-field error container, [#{name}Error]. *)
Record ErrorEl : Type := mkErrorEl {
  e_text : jsstr;
  e_classes : gset jsstr }.

(** [#submitBtn] *)
Record Button : Type := mkButton {
  b_disabled : bool;
  b_classes : gset jsstr;
  b_text : jsstr;
  b_describedby : option jsstr }.

(** A success or error banner appended to the form. *)
Record Banner : Type := mkBanner {
  bn_node : nat;
  bn_class : jsstr;
  bn_text : jsstr;
  bn_live : jsstr }.

Record FormUI : Type := mkFormUI {
  contactForm : bool;
  controls : list Field;
  error_els : gmap jsstr ErrorEl;
  submitBtn : option Button;
  submitReady : bool;
  banners : list Banner }.

(** A live-region node appended to the body by [announceToScreenReader]. *)
Record LiveNode : Type := mkLiveNode {
  ln_node : nat;
  ln_text : jsstr }.

(** An element that can hold the focus. *)
Inductive Ref : Type := RToggle | RPanelChild (i : nat) | RField (i : nat).

Record Page : Type := mkPage {
  root_classes : gset jsstr;
  root_data_theme : option jsstr;
  body_classes : gset jsstr;
  live : list LiveNode;
  next_node : nat;
  activeElement : option Ref }.

Record PanelUI : Type := mkPanelUI {
  panel : option Panel;
  toggle : option Toggle }.

(** [localStorage]; the two flags say whether reading and writing throw (a
    blocked or full store). *)
Record Storage : Type := mkStorage {
  items : gmap jsstr jsstr;
  get_throws : bool;
  set_throws : bool }.

(** [window.matchMedia] results. *)
Record Media : Type := mkMedia {
  prefers_reduced_motion : bool;
  prefers_dark : bool }.

(** The fields of the manager object; [this.panel] and [this.toggle] are
    references to the two nodes of [PanelUI], or null. *)
Record Manager : Type := mkManager {
  this_panel : bool;
  this_toggle : bool;
  isInitialized : bool }.

(** Callbacks handed to [setTimeout]. *)
Inductive Task : Type :=
| TaskFocus (r : Ref)
| TaskUpdateSubmit
| TaskRemoveLive (n : nat)
| TaskRemoveBanner (n : nat)
| TaskSendDone (originalText : jsstr).

Record Timer : Type := mkTimer {
  tm_delay : N;
  tm_task : Task }.

(** Callbacks handed to [addEventListener]. *)
Inductive Listener : Type :=
| OnToggleClick
| OnDocumentClick
| OnDocumentKeydown
| OnTextSizeChange
| OnHighContrastChange
| OnReducedMotionChange
| OnThemeToggleClick
| OnToggleThemeChange
| OnFormSubmit
| OnFieldBlur (i : nat)
| OnFieldInput (i : nat)
| OnDocumentMousedown
| OnSkipLinkClick (i : nat)
| OnMotionPreferenceChange.

(** [observers]: one entry per [MutationObserver] watching the attributes of
    the panel, holding the node list its callback closes over;
    [mutations]: the attribute names of the records not yet delivered. *)
Record Loop : Type := mkLoop {
  listeners : list Listener;
  timers : list Timer;
  observers : list (list nat);
  mutations : list jsstr }.

Inductive Level : Type := LogLevel | WarnLevel | ErrorLevel.

Record World : Type := mkWorld {
  page : Page;
  panel_ui : PanelUI;
  widgets : Widgets;
  form_ui : FormUI;
  skip_links : nat;
  storage : Storage;
  media : Media;
  mgr : Manager;
  loop : Loop;
  console : list (Level * jsstr) }.

(** *** Field updates *)

Definition on_page (f : Page -> Page) (w : World) : World :=
  mkWorld (f (page w)) (panel_ui w) (widgets w) (form_ui w) (skip_links w)
          (storage w) (media w) (mgr w) (loop w) (console w).

Definition on_panel_ui (f : PanelUI -> PanelUI) (w : World) : World :=
  mkWorld (page w) (f (panel_ui w)) (widgets w) (form_ui w) (skip_links w)
          (storage w) (media w) (mgr w) (loop w) (console w).

Definition on_widgets (f : Widgets -> Widgets) (w : World) : World :=
  mkWorld (page w) (panel_ui w) (f (widgets w)) (form_ui w) (skip_links w)
          (storage w) (media w) (mgr w) (loop w) (console w).

Definition on_form_ui (f : FormUI -> FormUI) (w : World) : World :=
  mkWorld (page w) (panel_ui w) (widgets w) (f (form_ui w)) (skip_links w)
          (storage w) (media w) (mgr w) (loop w) (console w).

Definition on_storage (f : Storage -> Storage) (w : World) : World :=
  mkWorld (page w) (panel_ui w) (widgets w) (form_ui w) (skip_links w)
          (f (storage w)) (media w) (mgr w) (loop w) (console w).

Definition on_mgr (f : Manager -> Manager) (w : World) : World :=
  mkWorld (page w) (panel_ui w) (widgets w) (form_ui w) (skip_links w)
          (storage w) (media w) (f (mgr w)) (loop w) (console w).

Definition on_loop (f : Loop -> Loop) (w : World) : World :=
  mkWorld (page w) (panel_ui w) (widgets w) (form_ui w) (skip_links w)
          (storage w) (media w) (mgr w) (f (loop w)) (console w).

Definition on_console (f : list (Level * jsstr) -> list (Level * jsstr)) (w : World) : World :=
  mkWorld (page w) (panel_ui w) (widgets w) (form_ui w) (skip_links w)
          (storage w) (media w) (mgr w) (loop w) (f (console w)).

Definition with_root_classes (v : gset jsstr) (p : Page) : Page :=
  mkPage v (root_data_theme p) (body_classes p) (live p) (next_node p) (activeElement p).

Definition with_root_data_theme (v : option jsstr) (p : Page) : Page :=
  mkPage (root_classes p) v (body_classes p) (live p) (next_node p) (activeElement p).

Definition with_body_classes (v : gset jsstr) (p : Page) : Page :=
  mkPage (root_classes p) (root_data_theme p) v (live p) (next_node p) (activeElement p).

Definition with_live (v : list LiveNode) (p : Page) : Page :=
  mkPage (root_classes p) (root_data_theme p) (body_classes p) v (next_node p) (activeElement p).

Definition with_next_node (v : nat) (p : Page) : Page :=
  mkPage (root_classes p) (root_data_theme p) (body_classes p) (live p) v (activeElement p).

Definition with_activeElement (v : option Ref) (p : Page) : Page :=
  mkPage (root_classes p) (root_data_theme p) (body_classes p) (live p) (next_node p) v.

Definition with_panel (v : option Panel) (u : PanelUI) : PanelUI := mkPanelUI v (toggle u).

Definition with_toggle (v : option Toggle) (u : PanelUI) : PanelUI := mkPanelUI (panel u) v.

Definition with_textSize_select (v : option Select) (x : Widgets) : Widgets :=
  mkWidgets v (highContrast_box x) (reducedMotion_box x) (theme_widgets x).

Definition with_highContrast_box (v : option Checkbox) (x : Widgets) : Widgets :=
  mkWidgets (textSize_select x) v (reducedMotion_box x) (theme_widgets x).

Definition with_reducedMotion_box (v : option Checkbox) (x : Widgets) : Widgets :=
  mkWidgets (textSize_select x) (highContrast_box x) v (theme_widgets x).

Definition with_theme_widgets (v : ThemeWidgets) (x : Widgets) : Widgets :=
  mkWidgets (textSize_select x) (highContrast_box x) (reducedMotion_box x) v.

Definition with_controls (v : list Field) (x : FormUI) : FormUI :=
  mkFormUI (contactForm x) v (error_els x) (submitBtn x) (submitReady x) (banners x).

Definition with_error_els (v : gmap jsstr ErrorEl) (x : FormUI) : FormUI :=
  mkFormUI (contactForm x) (controls x) v (submitBtn x) (submitReady x) (banners x).

Definition with_submitBtn (v : option Button) (x : FormUI) : FormUI :=
  mkFormUI (contactForm x) (controls x) (error_els x) v (submitReady x) (banners x).

Definition with_submitReady (v : bool) (x : FormUI) : FormUI :=
  mkFormUI (contactForm x) (controls x) (error_els x) (submitBtn x) v (banners x).

Definition with_banners (v : list Banner) (x : FormUI) : FormUI :=
  mkFormUI (contactForm x) (controls x) (error_els x) (submitBtn x) (submitReady x) v.

Definition with_items (v : gmap jsstr jsstr) (s : Storage) : Storage :=
  mkStorage v (get_throws s) (set_throws s).

Definition with_listeners (v : list Listener) (l : Loop) : Loop :=
  mkLoop v (timers l) (observers l) (mutations l).

Definition with_timers (v : list Timer) (l : Loop) : Loop :=
  mkLoop (listeners l) v (observers l) (mutations l).

Definition with_observers (v : list (list nat)) (l : Loop) : Loop :=
  mkLoop (listeners l) (timers l) v (mutations l).

Definition with_mutations (v : list jsstr) (l : Loop) : Loop :=
  mkLoop (listeners l) (timers l) (observers l) v.

(** ** The monad: state, and exceptions that keep the state reached *)

Inductive Exn : Type :=
| TypeError (msg : jsstr)
| DOMException (name : jsstr).

Inductive Res (A : Type) : Type :=
| Ok (a : A)
| Throw (e : Exn).

Arguments Ok {A} a.
Arguments Throw {A} e.

Definition M (A : Type) : Type := World -> Res A * World.

Definition ret {A} (a : A) : M A := fun w => (Ok a, w).

Definition bind {A B} (m : M A) (k : A -> M B) : M B :=
  fun w =>
    match m w with
    | (Ok a, w') => k a w'
    | (Throw e, w') => (Throw e, w')
    end.

Definition throw {A} (e : Exn) : M A := fun w => (Throw e, w).

Definition gets {A} (f : World -> A) : M A := fun w => (Ok (f w), w).

Definition modify (f : World -> World) : M unit := fun w => (Ok tt, f w).

(** [try { body } catch (error) { handler }] *)
Definition try_catch {A} (body : M A) (handler : Exn -> M A) : M A :=
  fun w =>
    match body w with
    | (Ok a, w') => (Ok a, w')
    | (Throw e, w') => handler e w'
    end.

(** [try { body } finally { final }] *)
Definition try_finally {A} (body : M A) (final : M unit) : M A :=
  fun w =>
    match body w with
    | (r, w') =>
        match final w' with
        | (Ok _, w'') => (r, w'')
        | (Throw e, w'') => (Throw e, w'')
        end
    end.

Declare Scope js_scope.
Delimit Scope js_scope with M.
Bind Scope js_scope with M.

Notation "'let*' x ':=' m 'in' k" := (bind m (fun x => k))
  (at level 10, x name, m at level 100, k at level 200) : js_scope.
Notation "m1 ';;' m2" := (bind m1 (fun _ => m2))
  (at level 100, m2 at level 200, right associativity) : js_scope.

Local Open Scope js_scope.

(** [xs.forEach(x => body)] *)
Fixpoint forEach {A} (xs : list A) (body : A -> M unit) : M unit :=
  match xs with
  | [] => ret tt
  | x :: xs' => body x;; forEach xs' body
  end.

Definition when (b : bool) (m : M unit) : M unit := if b then m else ret tt.

Definition state_of {A} (r : Res A * World) : World := snd r.

Definition result_of {A} (r : Res A * World) : Res A := fst r.

(** ** DOM, storage and timer primitives *)

Definition classList_add (c : jsstr) (s : gset jsstr) : gset jsstr := s ∪ {[c]}.

Definition classList_remove (c : jsstr) (s : gset jsstr) : gset jsstr := s ∖ {[c]}.

Definition classList_contains (c : jsstr) (s : gset jsstr) : bool := bool_decide (c ∈ s).

(** [classList.add] refuses a token that is empty or holds ASCII white
    space.  The check is written out where the token is computed from an
    argument; the literal tokens of the source all pass it. *)
Definition is_ascii_whitespace (c : N) : bool :=
  (c =? 0x9) || (c =? 0xA) || (c =? 0xC) || (c =? 0xD) || (c =? 0x20).

Definition token_error (token : jsstr) : option jsstr :=
  if js_falsy token then Some (js "SyntaxError")
  else if existsb is_ascii_whitespace token then Some (js "InvalidCharacterError")
  else None.

(** [classList.toggle(c, force)] *)
Definition classList_toggle (c : jsstr) (force : bool) (s : gset jsstr) : gset jsstr :=
  if force then classList_add c s else classList_remove c s.

Definition console_put (l : Level) (msg : jsstr) : M unit :=
  modify (on_console (fun c => c ++ [(l, msg)])).

Definition setTimeout (t : Task) (delay : N) : M unit :=
  modify (on_loop (fun l => with_timers (timers l ++ [mkTimer delay t]) l)).

Definition addEventListener (l : Listener) : M unit :=
  modify (on_loop (fun lp => with_listeners (listeners lp ++ [l]) lp)).

(** [element.focus()] on a control. *)
Definition focus (r : Ref) : M unit :=
  modify (on_page (with_activeElement (Some r))).

Definition localStorage_getItem (key : jsstr) : M (option jsstr) :=
  let* st := gets storage in
  if get_throws st then throw (DOMException (js "SecurityError"))
  else ret (items st !! key).

Definition localStorage_setItem (key value : jsstr) : M unit :=
  let* st := gets storage in
  if set_throws st then throw (DOMException (js "QuotaExceededError"))
  else modify (on_storage (with_items (<[key := value]> (items st)))).

Definition documentElement_classList (f : gset jsstr -> gset jsstr) : M unit :=
  modify (on_page (fun p => with_root_classes (f (root_classes p)) p)).

Definition body_classList (f : gset jsstr -> gset jsstr) : M unit :=
  modify (on_page (fun p => with_body_classes (f (body_classes p)) p)).

(** A write to an attribute of the panel queues a record for the observers
    of the panel, when there are any. *)
Definition queue_record (attributeName : jsstr) : M unit :=
  modify (on_loop (fun l =>
    match observers l with
    | [] => l
    | _ => with_mutations (mutations l ++ [attributeName]) l
    end)).

Definition update_panel (f : Panel -> Panel) : M unit :=
  modify (on_panel_ui (fun u => with_panel (f <$> panel u) u)).

Definition panel_classList (f : gset jsstr -> gset jsstr) : M unit :=
  update_panel (fun p => mkPanel (f (p_classes p)) (p_aria_hidden p) (p_children p));;
  queue_record (js "class").

Definition panel_set_aria_hidden (v : jsstr) : M unit :=
  update_panel (fun p => mkPanel (p_classes p) (Some v) (p_children p));;
  queue_record (js "aria-hidden").

Definition panel_has_class (c : jsstr) (w : World) : bool :=
  match panel (panel_ui w) with
  | Some p => classList_contains c (p_classes p)
  | None => false
  end.

Definition toggle_set_aria_expanded (v : jsstr) : M unit :=
  modify (on_panel_ui (fun u => with_toggle ((fun _ => mkToggle (Some v)) <$> toggle u) u)).

Definition set_child_tabindex (v : jsstr) (i : nat) : M unit :=
  update_panel (fun p =>
    mkPanel (p_classes p) (p_aria_hidden p)
            (alter (fun c => mkPanelChild (c_tag c) (c_classes c) (Some v)) i (p_children p))).

(** Positions of the descendants of the panel that a selector matches, in
    document order. *)
Definition panel_querySelectorAll (sel : PanelChild -> bool) : M (list nat) :=
  let* u := gets panel_ui in
  match panel u with
  | Some p => ret (fst <$> filter (fun ic => sel (snd ic) = true) (imap pair (p_children p)))
  | None => ret []
  end.

Definition panel_querySelector (sel : PanelChild -> bool) : M (option nat) :=
  let* l := panel_querySelectorAll sel in ret (head l).

(** ['input, select, button:not(.accessibility-toggle)'] *)
Definition tabbing_selector (c : PanelChild) : bool :=
  match c_tag c with
  | TagInput | TagSelect => true
  | TagButton => negb (classList_contains (js "accessibility-toggle") (c_classes c))
  | _ => false
  end.

(** ['input, select, button, textarea, [tabindex]'] *)
Definition focusable_selector (c : PanelChild) : bool :=
  match c_tag c with
  | TagInput | TagSelect | TagButton | TagTextarea => true
  | TagOther => bool_decide (is_Some (c_tabindex c))
  end.

(** ** Methods of [AccessibilityManager] *)

Definition announceToScreenReader (message : jsstr) : M unit :=
  let* n := gets (fun w => next_node (page w)) in
  modify (on_page (fun p => with_next_node (S n) (with_live (live p ++ [mkLiveNode n message]) p)));;
  setTimeout (TaskRemoveLive n) 1000.

Definition setTextSize (size : jsstr) : M unit :=
  documentElement_classList
    (fun s => classList_remove (js "text-extra-large") (classList_remove (js "text-large") s));;
  when (negb (js_eqb size (js "normal")))
       (match token_error (js "text-" ++ size) with
        | Some name => throw (DOMException name)
        | None => documentElement_classList (classList_add (js "text-" ++ size))
        end);;
  localStorage_setItem (js "textSize") size;;
  announceToScreenReader (js "Text size changed to " ++ size).

Definition setHighContrast (enabled : bool) : M unit :=
  documentElement_classList (classList_toggle (js "high-contrast") enabled);;
  localStorage_setItem (js "highContrast") (js_of_bool enabled);;
  announceToScreenReader
    (js "High contrast mode " ++ (if enabled then js "enabled" else js "disabled")).

Definition setReducedMotion (enabled : bool) : M unit :=
  documentElement_classList (classList_toggle (js "reduce-motion") enabled);;
  localStorage_setItem (js "reducedMotion") (js_of_bool enabled);;
  announceToScreenReader
    (js "Reduced motion " ++ (if enabled then js "enabled" else js "disabled")).

Definition setTheme (theme : jsstr) : M unit :=
  modify (on_page (with_root_data_theme (Some theme)));;
  localStorage_setItem (js "theme") theme;;
  announceToScreenReader (js "Switched to " ++ theme ++ js " theme").

Definition panel_or_toggle_missing (w : World) : bool :=
  negb (this_panel (mgr w)) || negb (this_toggle (mgr w)).

Definition openPanel : M unit :=
  let* missing := gets panel_or_toggle_missing in
  if missing then ret tt
  else
    panel_classList (classList_add (js "open"));;
    toggle_set_aria_expanded (js "true");;
    panel_set_aria_hidden (js "false");;
    let* firstFocusable := panel_querySelector focusable_selector in
    match firstFocusable with
    | Some i => setTimeout (TaskFocus (RPanelChild i)) 100
    | None => ret tt
    end;;
    announceToScreenReader (js "Accessibility panel opened").

Definition closePanel : M unit :=
  let* missing := gets panel_or_toggle_missing in
  if missing then ret tt
  else
    panel_classList (classList_remove (js "open"));;
    toggle_set_aria_expanded (js "false");;
    panel_set_aria_hidden (js "true");;
    announceToScreenReader (js "Accessibility panel closed").

(** The callback of the [MutationObserver], for one observer and the batch
    of records delivered to it. *)
Definition observer_callback (panelElements : list nat) (records : list jsstr) : M unit :=
  forEach records (fun attributeName =>
    when (js_eqb attributeName (js "aria-hidden"))
      (let* u := gets panel_ui in
       let isHidden :=
         match panel u with
         | Some p => bool_decide (p_aria_hidden p = Some (js "true"))
         | None => false
         end in
       forEach panelElements
         (set_child_tabindex (if isHidden then js "-1" else js "0")))).

Definition setupPanelTabbing : M unit :=
  let* panelElements := panel_querySelectorAll tabbing_selector in
  forEach panelElements (set_child_tabindex (js "-1"));;
  modify (on_loop (fun l => with_observers (observers l ++ [panelElements]) l)).

(** The microtask checkpoint that ends a task: pending records are handed
    to the observers. *)
Definition deliver_mutations : M unit :=
  let* l := gets loop in
  match mutations l with
  | [] => ret tt
  | records =>
      modify (on_loop (with_mutations []));;
      forEach (observers l) (fun panelElements => observer_callback panelElements records)
  end.

Definition handleToggleClick : M unit :=
  let* w := gets id in
  if negb (this_panel (mgr w)) then throw (TypeError (js "this.panel is null"))
  else
    let isOpen := panel_has_class (js "open") w in
    if isOpen then closePanel else openPanel.

(** [inside]: whether the panel contains the target of the click. *)
Definition handleDocumentClick (inside : bool) : M unit :=
  let* w := gets id in
  if this_panel (mgr w) && panel_has_class (js "open") w && negb inside
  then closePanel
  else ret tt.

Definition handleKeydown (key : jsstr) : M unit :=
  let* w := gets id in
  (if js_eqb key (js "Escape") && this_panel (mgr w) && panel_has_class (js "open") w
   then
     closePanel;;
     (if this_toggle (mgr w) then focus RToggle
      else throw (TypeError (js "this.toggle is null")))
   else ret tt);;
  when (js_eqb key (js "Tab"))
       (body_classList (classList_add (js "keyboard-navigation"))).

(** *** Form validation *)

Definition requiredFields : list jsstr := [js "name"; js "email"; js "message"].

(** [document.getElementById(id)] for a form control: the first one in
    document order with that id, with its position. *)
Definition getElementById (id : jsstr) (cs : list Field) : option (nat * Field) :=
  list_find (fun f => f_id f = id) cs.

(** One round of the [forEach] of [updateSubmitButtonState], on the variable
    [allFieldsValid]. *)
Definition gate_step (cs : list Field) (allFieldsValid : bool) (fieldId : jsstr) : bool :=
  match getElementById fieldId cs with
  | Some (_, field) =>
      let value := trim (f_value field) in
      let allFieldsValid :=
        if js_falsy value
           || (js_length value <? (if js_eqb fieldId (js "message") then 10 else 2))
        then false else allFieldsValid in
      if js_eqb fieldId (js "email") && negb (js_falsy value)
         && negb (regex_test email_pattern value)
      then false else allFieldsValid
  | None => allFieldsValid
  end.

Definition submit_gate (cs : list Field) : bool :=
  fold_left (gate_step cs) requiredFields true.

Definition update_submitBtn (f : Button -> Button) : M unit :=
  modify (on_form_ui (fun x => with_submitBtn (f <$> submitBtn x) x)).

Definition updateSubmitButtonState : M unit :=
  let* x := gets form_ui in
  match submitBtn x with
  | None => ret tt
  | Some _ =>
      let allFieldsValid := submit_gate (controls x) in
      update_submitBtn (fun b =>
        mkButton (negb allFieldsValid) (b_classes b) (b_text b) (b_describedby b));;
      if allFieldsValid then
        update_submitBtn (fun b =>
          mkButton (b_disabled b) (b_classes b) (b_text b) (Some (js "submitReady")));;
        when (negb (submitReady x)) (modify (on_form_ui (with_submitReady true)))
      else
        update_submitBtn (fun b =>
          mkButton (b_disabled b) (b_classes b) (b_text b) None);;
        when (submitReady x) (modify (on_form_ui (with_submitReady false)))
  end.

(** The [switch] of [validateField] on the variables [isValid] and
    [errorMessage]. *)
Definition field_switch (fieldName value : jsstr) : bool * jsstr :=
  if js_eqb fieldName (js "name") then
    if js_falsy value then (false, js "Name is required")
    else if js_length value <? 2 then (false, js "Name must be at least 2 characters long")
    else (true, [])
  else if js_eqb fieldName (js "email") then
    if js_falsy value then (false, js "Email is required")
    else if negb (regex_test email_pattern value)
    then (false, js "Please enter a valid email address")
    else (true, [])
  else if js_eqb fieldName (js "message") then
    if js_falsy value then (false, js "Message is required")
    else if js_length value <? 10
    then (false, js "Message must be at least 10 characters long")
    else (true, [])
  else (true, []).

(** A control passed as an argument is given by its position. *)
Definition the_field (i : nat) : M Field :=
  let* x := gets form_ui in
  match controls x !! i with
  | Some field => ret field
  | None => throw (TypeError (js "field is undefined"))
  end.

Definition set_aria_invalid (i : nat) (v : jsstr) : M unit :=
  modify (on_form_ui (fun x =>
    with_controls
      (alter (fun f => mkField (f_id f) (f_name f) (f_value f) (f_default f) (Some v) (f_in_form f))
             i (controls x)) x)).

Definition update_error_el (id : jsstr) (f : ErrorEl -> ErrorEl) : M unit :=
  modify (on_form_ui (fun x => with_error_els (alter f id (error_els x)) x)).

Definition displayFieldError (i : nat) (message : jsstr) : M unit :=
  let* field := the_field i in
  update_error_el (f_name field ++ js "Error") (fun e =>
    mkErrorEl message (classList_toggle (js "visible") (negb (js_falsy message)) (e_classes e)));;
  set_aria_invalid i (js_of_bool (negb (js_falsy message))).

Definition clearFieldError (i : nat) : M unit :=
  let* field := the_field i in
  update_error_el (f_name field ++ js "Error") (fun e =>
    mkErrorEl [] (classList_remove (js "visible") (e_classes e)));;
  set_aria_invalid i (js "false").

Definition validateField (i : nat) : M bool :=
  let* field := the_field i in
  let value := trim (f_value field) in
  let fieldName := f_name field in
  let '(isValid, errorMessage) := field_switch fieldName value in
  displayFieldError i errorMessage;;
  setTimeout TaskUpdateSubmit 0;;
  ret isValid.

(** [form.querySelector('[aria-invalid="true"]')] *)
Definition form_first_invalid (cs : list Field) : option nat :=
  fst <$> list_find
    (fun f => f_in_form f = true /\ f_aria_invalid f = Some (js "true")) cs.

Definition new_banner (class text aria_live : jsstr) : M nat :=
  let* n := gets (fun w => next_node (page w)) in
  modify (on_page (with_next_node (S n)));;
  modify (on_form_ui (fun x => with_banners (banners x ++ [mkBanner n class text aria_live]) x));;
  ret n.

(** [form.querySelector('.success-message, .error-message')], removed when
    found. *)
Definition remove_existing_message : M unit :=
  modify (on_form_ui (fun x => with_banners (tail (banners x)) x)).

(** The banner is a [div] without [tabindex]: its [focus()] has no effect. *)
Definition showSuccessMessage (message : jsstr) : M unit :=
  remove_existing_message;;
  let* n := new_banner (js "success-message") message (js "polite") in
  setTimeout (TaskRemoveBanner n) 8000.

Definition showErrorMessage (message : jsstr) : M unit :=
  remove_existing_message;;
  let* n := new_banner (js "error-message") message (js "assertive") in
  setTimeout (TaskRemoveBanner n) 8000.

(** [form.reset()] *)
Definition form_reset : M unit :=
  modify (on_form_ui (fun x =>
    with_controls
      (map (fun f =>
              if f_in_form f
              then mkField (f_id f) (f_name f) (f_default f) (f_default f)
                           (f_aria_invalid f) (f_in_form f)
              else f) (controls x)) x)).

(** The first [forEach] of [validateAndSubmitForm], on [isFormValid]. *)
Fixpoint validate_all (ids : list jsstr) (isFormValid : bool) : M bool :=
  match ids with
  | [] => ret isFormValid
  | fieldName :: ids' =>
      let* x := gets form_ui in
      match getElementById fieldName (controls x) with
      | Some (i, _) =>
          let* ok := validateField i in
          validate_all ids' (if negb ok then false else isFormValid)
      | None => validate_all ids' isFormValid
      end
  end.

(** [validateAndSubmitForm] up to its [await]; the rest runs when the timer
    of the simulated send fires ([TaskSendDone]). *)
Definition validateAndSubmitForm : M unit :=
  let* isFormValid := validate_all requiredFields true in
  if negb isFormValid then
    announceToScreenReader (js "Please correct the errors in the form");;
    let* x := gets form_ui in
    match form_first_invalid (controls x) with
    | Some i => focus (RField i)
    | None => ret tt
    end
  else
    let* x := gets form_ui in
    match submitBtn x with
    | None => throw (TypeError (js "submitBtn is null"))
    | Some btn =>
        update_submitBtn (fun b =>
          mkButton (b_disabled b) (classList_add (js "loading") (b_classes b))
                   (b_text b) (b_describedby b));;
        update_submitBtn (fun b =>
          mkButton true (b_classes b) (b_text b) (b_describedby b));;
        let originalText := b_text btn in
        update_submitBtn (fun b =>
          mkButton (b_disabled b) (b_classes b) (js "Sending...") (b_describedby b));;
        setTimeout (TaskSendDone originalText) 2000
    end.

(** [validateAndSubmitForm] after its [await]. *)
Definition validateAndSubmitForm_resume (originalText : jsstr) : M unit :=
  try_finally
    (try_catch
       (announceToScreenReader (js "Message sent successfully");;
        form_reset;;
        forEach requiredFields (fun fieldName =>
          let* x := gets form_ui in
          match getElementById fieldName (controls x) with
          | Some (i, _) => clearFieldError i
          | None => ret tt
          end);;
        showSuccessMessage
          (js "Thank you for your message. We will get back to you soon!"))
       (fun error =>
          console_put ErrorLevel (js "Form submission error:");;
          announceToScreenReader (js "Error sending message. Please try again.");;
          showErrorMessage
            (js "There was an error sending your message. Please try again.")))
    (update_submitBtn (fun b =>
       mkButton (b_disabled b) (classList_remove (js "loading") (b_classes b))
                (b_text b) (b_describedby b));;
     update_submitBtn (fun b =>
       mkButton false (b_classes b) (b_text b) (b_describedby b));;
     update_submitBtn (fun b =>
       mkButton (b_disabled b) (b_classes b) originalText (b_describedby b))).

(** *** Set-up *)

Definition setupPreferenceControls : M unit :=
  let* x := gets widgets in
  when (bool_decide (is_Some (textSize_select x))) (addEventListener OnTextSizeChange);;
  when (bool_decide (is_Some (highContrast_box x))) (addEventListener OnHighContrastChange);;
  when (bool_decide (is_Some (reducedMotion_box x))) (addEventListener OnReducedMotionChange).

Definition setupAccessibilityPanel : M unit :=
  let* u := gets panel_ui in
  modify (on_mgr (fun m =>
    mkManager (bool_decide (is_Some (panel u))) (bool_decide (is_Some (toggle u)))
              (isInitialized m)));;
  let* missing := gets panel_or_toggle_missing in
  if missing then console_put WarnLevel (js "Accessibility panel elements not found")
  else
    addEventListener OnToggleClick;;
    addEventListener OnDocumentClick;;
    addEventListener OnDocumentKeydown;;
    setupPanelTabbing;;
    setupPreferenceControls.

Definition set_themeToggle_pressed (v : jsstr) : M unit :=
  modify (on_widgets (fun x =>
    with_theme_widgets
      (mkThemeWidgets ((fun _ => mkPressButton (Some v)) <$> themeToggle (theme_widgets x))
                      (toggleTheme (theme_widgets x))) x)).

Definition setupThemeToggle : M unit :=
  let* x := gets widgets in
  when (bool_decide (is_Some (themeToggle (theme_widgets x))))
       (addEventListener OnThemeToggleClick);;
  when (bool_decide (is_Some (toggleTheme (theme_widgets x))))
       (addEventListener OnToggleThemeChange).

(** The click listener of [#themeToggle]. *)
Definition on_themeToggle_click : M unit :=
  let* x := gets widgets in
  match themeToggle (theme_widgets x) with
  | None => throw (TypeError (js "themeToggle is null"))
  | Some b =>
      let isPressed := bool_decide (pb_aria_pressed b = Some (js "true")) in
      let newTheme := if isPressed then js "light" else js "dark" in
      setTheme newTheme;;
      set_themeToggle_pressed (js_of_bool (negb isPressed))
  end.

(** The change listener of [#toggleTheme]. *)
Definition on_toggleTheme_change (checked : bool) : M unit :=
  let newTheme := if checked then js "dark" else js "light" in
  setTheme newTheme;;
  set_themeToggle_pressed (js_of_bool checked).

Definition setupFormValidation : M unit :=
  let* x := gets form_ui in
  if negb (contactForm x) || negb (bool_decide (is_Some (submitBtn x))) then ret tt
  else
    updateSubmitButtonState;;
    addEventListener OnFormSubmit;;
    forEach requiredFields (fun fieldId =>
      match getElementById fieldId (controls x) with
      | Some (i, _) =>
          addEventListener (OnFieldBlur i);;
          addEventListener (OnFieldInput i)
      | None => ret tt
      end).

Definition setupKeyboardNavigation : M unit :=
  addEventListener OnDocumentMousedown;;
  let* n := gets skip_links in
  forEach (seq 0 n) (fun i => addEventListener (OnSkipLinkClick i)).

Definition set_reducedMotion_checked (v : bool) : M unit :=
  modify (on_widgets (fun x =>
    with_reducedMotion_box
      ((fun c => mkCheckbox v (cb_aria_pressed c)) <$> reducedMotion_box x) x)).

Definition setupReducedMotion : M unit :=
  let* m := gets media in
  when (prefers_reduced_motion m)
       (set_reducedMotion_checked true;;
        setReducedMotion true);;
  addEventListener OnMotionPreferenceChange.

(** The change listener of the motion media query. *)
Definition on_motion_preference_change (matches : bool) : M unit :=
  set_reducedMotion_checked matches;;
  setReducedMotion matches.

(** *** Loading the preferences

    [loadUserPreferences] calls [this.detectSystemTheme()] and
    [this.updateThemeControls(theme)].  The class body defines neither
    method, so in the class as written each call is a [TypeError].  The
    embedding takes the pair as an optional argument: [None] is the class
    as written; [Some h] is the class completed with a reading of the media
    queries and an update of the two theme widgets. *)

Record ThemeHelpers : Type := mkThemeHelpers {
  detectSystemTheme_impl : Media -> jsstr;
  updateThemeControls_impl : jsstr -> ThemeWidgets -> ThemeWidgets }.

Definition detectSystemTheme (h : option ThemeHelpers) : M jsstr :=
  match h with
  | None => throw (TypeError (js "this.detectSystemTheme is not a function"))
  | Some x => let* m := gets media in ret (detectSystemTheme_impl x m)
  end.

Definition updateThemeControls (h : option ThemeHelpers) (theme : jsstr) : M unit :=
  match h with
  | None => throw (TypeError (js "this.updateThemeControls is not a function"))
  | Some x =>
      modify (on_widgets (fun y =>
        with_theme_widgets (updateThemeControls_impl x theme (theme_widgets y)) y))
  end.

(** [a || b] for a string or null [a]. *)
Definition js_or (a : option jsstr) (b : jsstr) : jsstr :=
  match a with
  | Some s => if js_falsy s then b else s
  | None => b
  end.

(** [a === 'true'] for a string or null [a]. *)
Definition is_true_string (a : option jsstr) : bool := bool_decide (a = Some (js "true")).

Definition set_select_value (v : jsstr) (s : Select) : Select :=
  mkSelect (sel_options s) (if bool_decide (v ∈ sel_options s) then v else []).

Definition loadUserPreferences (h : option ThemeHelpers) : M unit :=
  try_catch
    (let* systemTheme := detectSystemTheme h in
     let* theme := localStorage_getItem (js "theme") in
     let savedTheme := js_or theme systemTheme in
     let* textSize := localStorage_getItem (js "textSize") in
     let savedTextSize := js_or textSize (js "normal") in
     let* highContrast := localStorage_getItem (js "highContrast") in
     let savedHighContrast := is_true_string highContrast in
     let* reducedMotion := localStorage_getItem (js "reducedMotion") in
     let savedReducedMotion := is_true_string reducedMotion in
     setTheme savedTheme;;
     setTextSize savedTextSize;;
     setHighContrast savedHighContrast;;
     setReducedMotion savedReducedMotion;;
     updateThemeControls h savedTheme;;
     modify (on_widgets (fun x =>
       with_textSize_select (set_select_value savedTextSize <$> textSize_select x) x));;
     modify (on_widgets (fun x =>
       with_highContrast_box
         ((fun c => mkCheckbox (cb_checked c) (Some (js_of_bool savedHighContrast)))
            <$> highContrast_box x) x));;
     modify (on_widgets (fun x =>
       with_reducedMotion_box
         ((fun c => mkCheckbox (cb_checked c) (Some (js_of_bool savedReducedMotion)))
            <$> reducedMotion_box x) x)))
    (fun error =>
       console_put WarnLevel (js "Error loading user preferences:");;
       setTheme (js "dark");;
       updateThemeControls h (js "dark")).

Definition initializeComponents (h : option ThemeHelpers) : M unit :=
  try_catch
    (setupAccessibilityPanel;;
     setupThemeToggle;;
     setupFormValidation;;
     setupKeyboardNavigation;;
     setupReducedMotion;;
     loadUserPreferences h;;
     modify (on_mgr (fun m => mkManager (this_panel m) (this_toggle m) true));;
     console_put LogLevel (js "Accessibility Manager initialized successfully"))
    (fun error =>
       console_put ErrorLevel (js "Error initializing Accessibility Manager:")).

(** The class as the source has it. *)
Definition as_written : option ThemeHelpers := None.

(** Modelled from the spec: [detectSystemTheme] and [updateThemeControls]
    are missing from the class; the spec names the first the system-level
    media-query signal for the theme, and has the second bring the
    pressed-state attributes of the theme widgets in line with the theme
    without calling a setter.  Dark is the pressed and checked state, as in
    the two listeners of [setupThemeToggle]. *)
Definition spec_helpers : ThemeHelpers :=
  mkThemeHelpers
    (fun m => if prefers_dark m then js "dark" else js "light")
    (fun theme tw =>
       let dark := js_eqb theme (js "dark") in
       mkThemeWidgets
         ((fun _ => mkPressButton (Some (js_of_bool dark))) <$> themeToggle tw)
         ((fun c => mkCheckbox dark (cb_aria_pressed c)) <$> toggleTheme tw)).

(** ** The event loop *)

Definition run_task (t : Task) : M unit :=
  match t with
  | TaskFocus r => focus r
  | TaskUpdateSubmit => updateSubmitButtonState
  | TaskRemoveLive n =>
      modify (on_page (fun p =>
        with_live (filter (fun l => ln_node l <> n) (live p)) p))
  | TaskRemoveBanner n =>
      modify (on_form_ui (fun x =>
        with_banners (filter (fun b => bn_node b <> n) (banners x)) x))
  | TaskSendDone originalText => validateAndSubmitForm_resume originalText
  end.

(** What the user or the browser does to the page. *)
Inductive Event : Type :=
| EvClickToggle (insidePanel : bool)
| EvClickThemeToggle (insidePanel : bool)
| EvClick (insidePanel : bool)
| EvKeydown (key : jsstr)
| EvMousedown
| EvChangeTextSize (value : jsstr)
| EvChangeHighContrast (checked : bool)
| EvChangeReducedMotion (checked : bool)
| EvChangeToggleTheme (checked : bool)
| EvBlur (i : nat)
| EvInput (i : nat) (value : jsstr)
| EvSubmit
| EvMotionPreference (matches : bool).

Global Instance Listener_eq_dec : EqDecision Listener := ltac:(solve_decision).

Global Instance Ref_eq_dec : EqDecision Ref := ltac:(solve_decision).

Global Instance Task_eq_dec : EqDecision Task := ltac:(solve_decision).

(** What the browser changes before it fires the event. *)
Definition default_action (ev : Event) : M unit :=
  match ev with
  | EvChangeTextSize value =>
      modify (on_widgets (fun x =>
        with_textSize_select (set_select_value value <$> textSize_select x) x))
  | EvChangeHighContrast checked =>
      modify (on_widgets (fun x =>
        with_highContrast_box
          ((fun c => mkCheckbox checked (cb_aria_pressed c)) <$> highContrast_box x) x))
  | EvChangeReducedMotion checked => set_reducedMotion_checked checked
  | EvChangeToggleTheme checked =>
      modify (on_widgets (fun x =>
        with_theme_widgets
          (mkThemeWidgets (themeToggle (theme_widgets x))
             ((fun c => mkCheckbox checked (cb_aria_pressed c))
                <$> toggleTheme (theme_widgets x))) x))
  | EvInput i value =>
      modify (on_form_ui (fun x =>
        with_controls
          (alter (fun f => mkField (f_id f) (f_name f) value (f_default f)
                                   (f_aria_invalid f) (f_in_form f))
                 i (controls x)) x))
  | _ => ret tt
  end.

(** The body a listener runs for an event, if it is a listener for it.
    [stopped]: a listener of the toggle has called [stopPropagation]. *)
Definition listener_body (stopped : bool) (l : Listener) (ev : Event) : option (M unit) :=
  match l, ev with
  | OnToggleClick, EvClickToggle _ => Some handleToggleClick
  | OnDocumentClick, EvClickToggle inside =>
      if stopped then None else Some (handleDocumentClick inside)
  | OnThemeToggleClick, EvClickThemeToggle _ => Some on_themeToggle_click
  | OnDocumentClick, EvClickThemeToggle inside => Some (handleDocumentClick inside)
  | OnDocumentClick, EvClick inside => Some (handleDocumentClick inside)
  | OnDocumentKeydown, EvKeydown key => Some (handleKeydown key)
  | OnDocumentMousedown, EvMousedown =>
      Some (body_classList (classList_remove (js "keyboard-navigation")))
  | OnTextSizeChange, EvChangeTextSize _ =>
      Some (let* x := gets widgets in
            match textSize_select x with
            | Some s => setTextSize (sel_value s)
            | None => ret tt
            end)
  | OnHighContrastChange, EvChangeHighContrast checked => Some (setHighContrast checked)
  | OnReducedMotionChange, EvChangeReducedMotion checked => Some (setReducedMotion checked)
  | OnToggleThemeChange, EvChangeToggleTheme checked => Some (on_toggleTheme_change checked)
  | OnFieldBlur i, EvBlur j =>
      if decide (i = j) then Some (validateField i;; ret tt) else None
  | OnFieldInput i, EvInput j _ =>
      if decide (i = j) then Some (clearFieldError i;; updateSubmitButtonState) else None
  | OnFormSubmit, EvSubmit => Some validateAndSubmitForm
  | OnMotionPreferenceChange, EvMotionPreference matches =>
      Some (on_motion_preference_change matches)
  | _, _ => None
  end.

(** An exception that leaves a listener is reported and the next listener
    runs. *)
Definition dispatch (ev : Event) : M unit :=
  default_action ev;;
  let* ls := gets (fun w => listeners (loop w)) in
  let stopped := bool_decide (OnToggleClick ∈ ls) in
  forEach ls (fun l =>
    match listener_body stopped l ev with
    | Some body => try_catch body (fun _ => console_put ErrorLevel (js "Uncaught"))
    | None => ret tt
    end).

(** One turn of the loop for an event: the listeners, then the microtask
    checkpoint. *)
Definition handle_event (ev : Event) : M unit :=
  dispatch ev;; deliver_mutations.

(** One turn of the loop for the timer at position [k] of the queue. *)
Definition fire_timer (k : nat) : M unit :=
  let* l := gets loop in
  match timers l !! k with
  | None => ret tt
  | Some t =>
      modify (on_loop (with_timers (delete k (timers l))));;
      try_catch (run_task (tm_task t))
                (fun _ => console_put ErrorLevel (js "Uncaught"));;
      deliver_mutations
  end.

(** One turn of the event loop: an event and its listeners, or the timer
    at a position of the queue. *)
Inductive Turn : Type :=
| TurnEvent (ev : Event)
| TurnTimer (k : nat).

Definition run_turn (t : Turn) : M unit :=
  match t with
  | TurnEvent ev => handle_event ev
  | TurnTimer k => fire_timer k
  end.

(** The state after the turns [ts], in this order. *)
Definition run_turns (ts : list Turn) (w : World) : World :=
  fold_left (fun w t => state_of (run_turn t w)) ts w.

(** ** The script around the class

    The constructor, [init] and [isReady], and the statements that follow
    the class body: they read [document.readyState] and wait for
    [DOMContentLoaded] while the document is loading.  The script creates
    at most one manager, the one whose fields [World] holds. *)

Inductive ReadyState : Type := Loading | Interactive | Complete.

(** Callbacks handed to [document.addEventListener('DOMContentLoaded', _)]:
    the one of [init], and the one of the statement after the class. *)
Inductive LoadedListener : Type :=
| OnLoadedInitialize
| OnLoadedConstruct.

(** A value of the variable [accessibilityManager]. *)
Inductive ManagerValue : Type := Undefined | TheManager.

(** [accessibilityManager]: the variable declared with [let];
    [window_accessibilityManager]: the property of [window] with that name,
    if it has been assigned. *)
Record Script : Type := mkScript {
  world : World;
  readyState : ReadyState;
  loaded_listeners : list LoadedListener;
  accessibilityManager : ManagerValue;
  window_accessibilityManager : option ManagerValue }.

Definition on_world (f : World -> World) (s : Script) : Script :=
  mkScript (f (world s)) (readyState s) (loaded_listeners s)
           (accessibilityManager s) (window_accessibilityManager s).

Definition with_readyState (v : ReadyState) (s : Script) : Script :=
  mkScript (world s) v (loaded_listeners s)
           (accessibilityManager s) (window_accessibilityManager s).

Definition with_loaded_listeners (v : list LoadedListener) (s : Script) : Script :=
  mkScript (world s) (readyState s) v
           (accessibilityManager s) (window_accessibilityManager s).

Definition with_accessibilityManager (v : ManagerValue) (s : Script) : Script :=
  mkScript (world s) (readyState s) (loaded_listeners s) v (window_accessibilityManager s).

Definition with_window_accessibilityManager (v : option ManagerValue) (s : Script) : Script :=
  mkScript (world s) (readyState s) (loaded_listeners s) (accessibilityManager s) v.

(** A method of the class, run on the page of the script. *)
Definition in_world {A} (m : M A) (s : Script) : Res A * Script :=
  match m (world s) with
  | (r, w') => (r, on_world (fun _ => w') s)
  end.

Definition is_loading (s : Script) : bool :=
  match readyState s with
  | Loading => true
  | _ => false
  end.

Definition init (h : option ThemeHelpers) (s : Script) : Res unit * Script :=
  if is_loading s
  then (Ok tt, with_loaded_listeners (loaded_listeners s ++ [OnLoadedInitialize]) s)
  else in_world (initializeComponents h) s.

(** [new AccessibilityManager()]: the constructor clears the three fields,
    binds the three handlers to the manager (a listener is data here, so
    there is nothing to do) and calls [init]. *)
Definition constructor (h : option ThemeHelpers) (s : Script) : Res unit * Script :=
  init h (on_world (on_mgr (fun _ => mkManager false false false)) s).

Definition isReady : M bool := gets (fun w => isInitialized (mgr w)).

(** [accessibilityManager = new AccessibilityManager()] *)
Definition construct_and_assign (h : option ThemeHelpers) (s : Script) : Res unit * Script :=
  match constructor h s with
  | (Ok _, s') => (Ok tt, with_accessibilityManager TheManager s')
  | (Throw e, s') => (Throw e, s')
  end.

(** The statements of the script after the class, up to the assignment to
    [window.accessibilityManager]. *)
Definition script_main (h : option ThemeHelpers) (s : Script) : Res unit * Script :=
  let s := with_accessibilityManager Undefined s in
  match
    (if is_loading s
     then (Ok tt, with_loaded_listeners (loaded_listeners s ++ [OnLoadedConstruct]) s)
     else construct_and_assign h s)
  with
  | (Ok _, s') => (Ok tt, with_window_accessibilityManager (Some (accessibilityManager s')) s')
  | (Throw e, s') => (Throw e, s')
  end.

Definition run_loaded_listener (h : option ThemeHelpers) (l : LoadedListener)
    : Script -> Res unit * Script :=
  match l with
  | OnLoadedInitialize => in_world (initializeComponents h)
  | OnLoadedConstruct => construct_and_assign h
  end.

(** The document has been parsed: [readyState] leaves ['loading'] and the
    listeners of [DOMContentLoaded] run in the order they were added; an
    exception that leaves one is reported. *)
Definition fire_DOMContentLoaded (h : option ThemeHelpers) (s : Script) : Script :=
  let s := with_readyState Interactive s in
  fold_left
    (fun s l =>
       match run_loaded_listener h l s with
       | (Ok _, s') => s'
       | (Throw _, s') => on_world (fun w => state_of (console_put ErrorLevel (js "Uncaught") w)) s'
       end)
    (loaded_listeners s) s.

(** The script and, when it ran while the document was loading, the
    [DOMContentLoaded] event that follows. *)
Definition script_then_loaded (h : option ThemeHelpers) (s : Script) : Script :=
  if is_loading s
  then fire_DOMContentLoaded h (snd (script_main h s))
  else snd (script_main h s).

(** * What is stated about the methods *)

(** ** Properties of computations *)

(** The computation [m] leaves the component [f] of the state as it was,
    whether it returns or throws. *)
Definition preserves {A B} (f : World -> B) (m : M A) : Prop :=
  forall w, f (state_of (m w)) = f w.

(** The computation [m] keeps the property [I] of the state, whether it
    returns or throws. *)
Definition keeps {A} (I : World -> Prop) (m : M A) : Prop :=
  forall w, I w -> I (state_of (m w)).

(** The computation [m] never throws. *)
Definition returns {A} (m : M A) : Prop :=
  forall w, exists a, result_of (m w) = Ok a.

(** A set-up step that completes and leaves the store, the media queries
    and the root of the document as they were. *)
Definition quiet_step (m : M unit) : Prop :=
  returns m
  /\ preserves storage m
  /\ preserves media m
  /\ preserves (fun w => root_classes (page w)) m
  /\ preserves (fun w => root_data_theme (page w)) m.

(** ** The form *)

(** The rule table of the form: every field is required; a name has at
    least 2 characters, an e-mail address has at least 2 and matches the
    pattern, a message has at least 10. *)
Definition rule_valid (fieldName value : jsstr) : bool :=
  if js_eqb fieldName (js "name") then 2 <=? js_length value
  else if js_eqb fieldName (js "email")
       then (2 <=? js_length value) && regex_test email_pattern value
  else if js_eqb fieldName (js "message") then 10 <=? js_length value
  else true.

(** The submit gate over the three field values. *)
Definition gate_spec (name email message : jsstr) : bool :=
  (2 <=? js_length (trim name))
  && ((2 <=? js_length (trim email)) && regex_test email_pattern (trim email))
  && (10 <=? js_length (trim message)).

(** What a required field demands of the gate: its rule when the element
    is in the document, and nothing when it is not. *)
Definition present_field_ok (cs : list Field) (fieldId : jsstr) : bool :=
  match getElementById fieldId cs with
  | Some (_, field) => rule_valid fieldId (trim (f_value field))
  | None => true
  end.

(** The state [validateField] leaves, written out. *)
Definition after_validateField (i : nat) (field : Field) (w : World) : World :=
  let message := snd (field_switch (f_name field) (trim (f_value field))) in
  state_of ((displayFieldError i message;; setTimeout TaskUpdateSubmit 0) w).

(** What the page shows for the control at position [i] is the rule table
    applied to its current value: [aria-invalid] is ["true"] exactly when
    the value breaks its rule, and the error container, when the page has
    one, is empty and not visible exactly when the value passes. *)
Definition reflects_rule_table (w : World) (i : nat) : Prop :=
  exists field,
    controls (form_ui w) !! i = Some field
    /\ let valid := rule_valid (f_name field) (trim (f_value field)) in
       f_aria_invalid field = Some (js_of_bool (negb valid))
       /\ forall e, error_els (form_ui w) !! (f_name field ++ js "Error") = Some e ->
            js_falsy (e_text e) = valid
            /\ classList_contains (js "visible") (e_classes e) = negb valid.

(** What the page shows for the control at position [i] after an input
    event that left [value] in it: no error, whatever the value, and a
    submit button that follows the gate over the current values. *)
Definition shows_no_error (w : World) (i : nat) (value : jsstr) : Prop :=
  exists field,
    controls (form_ui w) !! i = Some field
    /\ f_value field = value
    /\ f_aria_invalid field = Some (js "false")
    /\ (forall e, error_els (form_ui w) !! (f_name field ++ js "Error") = Some e ->
          e_text e = [] /\ classList_contains (js "visible") (e_classes e) = false)
    /\ (forall b, submitBtn (form_ui w) = Some b ->
          b_disabled b = negb (submit_gate (controls (form_ui w)))).

(** The value [validateField] leaves in [aria-invalid]. *)
Definition verdict (f : Field) : jsstr :=
  js_of_bool (negb (fst (field_switch (f_name f) (trim (f_value f))))).

(** A control before and after some calls of [validateField]: all is as it
    was but [aria-invalid], which is as it was or holds the verdict. *)
Definition revalidated (f f' : Field) : Prop :=
  f_id f' = f_id f /\ f_name f' = f_name f /\ f_value f' = f_value f
  /\ f_default f' = f_default f /\ f_in_form f' = f_in_form f
  /\ (f_aria_invalid f' = f_aria_invalid f \/ f_aria_invalid f' = Some (verdict f)).

(** What the required field [fieldId] contributes to [isFormValid]. *)
Definition field_passes (cs : list Field) (fieldId : jsstr) : bool :=
  match getElementById fieldId cs with
  | Some (_, field) => fst (field_switch (f_name field) (trim (f_value field)))
  | None => true
  end.

(** The timers that the failed submission may leave behind. *)
Definition harmless_task (t : Task) : Prop :=
  t = TaskUpdateSubmit \/ exists n, t = TaskRemoveLive n.

(** ** Text size *)

(** A sequence of calls of [setTextSize], each from its own listener run: a
    call that throws ends that run and leaves the state it reached. *)
Definition setTextSize_calls (sizes : list jsstr) (w : World) : World :=
  fold_left (fun w size => state_of (setTextSize size w)) sizes w.

(** The values of the text-size preference. *)
Definition valid_size (size : jsstr) : Prop :=
  size = js "normal" \/ size = js "large" \/ size = js "extra-large".

(** The text-size style classes. *)
Definition size_classes : gset jsstr := {[ js "text-large"; js "text-extra-large" ]}.

(** The style class that stands for a size: none for [normal]. *)
Definition size_class_of (size : jsstr) : gset jsstr :=
  if js_eqb size (js "normal") then ∅ else {[ js "text-" ++ size ]}.

(** The class a call of [setTextSize] adds: none when the token is
    refused. *)
Definition added_class (size : jsstr) : gset jsstr :=
  match token_error (js "text-" ++ size) with
  | Some _ => ∅
  | None => size_class_of size
  end.

(** Whether the root of the document carries a class. *)
Definition has_root_class (c : jsstr) (w : World) : bool :=
  classList_contains c (root_classes (page w)).

(** ** The panel *)

(** The three mirrors of the panel state in the document. *)
Definition has_open_class (w : World) : bool := panel_has_class (js "open") w.

Definition aria_hidden_is_false (w : World) : bool :=
  match panel (panel_ui w) with
  | Some p => bool_decide (p_aria_hidden p = Some (js "false"))
  | None => false
  end.

Definition aria_expanded_is_true (w : World) : bool :=
  match toggle (panel_ui w) with
  | Some t => bool_decide (t_aria_expanded t = Some (js "true"))
  | None => false
  end.

(** The two transitions of the panel, and the state each leads to. *)
Inductive Transition : Type := ToOpen | ToClosed.

Definition transition (t : Transition) : M unit :=
  match t with
  | ToOpen => openPanel
  | ToClosed => closePanel
  end.

Definition open_after (t : Transition) : bool :=
  match t with
  | ToOpen => true
  | ToClosed => false
  end.

(** The manager holds both nodes, as after [setupAccessibilityPanel] on a
    page that has them. *)
Definition panel_bound (w : World) : Prop :=
  this_panel (mgr w) = true /\ this_toggle (mgr w) = true
  /\ is_Some (panel (panel_ui w)) /\ is_Some (toggle (panel_ui w)).

(** The mirrors of the panel state agree. *)
Definition mirrors_agree (w : World) : Prop :=
  aria_hidden_is_false w = has_open_class w
  /\ aria_expanded_is_true w = has_open_class w.

(** The invariant of the panel: the manager holds both nodes and the
    mirrors agree. *)
Definition panel_invariant (w : World) : Prop :=
  panel_bound w /\ mirrors_agree w.

(** The part of the state that the transitions of the panel and the
    observer work on. *)
Definition panel_core (w : World)
  : Manager * PanelUI * list (list nat) * list jsstr :=
  (mgr w, panel_ui w, observers (loop w), mutations (loop w)).

(** What the mirrors of the panel state depend on: the fields of the
    manager, the class list and [aria-hidden] of the panel, and the
    toggle. *)
Definition panel_view (w : World)
  : Manager * option (gset jsstr) * option (option jsstr) * option Toggle :=
  (mgr w, p_classes <$> panel (panel_ui w), p_aria_hidden <$> panel (panel_ui w),
   toggle (panel_ui w)).

(** ** Tab order of the panel controls *)

(** The tab-order value the state of the panel calls for. *)
Definition expected_tabindex (w : World) : jsstr :=
  if has_open_class w then js "0" else js "-1".

(** The controls of the panel that the tabbing selector picks carry the
    tab-order value of the panel state. *)
Definition tabindex_in_sync (w : World) : Prop :=
  forall p i c,
    panel (panel_ui w) = Some p ->
    p_children p !! i = Some c ->
    tabbing_selector c = true ->
    c_tabindex c = Some (expected_tabindex w).

(** The form controls among the descendants of the panel. *)
Definition interactive (c : PanelChild) : bool :=
  match c_tag c with
  | TagInput | TagSelect | TagButton | TagTextarea => true
  | TagOther => false
  end.

(** Every form control of the panel carries the tab-order value of the
    panel state. *)
Definition interactive_in_sync (w : World) : Prop :=
  forall p i c,
    panel (panel_ui w) = Some p ->
    p_children p !! i = Some c ->
    interactive c = true ->
    c_tabindex c = Some (expected_tabindex w).

(** Positions of the children a selector matches. *)
Definition matching (sel : PanelChild -> bool) (cs : list PanelChild) : list nat :=
  fst <$> filter (fun ic => sel (snd ic) = true) (imap pair cs).

(** One observer watches the panel, and the node list of its callback is
    the one [setupPanelTabbing] collects. *)
Definition tabbing_observed (w : World) : Prop :=
  exists p, panel (panel_ui w) = Some p
            /\ observers (loop w) = [matching tabbing_selector (p_children p)].

(** The children of the panel after the callback of the observer has set
    [tabindex] on the nodes at the positions [l]. *)
Definition retabbed (v : jsstr) (l : list nat) (cs : list PanelChild) : list PanelChild :=
  foldl (fun cs i => alter (fun c => mkPanelChild (c_tag c) (c_classes c) (Some v)) i cs) cs l.

(** The value the callback of the observer writes, from [aria-hidden]. *)
Definition callback_tabindex (p : Panel) : jsstr :=
  if bool_decide (p_aria_hidden p = Some (js "true")) then js "-1" else js "0".

Definition is_aria_hidden_record (attributeName : jsstr) : bool :=
  js_eqb attributeName (js "aria-hidden").

(** The panel is open ([b] true) or closed ([b] false), with the class and
    the two attributes saying so. *)
Definition panel_state (b : bool) (w : World) : Prop :=
  exists p,
    panel (panel_ui w) = Some p
    /\ classList_contains (js "open") (p_classes p) = b
    /\ p_aria_hidden p = Some (js_of_bool (negb b))
    /\ toggle (panel_ui w) = Some (mkToggle (Some (js_of_bool b))).

(** The state of the tab order inside a task: the selected controls are in
    step with the panel, or a record of [aria-hidden] waits for the
    observer. *)
Definition tabbing_pending (w : World) : Prop :=
  this_panel (mgr w) = true /\ this_toggle (mgr w) = true
  /\ tabbing_observed w
  /\ (exists b, panel_state b w)
  /\ (tabindex_in_sync w
      \/ existsb is_aria_hidden_record (mutations (loop w)) = true).

(** The state of the tab order between two tasks: no record waits, and the
    selected controls are in step with the panel. *)
Definition tabbing_settled (w : World) : Prop :=
  this_panel (mgr w) = true /\ this_toggle (mgr w) = true
  /\ tabbing_observed w
  /\ (exists b, panel_state b w)
  /\ mutations (loop w) = []
  /\ tabindex_in_sync w.

(** ** Start-up *)

(** The part of [initializeComponents] that comes before
    [loadUserPreferences]. *)
Definition setup_phase : M unit :=
  setupAccessibilityPanel;;
  setupThemeToggle;;
  setupFormValidation;;
  setupKeyboardNavigation;;
  setupReducedMotion.

(** ** Pages used as concrete inputs *)

Definition blank_world : World :=
  mkWorld (mkPage ∅ None ∅ [] 0 None)
          (mkPanelUI None None)
          (mkWidgets None None None (mkThemeWidgets None None))
          (mkFormUI false [] ∅ None false [])
          0
          (mkStorage ∅ false false)
          (mkMedia false false)
          (mkManager false false false)
          (mkLoop [] [] [] [])
          [].

Definition text_field (id value : jsstr) : Field :=
  mkField id id value [] None true.

Definition empty_error : ErrorEl := mkErrorEl [] ∅.

(** A page with the contact form: the three required fields, their error
    containers and the submit button. *)
Definition contact_form (name email message : jsstr) : FormUI :=
  mkFormUI true
    [text_field (js "name") name; text_field (js "email") email;
     text_field (js "message") message]
    (<[js "nameError" := empty_error]>
       (<[js "emailError" := empty_error]>
          (<[js "messageError" := empty_error]> ∅)))
    (Some (mkButton false ∅ (js "Send") None))
    false [].

Definition contact_page (name email message : jsstr) : World :=
  on_form_ui (fun _ => contact_form name email message) blank_world.

(** A document with the submit button and the name field only. *)
Definition name_only_page : World :=
  on_form_ui (fun _ =>
    mkFormUI true [text_field (js "name") (js "Al")] ∅
             (Some (mkButton true ∅ (js "Send") None)) false []) blank_world.

(** The page with the empty contact form, once [setupFormValidation] has
    attached the listeners. *)
Definition contact_page_ready : World :=
  state_of (setupFormValidation (contact_page [] [] [])).

(** The contact page with a valid form, once the listeners are attached. *)
Definition valid_form_page : World :=
  state_of (setupFormValidation
    (contact_page (js "Alice") (js "alice@example.com") (js "Hello, this is long enough."))).

(** The state of the submit button: disabled, loading, label. *)
Definition button_of (w : World) : option (bool * bool * jsstr) :=
  (fun b => (b_disabled b, classList_contains (js "loading") (b_classes b), b_text b))
    <$> submitBtn (form_ui w).

(** The tasks of the pending timers. *)
Definition pending_tasks (w : World) : list Task := tm_task <$> timers (loop w).

(** A page with the panel, closed, holding an input, a select, a text area
    and a link, and with the toggle button. *)
Definition panel_page : World :=
  on_panel_ui (fun _ =>
    mkPanelUI
      (Some (mkPanel ∅ (Some (js "true"))
               [mkPanelChild TagInput ∅ None; mkPanelChild TagSelect ∅ None;
                mkPanelChild TagTextarea ∅ None; mkPanelChild TagOther ∅ None]))
      (Some (mkToggle (Some (js "false"))))) blank_world.

(** The same page once the manager has bound the panel. *)
Definition panel_page_ready : World := state_of (setupAccessibilityPanel panel_page).

(** A page whose store refuses every access, as with storage blocked by the
    browser; the system asks for a light theme. *)
Definition blocked_storage_page : World :=
  on_storage (fun _ => mkStorage ∅ true true) blank_world.

(** A first visit: nothing stored, a working store, and a system that asks
    for a light theme and for no reduction of motion. *)
Definition first_visit_light : World := blank_world.

(** ** Further statements about the form *)

(** A string of white space only. *)
Definition blank (s : jsstr) : Prop := Forall (fun c => is_js_whitespace c = true) s.

(** The message [validateField] has for a required field without a value. *)
Definition required_message (fieldName : jsstr) : jsstr :=
  if js_eqb fieldName (js "name") then js "Name is required"
  else if js_eqb fieldName (js "email") then js "Email is required"
  else js "Message is required".

(** What [form.reset()] does to a control. *)
Definition reset_field (f : Field) : Field :=
  if f_in_form f
  then mkField (f_id f) (f_name f) (f_default f) (f_default f) (f_aria_invalid f) (f_in_form f)
  else f.

(** A control before and after some calls of [clearFieldError]: all is as it
    was but [aria-invalid], which is as it was or ["false"]. *)
Definition error_state_cleared (f f' : Field) : Prop :=
  f_id f' = f_id f /\ f_name f' = f_name f /\ f_value f' = f_value f
  /\ f_default f' = f_default f /\ f_in_form f' = f_in_form f
  /\ (f_aria_invalid f' = f_aria_invalid f \/ f_aria_invalid f' = Some (js "false")).

(** An error container that shows nothing. *)
Definition shows_nothing (e : ErrorEl) : Prop :=
  e_text e = [] /\ js "visible" ∉ e_classes e.

(** The banner [showSuccessMessage] appends after a send. *)
Definition success_banner (n : nat) : Banner :=
  mkBanner n (js "success-message")
           (js "Thank you for your message. We will get back to you soon!") (js "polite").

(** ** Further statements about the page *)

(** The live-region nodes of the page were created before the next node:
    the node an announcement creates is not one of them. *)
Definition nodes_fresh (w : World) : Prop :=
  Forall (fun l => (ln_node l < next_node (page w))%nat) (live (page w)).

(** ** Further statements about the preferences *)

(** The state after a setter that threw at the store: nothing was stored
    and nothing was announced. *)
Definition not_stored_not_announced (w w' : World) : Prop :=
  storage w' = storage w
  /\ live (page w') = live (page w)
  /\ timers (loop w') = timers (loop w).

(** [n] clicks on [#themeToggle], each in its own listener run: a click
    whose listener throws leaves the state the listener had reached. *)
Definition themeToggle_clicks (n : nat) (w : World) : World :=
  Nat.iter n (fun w => state_of (on_themeToggle_click w)) w.

(** [themeToggle.getAttribute('aria-pressed') === 'true'] *)
Definition themeToggle_pressed (w : World) : bool :=
  match themeToggle (theme_widgets (widgets w)) with
  | Some b => bool_decide (pb_aria_pressed b = Some (js "true"))
  | None => false
  end.

(** The theme a click on [#themeToggle] asks for. *)
Definition theme_after_click (pressed : bool) : jsstr :=
  if pressed then js "light" else js "dark".

(** ** Further statements about the panel *)

(** The three mirrors of the panel state say that it is closed. *)
Definition shown_closed (w : World) : Prop :=
  has_open_class w = false
  /\ aria_hidden_is_false w = false
  /\ aria_expanded_is_true w = false.

(** The listeners that [setupAccessibilityPanel] attaches for the panel. *)
Definition panel_listener (l : Listener) : Prop :=
  l = OnToggleClick \/ l = OnDocumentClick \/ l = OnDocumentKeydown.

(** The page has none of the listeners of the panel. *)
Definition no_panel_listeners (w : World) : Prop :=
  forall l, l ∈ listeners (loop w) -> ~ panel_listener l.

(** What the invariants of the panel depend on: the two references of the
    manager, the two nodes, the observers and the records that wait. *)
Definition panel_part (w : World)
  : bool * bool * PanelUI * list (list nat) * list jsstr :=
  (this_panel (mgr w), this_toggle (mgr w), panel_ui w, observers (loop w),
   mutations (loop w)).

(** The steps of [initializeComponents] after [setupAccessibilityPanel]. *)
Definition rest_of_set_up (h : option ThemeHelpers) : M unit :=
  setupThemeToggle;;
  setupFormValidation;;
  setupKeyboardNavigation;;
  setupReducedMotion;;
  loadUserPreferences h;;
  modify (on_mgr (fun m => mkManager (this_panel m) (this_toggle m) true));;
  console_put LogLevel (js "Accessibility Manager initialized successfully").

(** Every listener of the page satisfies [ok]. *)
Definition listeners_all (ok : Listener -> Prop) (w : World) : Prop :=
  forall l, l ∈ listeners (loop w) -> ok l.

(** ** White space around a value *)

(** The page after the value of the control at position [i] has been
    given the prefix [a] and the suffix [b]. *)
Definition padded (i : nat) (a b : jsstr) (w : World) : World :=
  on_form_ui (fun x =>
    with_controls
      (alter (fun f => mkField (f_id f) (f_name f) (a ++ f_value f ++ b) (f_default f)
                               (f_aria_invalid f) (f_in_form f))
             i (controls x)) x) w.

(** Two controls that the validators cannot tell apart by their value. *)
Definition same_trimmed (f f' : Field) : Prop :=
  f_id f' = f_id f /\ f_name f' = f_name f /\ trim (f_value f') = trim (f_value f).

(** ** More pages used as concrete inputs *)

(** A page with the two theme widgets, once [setupThemeToggle] has attached
    the listeners. *)
Definition theme_page : World :=
  state_of (setupThemeToggle
    (on_widgets (with_theme_widgets
       (mkThemeWidgets (Some (mkPressButton None)) (Some (mkCheckbox false None))))
       blank_world)).

(** The page with the panel, opened by a click on the toggle button. *)
Definition panel_page_open : World :=
  state_of (handle_event (EvClickToggle false) panel_page_ready).

(** The blank page at the time a script in its head runs: the document is
    still loading, and no listener waits for [DOMContentLoaded]. *)
Definition loading_document : Script :=
  mkScript blank_world Loading [] Undefined None.

(** The page with the panel and the three controls of the preferences,
    once the manager has bound the panel. *)
Definition preferences_page : World :=
  state_of (setupAccessibilityPanel
    (on_widgets (fun _ =>
       mkWidgets (Some (mkSelect [js "normal"; js "large"; js "extra-large"] (js "normal")))
                 (Some (mkCheckbox false None)) (Some (mkCheckbox false None))
                 (mkThemeWidgets None None)) panel_page)).

(** A page of a system that asks for reduced motion, with a store that
    refuses writes. *)
Definition reduced_motion_page_without_store : World :=
  mkWorld (page blank_world) (panel_ui blank_world) (widgets blank_world)
          (form_ui blank_world) 0 (mkStorage ∅ false true) (mkMedia true false)
          (mgr blank_world) (loop blank_world) [].

(** The blank page once [setupReducedMotion] has attached its listener. *)
Definition motion_page : World := state_of (setupReducedMotion blank_world).


(** * Properties *)

(** ** Strings *)

Example email_pattern_accepts : regex_test email_pattern (js "user@example.com") = true.
Proof. vm_compute. reflexivity. Qed.

Example email_pattern_rejects : regex_test email_pattern (js "user@") = false.
Proof. vm_compute. reflexivity. Qed.

Example trim_example : trim (js "  a b  ") = js "a b".
Proof. vm_compute. reflexivity. Qed.

Lemma js_falsy_length (s : jsstr) : js_falsy s = (js_length s =? 0).
Proof. destruct s; reflexivity. Qed.

(** [!value || value.length < n] is the negation of [n <= value.length]
    for a positive bound. *)
Lemma falsy_or_short (s : jsstr) (n : N) :
  0 < n -> js_falsy s || (js_length s <? n) = negb (n <=? js_length s).
Proof.
  intros Hn. rewrite js_falsy_length.
  destruct (N.eqb_spec (js_length s) 0) as [E|E];
    destruct (N.ltb_spec (js_length s) n); destruct (N.leb_spec n (js_length s));
    simpl; try reflexivity; lia.
Qed.

(** ** The matcher and the language of a pattern *)

Lemma nullable_lang (r : regex) : nullable r = true <-> lang r [].
Proof.
  split.
  - induction r; cbn [nullable]; intros H; try discriminate H.
    + constructor.
    + apply andb_true_iff in H as [H1 H2].
      change (@nil N) with (@nil N ++ []). constructor; auto.
    + apply orb_true_iff in H as [H|H]; [apply lang_alt_l | apply lang_alt_r]; auto.
    + constructor.
  - induction r; cbn [nullable]; intros H; inversion H; subst; try reflexivity.
    + match goal with E : _ ++ _ = [] |- _ => apply app_eq_nil in E as [-> ->] end.
      apply andb_true_iff. split; auto.
    + apply orb_true_iff. left. auto.
    + apply orb_true_iff. right. auto.
Qed.

Lemma lang_star_cons (c : N) (r : regex) (s0 : jsstr) :
  (forall s, lang r (c :: s) -> lang (deriv c r) s) ->
  lang (Star r) s0 -> forall s, s0 = c :: s -> lang (Seq (deriv c r) (Star r)) s.
Proof.
  intros IHr H. remember (Star r) as r0 eqn:Hr0.
  induction H as [| | | | | |r' s1 s2 H1 _ H2 IH2]; try discriminate Hr0.
  - intros s Hs. discriminate Hs.
  - injection Hr0 as ->. intros s Hs. destruct s1 as [|c' s1].
    + cbn [app] in Hs. apply IH2; [reflexivity | exact Hs].
    + cbn [app] in Hs. injection Hs as -> <-. constructor; [apply IHr; exact H1 | exact H2].
Qed.

Lemma deriv_lang (c : N) (r : regex) (s : jsstr) :
  lang (deriv c r) s <-> lang r (c :: s).
Proof.
  revert s. induction r as [| |p|r1 IH1 r2 IH2|r1 IH1 r2 IH2|r IH]; intros s; cbn [deriv].
  - split; intros H; inversion H.
  - split; intros H; inversion H.
  - destruct (p c) eqn:Hp; split; intros H; inversion H; subst.
    + by constructor.
    + constructor.
    + congruence.
  - assert (Hseq : forall s1 s2, lang (deriv c r1) s1 -> lang r2 s2 ->
                     lang (Seq r1 r2) (c :: s1 ++ s2)).
    { intros s1 s2 H1 H2. change (c :: s1 ++ s2) with ((c :: s1) ++ s2).
      constructor; [by apply IH1 | exact H2]. }
    split.
    + destruct (nullable r1) eqn:Hn; intros H; inversion H; subst.
      * match goal with H' : lang (Seq _ _) _ |- _ => inversion H'; subst end. by apply Hseq.
      * change (c :: s) with ([] ++ c :: s).
        constructor; [by apply nullable_lang | by apply IH2].
      * by apply Hseq.
    + intros H. inversion H as [| |? ? s1 s2 H1 H2 [E1 E2] Es| | | |]; subst.
      destruct s1 as [|c' s1]; cbn [app] in Es.
      * subst s2. apply nullable_lang in H1. rewrite H1.
        apply lang_alt_r. by apply IH2.
      * injection Es as -> <-.
        assert (lang (Seq (deriv c r1) r2) (s1 ++ s2))
          by (constructor; [by apply IH1 | exact H2]).
        destruct (nullable r1); [by apply lang_alt_l | assumption].
  - split; intros H; inversion H; subst;
      [apply lang_alt_l; by apply IH1 | apply lang_alt_r; by apply IH2
      | apply lang_alt_l; by apply IH1 | apply lang_alt_r; by apply IH2].
  - split.
    + intros H. inversion H as [| |? ? s1 s2 H1 H2| | | |]; subst.
      change (c :: s1 ++ s2) with ((c :: s1) ++ s2).
      constructor; [by apply IH | exact H2].
    + intros H. apply (lang_star_cons c r (c :: s)); [|exact H | reflexivity].
      intros s'. apply IH.
Qed.

(** [test] decides the language of the pattern. *)
Theorem regex_test_lang (r : regex) (s : jsstr) : regex_test r s = true <-> lang r s.
Proof.
  revert r. induction s as [|c s IH]; intros r; cbn [regex_test].
  - apply nullable_lang.
  - rewrite IH. apply deriv_lang.
Qed.

Lemma lang_class_inv (p : N -> bool) (s : jsstr) :
  lang (Class p) s <-> exists c, s = [c] /\ p c = true.
Proof.
  split.
  - intros H. inversion H; subst. eauto.
  - intros (c & -> & Hp). by constructor.
Qed.

Lemma lang_star_class (p : N -> bool) (s : jsstr) :
  lang (Star (Class p)) s <-> Forall (fun c => p c = true) s.
Proof.
  split.
  - intros H. remember (Star (Class p)) as r eqn:Hr.
    induction H as [| | | | | |r' s1 s2 H1 _ _ IH2]; try discriminate Hr.
    + constructor.
    + injection Hr as ->. apply lang_class_inv in H1 as (c & -> & Hp).
      constructor; [exact Hp | by apply IH2].
  - induction 1 as [|c s Hp _ IH]; [constructor|].
    change (c :: s) with ([c] ++ s). constructor; [by constructor | exact IH].
Qed.

Lemma lang_plus_class (p : N -> bool) (s : jsstr) :
  lang (Plus (Class p)) s <-> s <> [] /\ Forall (fun c => p c = true) s.
Proof.
  unfold Plus. split.
  - intros H. inversion H as [| |? ? s1 s2 H1 H2| | | |]; subst.
    apply lang_class_inv in H1 as (c & -> & Hp). apply lang_star_class in H2.
    split; [discriminate | by constructor].
  - intros [Hne Hall]. destruct Hall as [|c s Hp Hall]; [done|].
    change (c :: s) with ([c] ++ s).
    constructor; [by constructor | by apply lang_star_class].
Qed.

(** The pattern of the source accepts exactly the addresses of the shape
    [local@domain.tld]. *)
Theorem email_pattern_shape (s : jsstr) :
  regex_test email_pattern s = true <-> address_shape s.
Proof.
  rewrite regex_test_lang. unfold email_pattern, address_shape. split.
  - intros H.
    inversion H as [| |? ? l s1 Hl H1| | | |]; subst.
    inversion H1 as [| |? ? a s2 Ha H2| | | |]; subst.
    inversion H2 as [| |? ? d s3 Hd H3| | | |]; subst.
    inversion H3 as [| |? ? o t Ho Ht| | | |]; subst.
    apply lang_plus_class in Hl as [? ?], Hd as [? ?], Ht as [? ?].
    apply lang_class_inv in Ha as (ca & -> & Ea), Ho as (co & -> & Eo).
    apply N.eqb_eq in Ea, Eo. subst ca co.
    exists l, d, t. repeat split; assumption.
  - intros (l & d & t & -> & ? & ? & ? & ? & ? & ?).
    constructor; [by apply lang_plus_class|].
    constructor; [by constructor|].
    constructor; [by apply lang_plus_class|].
    constructor; [by constructor | by apply lang_plus_class].
Qed.

(** ** Running the methods *)

(** Unfolding of the monad operations. *)
Ltac msimpl :=
  cbv beta iota zeta delta
    [bind gets modify ret throw when try_catch try_finally state_of result_of].

(** Projections out of updated records. *)
Ltac wsimpl :=
  cbn [page panel_ui widgets form_ui skip_links storage media mgr loop console
       on_page on_panel_ui on_widgets on_form_ui on_storage on_mgr on_loop on_console
       root_classes root_data_theme body_classes live next_node activeElement
       with_root_classes with_root_data_theme with_body_classes with_live
       with_next_node with_activeElement
       panel toggle with_panel with_toggle
       textSize_select highContrast_box reducedMotion_box theme_widgets
       with_textSize_select with_highContrast_box with_reducedMotion_box
       with_theme_widgets themeToggle toggleTheme
       contactForm controls error_els submitBtn submitReady banners
       with_controls with_error_els with_submitBtn with_submitReady with_banners
       items get_throws set_throws with_items
       prefers_reduced_motion prefers_dark
       this_panel this_toggle isInitialized
       listeners timers observers mutations
       with_listeners with_timers with_observers with_mutations
       p_classes p_aria_hidden p_children t_aria_expanded
       c_tag c_classes c_tabindex
       b_disabled b_classes b_text b_describedby
       f_id f_name f_value f_default f_aria_invalid f_in_form
       e_text e_classes fst snd fmap option_fmap option_map negb orb andb].

Ltac wsimpl_all :=
  cbn [page panel_ui widgets form_ui skip_links storage media mgr loop console
       on_page on_panel_ui on_widgets on_form_ui on_storage on_mgr on_loop on_console
       root_classes root_data_theme body_classes live next_node activeElement
       with_root_classes with_root_data_theme with_body_classes with_live
       with_next_node with_activeElement
       panel toggle with_panel with_toggle
       textSize_select highContrast_box reducedMotion_box theme_widgets
       with_textSize_select with_highContrast_box with_reducedMotion_box
       with_theme_widgets themeToggle toggleTheme
       contactForm controls error_els submitBtn submitReady banners
       with_controls with_error_els with_submitBtn with_submitReady with_banners
       items get_throws set_throws with_items
       prefers_reduced_motion prefers_dark
       this_panel this_toggle isInitialized
       listeners timers observers mutations
       with_listeners with_timers with_observers with_mutations
       p_classes p_aria_hidden p_children t_aria_expanded
       c_tag c_classes c_tabindex
       b_disabled b_classes b_text b_describedby
       f_id f_name f_value f_default f_aria_invalid f_in_form
       e_text e_classes fst snd fmap option_fmap option_map negb orb andb] in *.

Ltac run := repeat progress (msimpl; wsimpl).

(** Opens a world into its components, and uses the equations on them. *)
Ltac open_world w :=
  destruct w as [ [? ? ? ? ? ?] [? ?] [? ? ? [? ?] ] [? ? ? ? ? ?] ?
                  [? ? ?] [? ?] [? ? ?] [? ? ? ?] ? ];
  wsimpl_all; subst.

(** Comparisons of string literals. *)
Ltac js_literals :=
  repeat match goal with
    | |- context [js_eqb (js ?a) (js ?b)] =>
        let v := eval vm_compute in (js_eqb (js a) (js b)) in
        change (js_eqb (js a) (js b)) with v
    end;
  cbv beta iota.

(** ** Frame rules *)

Section Frames.
Context {B : Type} (f : World -> B).

Lemma preserves_ret {A} (a : A) : preserves f (ret a).
Proof. intros w. reflexivity. Qed.

Lemma preserves_throw {A} (e : Exn) : preserves f (@throw A e).
Proof. intros w. reflexivity. Qed.

Lemma preserves_gets {A} (g : World -> A) : preserves f (gets g).
Proof. intros w. reflexivity. Qed.

Lemma preserves_modify (g : World -> World) :
  (forall w, f (g w) = f w) -> preserves f (modify g).
Proof. intros Hg w. apply Hg. Qed.

Lemma preserves_bind {A C} (m : M A) (k : A -> M C) :
  preserves f m -> (forall a, preserves f (k a)) -> preserves f (bind m k).
Proof.
  intros Hm Hk w. unfold bind, state_of. specialize (Hm w). unfold state_of in Hm.
  destruct (m w) as [[a|e] w']; cbn [snd] in *; [|exact Hm].
  rewrite <- Hm. apply Hk.
Qed.

Lemma preserves_when (b : bool) (m : M unit) :
  preserves f m -> preserves f (when b m).
Proof. intros Hm. destruct b; [exact Hm | apply preserves_ret]. Qed.

Lemma preserves_forEach {A} (l : list A) (body : A -> M unit) :
  (forall x, preserves f (body x)) -> preserves f (forEach l body).
Proof.
  intros Hbody. induction l as [|x l IH]; cbn [forEach].
  - apply preserves_ret.
  - apply preserves_bind; [apply Hbody | intros _; exact IH].
Qed.

Lemma preserves_try_catch {A} (body : M A) (handler : Exn -> M A) :
  preserves f body -> (forall e, preserves f (handler e)) ->
  preserves f (try_catch body handler).
Proof.
  intros Hb Hh w. unfold try_catch, state_of. specialize (Hb w). unfold state_of in Hb.
  destruct (body w) as [[a|e] w']; cbn [snd] in *; [exact Hb|].
  rewrite <- Hb. apply Hh.
Qed.

Lemma preserves_try_finally {A} (body : M A) (final : M unit) :
  preserves f body -> preserves f final -> preserves f (try_finally body final).
Proof.
  intros Hb Hf w. unfold try_finally, state_of. specialize (Hb w). unfold state_of in Hb.
  destruct (body w) as [r w']. cbn [snd] in *. specialize (Hf w'). unfold state_of in Hf.
  destruct (final w') as [[?|?] w'']; cbn [snd] in *; congruence.
Qed.
End Frames.

Create HintDb frame.

Global Hint Unfold
  console_put setTimeout addEventListener focus documentElement_classList body_classList
  queue_record update_panel panel_classList panel_set_aria_hidden toggle_set_aria_expanded
  set_child_tabindex panel_querySelectorAll panel_querySelector update_submitBtn
  the_field set_aria_invalid update_error_el new_banner remove_existing_message
  form_reset set_themeToggle_pressed set_reducedMotion_checked : frame.

(** One structural step of a frame proof. *)
Ltac frame_step :=
  first
    [ assumption
    | solve [eauto with frame nocore]
    | apply preserves_ret
    | apply preserves_throw
    | apply preserves_gets
    | apply preserves_modify; intros ?; reflexivity
    | apply preserves_bind; [|intros ?]
    | apply preserves_when
    | apply preserves_forEach; intros ?
    | apply preserves_try_catch; [|intros ?]
    | apply preserves_try_finally
    | match goal with
      | |- preserves _ (match ?x with _ => _ end) => destruct x
      end ].

Ltac frame := autounfold with frame; repeat frame_step.

Lemma deliver_mutations_form_ui : preserves form_ui deliver_mutations.
Proof. unfold deliver_mutations, observer_callback. frame. Qed.

Lemma updateSubmitButtonState_controls :
  preserves (fun w => controls (form_ui w)) updateSubmitButtonState.
Proof. unfold updateSubmitButtonState. frame. Qed.

(** ** Validation of one field *)

Lemma validateField_run (i : nat) (field : Field) (w : World) :
  controls (form_ui w) !! i = Some field ->
  validateField i w =
    (Ok (fst (field_switch (f_name field) (trim (f_value field)))),
     after_validateField i field w).
Proof.
  intros Hi. unfold validateField, after_validateField, displayFieldError, the_field.
  msimpl. rewrite Hi.
  destruct (field_switch (f_name field) (trim (f_value field))) as [isValid errorMessage].
  msimpl. rewrite Hi. reflexivity.
Qed.

(** ** The submit gate *)

Lemma gate_step_spec (cs : list Field) (acc : bool) (fieldId : jsstr) :
  fieldId ∈ requiredFields ->
  gate_step cs acc fieldId = acc && present_field_ok cs fieldId.
Proof.
  intros Hid. unfold gate_step, present_field_ok.
  destruct (getElementById fieldId cs) as [[i field]|]; [|by rewrite andb_true_r].
  set (value := trim (f_value field)).
  unfold requiredFields in Hid. rewrite !elem_of_cons, elem_of_nil in Hid.
  destruct Hid as [->|[->|[->|[]]]]; unfold rule_valid;
    js_literals;
    rewrite ?andb_false_l, ?andb_true_l, falsy_or_short by lia;
    rewrite ?js_falsy_length.
  - destruct (2 <=? js_length value), acc; reflexivity.
  - destruct (N.leb_spec 2 (js_length value)) as [H|H];
      destruct (N.eqb_spec (js_length value) 0) as [E|E]; try lia;
      destruct (regex_test email_pattern value), acc; reflexivity.
  - destruct (10 <=? js_length value), acc; reflexivity.
Qed.

Lemma submit_gate_spec (cs : list Field) :
  submit_gate cs = forallb (present_field_ok cs) requiredFields.
Proof.
  unfold submit_gate, requiredFields. cbn [fold_left forallb].
  rewrite !gate_step_spec by (unfold requiredFields; set_solver).
  rewrite andb_true_r. cbn [andb].
  by destruct (present_field_ok cs (js "name")), (present_field_ok cs (js "email")).
Qed.

Lemma updateSubmitButtonState_disabled (w : World) (btn : Button) :
  submitBtn (form_ui w) = Some btn ->
  b_disabled <$> submitBtn (form_ui (state_of (updateSubmitButtonState w))) =
    Some (negb (submit_gate (controls (form_ui w)))).
Proof.
  intros Hb. unfold updateSubmitButtonState. msimpl. rewrite Hb.
  destruct (submit_gate (controls (form_ui w))), (submitReady (form_ui w));
    msimpl; unfold update_submitBtn; msimpl; cbn; rewrite Hb; reflexivity.
Qed.

(** C2: with the three required fields and the submit button in the
    document, the recompute of the submit gate leaves the button enabled
    exactly when the trimmed name has at least 2 characters, the trimmed
    e-mail address has at least 2 characters and matches the pattern, and
    the trimmed message has at least 10 characters; otherwise it is
    disabled. *)
Theorem C2_submit_gate_iff_all_valid
    (w : World) (btn : Button) (i j k : nat) (name email message : Field) :
  submitBtn (form_ui w) = Some btn ->
  getElementById (js "name") (controls (form_ui w)) = Some (i, name) ->
  getElementById (js "email") (controls (form_ui w)) = Some (j, email) ->
  getElementById (js "message") (controls (form_ui w)) = Some (k, message) ->
  b_disabled <$> submitBtn (form_ui (state_of (updateSubmitButtonState w))) =
    Some (negb (gate_spec (f_value name) (f_value email) (f_value message))).
Proof.
  intros Hb Hn He Hm.
  rewrite (updateSubmitButtonState_disabled w btn Hb), submit_gate_spec.
  unfold requiredFields, present_field_ok. cbn [forallb].
  rewrite Hn, He, Hm. unfold rule_valid, gate_spec.
  js_literals.
  rewrite andb_true_r, andb_assoc. reflexivity.
Qed.

Lemma C2_submit_gate_witness :
  b_disabled <$> submitBtn (form_ui (state_of (updateSubmitButtonState
      (contact_page (js "Alice") (js "alice@example.com")
                    (js "Hello, this is long enough."))))) =
    Some (negb (gate_spec (js "Alice") (js "alice@example.com")
                          (js "Hello, this is long enough."))).
Proof.
  apply (C2_submit_gate_iff_all_valid _ (mkButton false ∅ (js "Send") None) 0%nat 1%nat 2%nat
           (text_field (js "name") (js "Alice"))
           (text_field (js "email") (js "alice@example.com"))
           (text_field (js "message") (js "Hello, this is long enough.")));
    vm_compute; reflexivity.
Defined.

(** C10: in the recompute of the submit gate a required field whose
    element is not in the document imposes no constraint: the button is
    enabled exactly when every required field that is present passes its
    rule. *)
Theorem C10_absent_field_imposes_no_constraint (w : World) (btn : Button) :
  submitBtn (form_ui w) = Some btn ->
  b_disabled <$> submitBtn (form_ui (state_of (updateSubmitButtonState w))) =
    Some (negb (forallb (present_field_ok (controls (form_ui w))) requiredFields))
  /\ forall fieldId, getElementById fieldId (controls (form_ui w)) = None ->
       present_field_ok (controls (form_ui w)) fieldId = true.
Proof.
  intros Hb. split.
  - rewrite (updateSubmitButtonState_disabled w btn Hb), submit_gate_spec. reflexivity.
  - intros fieldId Hnone. unfold present_field_ok. by rewrite Hnone.
Qed.

Lemma C10_absent_field_witness :
  b_disabled <$> submitBtn (form_ui (state_of (updateSubmitButtonState name_only_page))) =
    Some false.
Proof.
  apply (proj1 (C10_absent_field_imposes_no_constraint name_only_page
                  (mkButton true ∅ (js "Send") None) eq_refl)).
Defined.

(** C3: [validateField] on the e-mail field returns true for
    [user@example.com], and false for [user@], for [user example.com] and
    for the empty string. *)
Theorem C3_validateField_email (w : World) (i : nat) (field : Field) :
  controls (form_ui w) !! i = Some field ->
  f_name field = js "email" ->
  (f_value field = js "user@example.com" -> result_of (validateField i w) = Ok true)
  /\ (f_value field = js "user@" -> result_of (validateField i w) = Ok false)
  /\ (f_value field = js "user example.com" -> result_of (validateField i w) = Ok false)
  /\ (f_value field = [] -> result_of (validateField i w) = Ok false).
Proof.
  intros Hi Hname. rewrite (validateField_run i field w Hi), Hname.
  unfold result_of. cbn [fst].
  repeat split; intros ->; f_equal; vm_compute; reflexivity.
Qed.

Lemma C3_validateField_email_witness :
  result_of (validateField 1 (contact_page (js "Al") (js "user@example.com") (js "short")))
    = Ok true.
Proof.
  apply (proj1 (C3_validateField_email
                  (contact_page (js "Al") (js "user@example.com") (js "short")) 1%nat
                  (text_field (js "email") (js "user@example.com")) eq_refl eq_refl)).
  reflexivity.
Defined.

(** ** Validation on blur, clearing on input *)

Lemma email_pattern_min_length (s : jsstr) :
  regex_test email_pattern s = true -> 2 <= js_length s.
Proof.
  destruct s as [|a [|b s]]; cbn; rewrite ?andb_false_r; try discriminate.
  intros _. unfold js_length. cbn [length]. lia.
Qed.

(** The verdict of the [switch] of [validateField] is the rule table, and
    its message is empty exactly for a valid value. *)
Lemma field_switch_rule (fieldName value : jsstr) :
  fieldName ∈ requiredFields ->
  fst (field_switch fieldName value) = rule_valid fieldName value
  /\ js_falsy (snd (field_switch fieldName value)) = rule_valid fieldName value.
Proof.
  unfold requiredFields. rewrite !elem_of_cons, elem_of_nil.
  intros [-> | [-> | [-> | [] ] ] ]; unfold field_switch, rule_valid; js_literals.
  - rewrite js_falsy_length.
    destruct (N.eqb_spec (js_length value) 0), (N.ltb_spec (js_length value) 2),
      (N.leb_spec 2 (js_length value)); cbn; split; try reflexivity; lia.
  - rewrite js_falsy_length.
    destruct (regex_test email_pattern value) eqn:Hre.
    + apply email_pattern_min_length in Hre.
      destruct (N.eqb_spec (js_length value) 0), (N.leb_spec 2 (js_length value));
        cbn; split; try reflexivity; lia.
    + rewrite andb_false_r.
      destruct (N.eqb_spec (js_length value) 0); cbn; split; reflexivity.
  - rewrite js_falsy_length.
    destruct (N.eqb_spec (js_length value) 0), (N.ltb_spec (js_length value) 10),
      (N.leb_spec 10 (js_length value)); cbn; split; try reflexivity; lia.
Qed.

Lemma after_validateField_form (i : nat) (field : Field) (w : World) :
  controls (form_ui w) !! i = Some field ->
  let message := snd (field_switch (f_name field) (trim (f_value field))) in
  controls (form_ui (after_validateField i field w)) =
    alter (fun f => mkField (f_id f) (f_name f) (f_value f) (f_default f)
                      (Some (js_of_bool (negb (js_falsy message)))) (f_in_form f))
          i (controls (form_ui w))
  /\ error_els (form_ui (after_validateField i field w)) =
       alter (fun e => mkErrorEl message
                         (classList_toggle (js "visible") (negb (js_falsy message))
                                           (e_classes e)))
             (f_name field ++ js "Error") (error_els (form_ui w))
  /\ submitBtn (form_ui (after_validateField i field w)) = submitBtn (form_ui w)
  /\ page (after_validateField i field w) = page w
  /\ timers (loop (after_validateField i field w)) =
       timers (loop w) ++ [mkTimer 0 TaskUpdateSubmit].
Proof.
  intros Hi message.
  unfold after_validateField, displayFieldError, the_field, update_error_el,
    set_aria_invalid, setTimeout.
  run. rewrite Hi. run. repeat split; reflexivity.
Qed.

Lemma validateField_reflects (i : nat) (field : Field) (w : World) :
  controls (form_ui w) !! i = Some field ->
  f_name field ∈ requiredFields ->
  reflects_rule_table (after_validateField i field w) i.
Proof.
  intros Hi Hname.
  destruct (after_validateField_form i field w Hi) as (Hc & He & _).
  destruct (field_switch_rule (f_name field) (trim (f_value field)) Hname) as [_ Hmsg].
  unfold reflects_rule_table. rewrite Hc, He, list_lookup_alter_eq, Hi.
  cbn [fmap option_fmap option_map].
  eexists. split; [reflexivity|]. cbn [f_name f_value f_aria_invalid].
  rewrite Hmsg. split; [reflexivity|].
  intros e. rewrite lookup_alter_eq.
  destruct (error_els (form_ui w) !! (f_name field ++ js "Error")) as [e0|];
    cbn [fmap option_fmap option_map]; [|intros [=] ].
  intros He0. apply (inj Some) in He0. subst e. cbn [e_text e_classes]. split; [exact Hmsg|].
  unfold classList_contains, classList_toggle, classList_add, classList_remove.
  destruct (rule_valid (f_name field) (trim (f_value field))); cbn [negb];
    [apply bool_decide_eq_false | apply bool_decide_eq_true]; set_solver.
Qed.

Lemma updateSubmitButtonState_ok (w : World) :
  result_of (updateSubmitButtonState w) = Ok tt.
Proof.
  unfold updateSubmitButtonState, update_submitBtn. run.
  destruct (submitBtn (form_ui w)); [|reflexivity].
  destruct (submit_gate (controls (form_ui w))), (submitReady (form_ui w)); reflexivity.
Qed.

Lemma updateSubmitButtonState_error_els :
  preserves (fun w => error_els (form_ui w)) updateSubmitButtonState.
Proof. unfold updateSubmitButtonState. frame. Qed.

Lemma updateSubmitButtonState_gate (w : World) (b : Button) :
  submitBtn (form_ui (state_of (updateSubmitButtonState w))) = Some b ->
  b_disabled b = negb (submit_gate (controls (form_ui w))).
Proof.
  destruct (submitBtn (form_ui w)) as [btn|] eqn:Hb.
  - intros Hb'. pose proof (updateSubmitButtonState_disabled w btn Hb) as H.
    rewrite Hb' in H. cbn [fmap option_fmap option_map] in H.
    apply (inj Some) in H. exact H.
  - unfold updateSubmitButtonState. run. rewrite Hb. run. congruence.
Qed.

Lemma clearFieldError_run (i : nat) (field : Field) (w : World) :
  controls (form_ui w) !! i = Some field ->
  exists w',
    clearFieldError i w = (Ok tt, w')
    /\ controls (form_ui w') =
         alter (fun f => mkField (f_id f) (f_name f) (f_value f) (f_default f)
                           (Some (js "false")) (f_in_form f))
               i (controls (form_ui w))
    /\ error_els (form_ui w') =
         alter (fun e => mkErrorEl [] (classList_remove (js "visible") (e_classes e)))
               (f_name field ++ js "Error") (error_els (form_ui w)).
Proof.
  intros Hi. unfold clearFieldError, the_field, update_error_el, set_aria_invalid.
  run. rewrite Hi. run. eexists. repeat split; reflexivity.
Qed.

(** The listener of the input event on a required field. *)
Lemma input_listener_run (i : nat) (field : Field) (w : World) :
  controls (form_ui w) !! i = Some field ->
  exists w',
    (clearFieldError i;; updateSubmitButtonState) w = (Ok tt, w')
    /\ shows_no_error w' i (f_value field).
Proof.
  intros Hi. destruct (clearFieldError_run i field w Hi) as (w1 & Hrun & Hc & He).
  unfold bind. rewrite Hrun.
  pose proof (updateSubmitButtonState_ok w1) as Hok.
  pose proof (updateSubmitButtonState_controls w1) as Hc'.
  pose proof (updateSubmitButtonState_error_els w1) as He'.
  pose proof (updateSubmitButtonState_gate w1) as Hg.
  unfold result_of, state_of in *. cbv beta in *.
  destruct (updateSubmitButtonState w1) as [r w2]. cbn [fst snd] in *. subst r.
  exists w2. split; [reflexivity|].
  unfold shows_no_error. rewrite Hc', He', Hc, He, list_lookup_alter_eq, Hi.
  cbn [fmap option_fmap option_map]. eexists. split; [reflexivity|].
  cbn [f_name f_value f_aria_invalid]. split; [reflexivity|]. split; [reflexivity|].
  split.
  - intros e. rewrite lookup_alter_eq.
    destruct (error_els (form_ui w) !! (f_name field ++ js "Error")) as [e0|];
      cbn [fmap option_fmap option_map]; [|intros [=] ].
    intros He0. apply (inj Some) in He0. subst e. cbn [e_text e_classes].
    split; [reflexivity|].
    unfold classList_contains, classList_remove. apply bool_decide_eq_false. set_solver.
  - intros b Hb. rewrite <- Hc. apply Hg. exact Hb.
Qed.

(** Listeners that are not for the event do nothing; the listeners for it
    each establish [Q], from the invariant [P]. *)
Lemma forEach_listeners (ev : Event) (stopped : bool) (P Q : World -> Prop)
    (target : Listener) (body : M unit) (ls : list Listener) :
  (forall l, l <> target -> listener_body stopped l ev = None) ->
  listener_body stopped target ev = Some body ->
  (forall w, P w -> exists w', body w = (Ok tt, w') /\ P w' /\ Q w') ->
  forall w, P w -> Q w \/ target ∈ ls ->
  let w' := state_of (forEach ls (fun l =>
              match listener_body stopped l ev with
              | Some body => try_catch body (fun _ => console_put ErrorLevel (js "Uncaught"))
              | None => ret tt
              end) w) in
  P w' /\ Q w'.
Proof.
  intros Hother Htarget Hbody. induction ls as [|l ls IH]; intros w HP HQ.
  - destruct HQ as [HQ|Hin]; [split; assumption | by apply elem_of_nil in Hin].
  - cbv zeta. cbn [forEach]. destruct (decide (l = target)) as [->|Hne].
    + destruct (Hbody w HP) as (w1 & Hrun & HP1 & HQ1).
      unfold bind. rewrite Htarget. unfold try_catch. rewrite Hrun.
      apply IH; [exact HP1 | left; exact HQ1].
    + unfold bind. rewrite (Hother l Hne). unfold ret. apply IH; [exact HP|].
      destruct HQ as [HQ|Hin]; [left; exact HQ | right].
      apply elem_of_cons in Hin as [->|Hin]; [done | exact Hin].
Qed.

Lemma bind_state_frame {A C B} (f : World -> B) (m : M A) (k : A -> M C) (w : World) :
  (forall a, preserves f (k a)) ->
  f (state_of (bind m k w)) = f (state_of (m w)).
Proof.
  intros Hk. unfold bind, state_of. destruct (m w) as [[a|e] w']; cbn [snd]; [|reflexivity].
  apply Hk.
Qed.

Lemma handle_event_form_ui (ev : Event) (w : World) :
  form_ui (state_of (handle_event ev w)) = form_ui (state_of (dispatch ev w)).
Proof.
  unfold handle_event. apply bind_state_frame. intros _. apply deliver_mutations_form_ui.
Qed.

Lemma reflects_rule_table_form_ui (w1 w2 : World) (i : nat) :
  form_ui w1 = form_ui w2 -> reflects_rule_table w2 i -> reflects_rule_table w1 i.
Proof. unfold reflects_rule_table. intros ->. trivial. Qed.

Lemma shows_no_error_form_ui (w1 w2 : World) (i : nat) (value : jsstr) :
  form_ui w1 = form_ui w2 -> shows_no_error w2 i value -> shows_no_error w1 i value.
Proof. unfold shows_no_error. intros ->. trivial. Qed.

(** C9, as stated, does not hold for the input event: after the
    letter A is typed into the empty name field the page shows the field
    as valid, and the rule table says it is not. *)
Lemma C9_input_counterexample :
  ~ reflects_rule_table (state_of (handle_event (EvInput 0 (js "A")) contact_page_ready)) 0.
Proof.
  intros (field & Hfield & Haria & _).
  vm_compute in Hfield. apply (inj Some) in Hfield. subst field.
  vm_compute in Haria. discriminate Haria.
Qed.

(** C9, amended: on every blur event of a required field the validation
    state is recomputed from the current value, so the displayed error and
    [aria-invalid] reflect the rule table applied to it; on every input
    event of a required field the displayed error is cleared and
    [aria-invalid] is set to ["false"] whatever the current value, and the
    submit gate is recomputed from the current values. *)
Theorem C9_blur_validates_input_clears (w : World) (i : nat) (field : Field) :
  controls (form_ui w) !! i = Some field ->
  f_name field ∈ requiredFields ->
  (OnFieldBlur i ∈ listeners (loop w) ->
     reflects_rule_table (state_of (handle_event (EvBlur i) w)) i)
  /\ (forall value, OnFieldInput i ∈ listeners (loop w) ->
        shows_no_error (state_of (handle_event (EvInput i value) w)) i value).
Proof.
  intros Hi Hname. split.
  - intros Hin. apply (reflects_rule_table_form_ui _ _ _ (handle_event_form_ui _ w)).
    unfold dispatch. unfold bind at 1, default_action at 1, ret at 1.
    unfold bind at 1, gets at 1.
    apply (forEach_listeners (EvBlur i) _
             (fun w => exists f, controls (form_ui w) !! i = Some f
                                 /\ f_name f = f_name field)
             (fun w => reflects_rule_table w i) (OnFieldBlur i) (validateField i;; ret tt)).
    + intros l Hl. destruct l; try reflexivity. cbn [listener_body].
      destruct (decide (i0 = i)) as [->|]; [done | reflexivity].
    + cbn [listener_body]. destruct (decide (i = i)); [reflexivity | done].
    + intros w0 (f & Hf & Hfn). exists (after_validateField i f w0).
      split; [unfold bind; rewrite (validateField_run i f w0 Hf); reflexivity|].
      split.
      * destruct (after_validateField_form i f w0 Hf) as (Hc & _).
        rewrite Hc, list_lookup_alter_eq, Hf. cbn [fmap option_fmap option_map].
        eexists. split; [reflexivity | exact Hfn].
      * apply validateField_reflects; [exact Hf | rewrite Hfn; exact Hname].
    + exists field. split; [exact Hi | reflexivity].
    + right. exact Hin.
  - intros value Hin. apply (shows_no_error_form_ui _ _ _ _ (handle_event_form_ui _ w)).
    unfold dispatch. unfold bind at 1, default_action at 1, modify at 1.
    unfold bind at 1, gets at 1.
    apply (forEach_listeners (EvInput i value) _
             (fun w => exists f, controls (form_ui w) !! i = Some f /\ f_value f = value)
             (fun w => shows_no_error w i value) (OnFieldInput i)
             (clearFieldError i;; updateSubmitButtonState)).
    + intros l Hl. destruct l; try reflexivity. cbn [listener_body].
      destruct (decide (i0 = i)) as [->|]; [done | reflexivity].
    + cbn [listener_body]. destruct (decide (i = i)); [reflexivity | done].
    + intros w0 (f & Hf & Hfv). destruct (input_listener_run i f w0 Hf) as (w1 & Hrun & Hs).
      exists w1. split; [exact Hrun|]. rewrite Hfv in Hs. split; [|exact Hs].
      destruct Hs as (f1 & Hf1 & Hv1 & _). exists f1. split; assumption.
    + wsimpl. rewrite list_lookup_alter_eq, Hi. cbn [fmap option_fmap option_map].
      eexists. split; reflexivity.
    + right. exact Hin.
Qed.

Lemma C9_blur_validates_witness :
  reflects_rule_table (state_of (handle_event (EvBlur 0) contact_page_ready)) 0.
Proof.
  apply (proj1 (C9_blur_validates_input_clears contact_page_ready 0%nat
                  (text_field (js "name") []) eq_refl
                  ltac:(refine (bool_decide_eq_true_1 _ _); vm_compute; reflexivity))).
  refine (bool_decide_eq_true_1 _ _). vm_compute. reflexivity.
Defined.

(** ** Submission of an invalid form *)

Lemma field_switch_message (fieldName value : jsstr) :
  js_falsy (snd (field_switch fieldName value)) = fst (field_switch fieldName value).
Proof.
  unfold field_switch.
  repeat match goal with
    | |- context [if ?b then _ else _] => destruct b
    end; reflexivity.
Qed.

Lemma revalidated_refl (f : Field) : revalidated f f.
Proof. unfold revalidated. auto 10. Qed.

Lemma verdict_revalidated (f f' : Field) : revalidated f f' -> verdict f' = verdict f.
Proof. intros (_ & Hn & Hv & _). unfold verdict. by rewrite Hn, Hv. Qed.

Lemma revalidated_trans (f1 f2 f3 : Field) :
  revalidated f1 f2 -> revalidated f2 f3 -> revalidated f1 f3.
Proof.
  intros H12 H23. pose proof (verdict_revalidated _ _ H12) as Hv.
  destruct H12 as (? & ? & ? & ? & ? & Ha), H23 as (? & ? & ? & ? & ? & Hb).
  unfold revalidated. repeat split; try congruence.
  destruct Ha, Hb; [left|right|right|right]; congruence.
Qed.

Lemma getElementById_revalidated (id : jsstr) (cs cs' : list Field) :
  Forall2 revalidated cs cs' ->
  match getElementById id cs with
  | Some (i, f) => exists f', getElementById id cs' = Some (i, f') /\ revalidated f f'
  | None => getElementById id cs' = None
  end.
Proof.
  intros H. unfold getElementById. induction H as [|f f' cs cs' Hf _ IH].
  - reflexivity.
  - cbn [list_find]. destruct Hf as (Hid & Hrest). 
    destruct (decide (f_id f = id)) as [E|E];
      destruct (decide (f_id f' = id)) as [E'|E']; try congruence.
    + exists f'. split; [reflexivity|]. split; assumption.
    + destruct (list_find (fun f0 => f_id f0 = id) cs) as [[i f0]|].
      * destruct IH as (f0' & -> & HR). exists f0'. split; [reflexivity | exact HR].
      * rewrite IH. reflexivity.
Qed.

Lemma field_passes_revalidated (id : jsstr) (cs cs' : list Field) :
  Forall2 revalidated cs cs' -> field_passes cs' id = field_passes cs id.
Proof.
  intros H. pose proof (getElementById_revalidated id cs cs' H) as Hg.
  unfold field_passes. destruct (getElementById id cs) as [[i f]|].
  - destruct Hg as (f' & -> & (_ & Hn & Hv & _)). by rewrite Hn, Hv.
  - by rewrite Hg.
Qed.

Lemma alter_revalidated (cs : list Field) (i : nat) (g : Field -> Field) :
  (forall f, cs !! i = Some f -> revalidated f (g f)) ->
  Forall2 revalidated cs (alter g i cs).
Proof.
  intros Hg. apply Forall2_same_length_lookup_2.
  - by rewrite length_alter.
  - intros j f f' Hf Hf'. destruct (decide (i = j)) as [->|Hne].
    + rewrite list_lookup_alter_eq, Hf in Hf'. apply (inj Some) in Hf'. subst f'.
      apply Hg. exact Hf.
    + rewrite list_lookup_alter_ne, Hf in Hf' by done. apply (inj Some) in Hf'. subst f'.
      apply revalidated_refl.
Qed.

Lemma Forall2_revalidated_refl (cs : list Field) : Forall2 revalidated cs cs.
Proof. induction cs; constructor; [apply revalidated_refl | assumption]. Qed.

Lemma Forall2_revalidated_trans (cs1 cs2 cs3 : list Field) :
  Forall2 revalidated cs1 cs2 -> Forall2 revalidated cs2 cs3 ->
  Forall2 revalidated cs1 cs3.
Proof.
  intros H12. revert cs3. induction H12 as [|f1 f2 cs1 cs2 Hf _ IH]; intros cs3 H23.
  - inversion H23. constructor.
  - inversion H23 as [|? f3 ? cs3' Hf' H23']; subst.
    constructor; [exact (revalidated_trans _ _ _ Hf Hf') | apply IH; exact H23'].
Qed.

Lemma forallb_field_passes (ids : list jsstr) (cs cs' : list Field) :
  Forall2 revalidated cs cs' ->
  forallb (field_passes cs') ids = forallb (field_passes cs) ids.
Proof.
  intros H. induction ids as [|id ids IH]; [reflexivity|].
  cbn [forallb]. by rewrite IH, (field_passes_revalidated id cs cs' H).
Qed.

(** The control [validateField] has just visited carries its verdict. *)
Lemma after_validateField_revalidated (i : nat) (field : Field) (w : World) :
  controls (form_ui w) !! i = Some field ->
  Forall2 revalidated (controls (form_ui w)) (controls (form_ui (after_validateField i field w)))
  /\ exists f', controls (form_ui (after_validateField i field w)) !! i = Some f'
                /\ f_aria_invalid f' = Some (verdict field).
Proof.
  intros Hi. destruct (after_validateField_form i field w Hi) as (Hc & _).
  rewrite Hc. split.
  - apply alter_revalidated. intros f Hf. rewrite Hi in Hf. apply (inj Some) in Hf. subst f.
    unfold revalidated. cbn [f_id f_name f_value f_default f_in_form f_aria_invalid].
    repeat split. right. unfold verdict. by rewrite field_switch_message.
  - rewrite list_lookup_alter_eq, Hi. cbn [fmap option_fmap option_map].
    eexists. split; [reflexivity|]. cbn [f_aria_invalid].
    unfold verdict. by rewrite field_switch_message.
Qed.

Lemma validate_all_run (ids : list jsstr) (acc : bool) (w : World) :
  exists w',
    validate_all ids acc w =
      (Ok (acc && forallb (field_passes (controls (form_ui w))) ids), w')
    /\ page w' = page w
    /\ submitBtn (form_ui w') = submitBtn (form_ui w)
    /\ Forall2 revalidated (controls (form_ui w)) (controls (form_ui w'))
    /\ (forall t, t ∈ timers (loop w') ->
          t ∈ timers (loop w) \/ tm_task t = TaskUpdateSubmit)
    /\ (forall id i f, id ∈ ids ->
          getElementById id (controls (form_ui w)) = Some (i, f) ->
          exists f', controls (form_ui w') !! i = Some f'
                     /\ f_aria_invalid f' = Some (verdict f)).
Proof.
  revert acc w. induction ids as [|id ids IH]; intros acc w.
  - exists w. cbn [validate_all forallb]. rewrite andb_true_r.
    split; [reflexivity|]. split; [reflexivity|]. split; [reflexivity|].
    split; [apply Forall2_revalidated_refl|]. split; [auto|].
    intros id i f Hin. by apply elem_of_nil in Hin.
  - cbn [validate_all forallb]. unfold bind at 1, gets at 1.
    unfold field_passes at 1.
    destruct (getElementById id (controls (form_ui w))) as [[i f]|] eqn:Hget.
    + assert (Hi : controls (form_ui w) !! i = Some f)
        by (apply list_find_Some in Hget; tauto).
      unfold bind at 1. rewrite (validateField_run i f w Hi).
      destruct (after_validateField_form i f w Hi) as (_ & _ & Hbtn & Hpage & Htimers).
      destruct (after_validateField_revalidated i f w Hi) as (HR & f1 & Hf1 & Ha1).
      set (w1 := after_validateField i f w) in *.
      destruct (IH (if negb (fst (field_switch (f_name f) (trim (f_value f))))
                    then false else acc) w1)
        as (w' & Hrun & Hpage' & Hbtn' & HR' & Htimers' & Hval').
      exists w'. rewrite Hrun, (forallb_field_passes ids _ _ HR).
      split.
      { f_equal. f_equal.
        destruct (fst (field_switch (f_name f) (trim (f_value f)))), acc; reflexivity. }
      split; [congruence|]. split; [congruence|].
      split; [exact (Forall2_revalidated_trans _ _ _ HR HR')|].
      split.
      { intros t Ht. destruct (Htimers' t Ht) as [Ht1|Ht1]; [|right; exact Ht1].
        rewrite Htimers in Ht1. apply elem_of_app in Ht1 as [Ht1|Ht1]; [left; exact Ht1|].
        apply list_elem_of_singleton in Ht1. subst t. right. reflexivity. }
      intros id0 i0 f0 Hin Hget0.
      pose proof (getElementById_revalidated id0 _ _ HR) as Hg. rewrite Hget0 in Hg.
      destruct Hg as (f0' & Hget0' & HR0).
      destruct (decide (id0 ∈ ids)) as [Hin'|Hnin].
      * destruct (Hval' id0 i0 f0' Hin' Hget0') as (f2 & Hf2 & Ha2).
        exists f2. split; [exact Hf2|]. by rewrite Ha2, (verdict_revalidated _ _ HR0).
      * apply elem_of_cons in Hin as [->|Hin]; [|done].
        rewrite Hget in Hget0. injection Hget0 as <- <-.
        destruct (Forall2_lookup_l _ _ _ _ _ HR' Hf1) as (f2 & Hf2 & HR2).
        exists f2. split; [exact Hf2|].
        destruct HR2 as (_ & Hn2 & Hv2 & _ & _ & [Ha2|Ha2]); [congruence|].
        rewrite Ha2. f_equal. destruct HR0 as (_ & Hn0 & Hv0 & _).
        assert (Hff1 : f_name f1 = f_name f /\ f_value f1 = f_value f).
        { destruct (Forall2_lookup_l _ _ _ _ _ HR Hi) as (f1' & Hf1' & (_ & ? & ? & _)).
          rewrite Hf1 in Hf1'. apply (inj Some) in Hf1'. subst f1'. split; assumption. }
        destruct Hff1 as [Hn1 Hv1]. unfold verdict. by rewrite Hn1, Hv1.
    + destruct (IH acc w) as (w' & Hrun & Hrest). exists w'.
      rewrite Hrun. split; [reflexivity|].
      destruct Hrest as (Hpage' & Hbtn' & HR' & Htimers' & Hval').
      split; [exact Hpage'|]. split; [exact Hbtn'|]. split; [exact HR'|].
      split; [exact Htimers'|].
      intros id0 i0 f0 Hin Hget0. apply elem_of_cons in Hin as [->|Hin].
      * rewrite Hget in Hget0. discriminate Hget0.
      * exact (Hval' id0 i0 f0 Hin Hget0).
Qed.

Lemma announce_run (message : jsstr) (w : World) :
  announceToScreenReader message w =
    (Ok tt,
     on_loop (fun l => with_timers
                (timers l ++ [mkTimer 1000 (TaskRemoveLive (next_node (page w)))]) l)
       (on_page (fun p => with_next_node (S (next_node (page w)))
                   (with_live (live p ++ [mkLiveNode (next_node (page w)) message]) p)) w)).
Proof. reflexivity. Qed.

Lemma harmless_task_button_classes (t : Task) :
  harmless_task t ->
  preserves (fun w => b_classes <$> submitBtn (form_ui w)) (run_task t).
Proof.
  intros [-> | [n ->] ]; cbn [run_task]; [|frame].
  intros w. unfold updateSubmitButtonState, update_submitBtn. run.
  destruct (submitBtn (form_ui w)) eqn:Hb; [|run; by rewrite Hb].
  destruct (submit_gate (controls (form_ui w))), (submitReady (form_ui w));
    run; rewrite Hb; reflexivity.
Qed.

(** C7: when the form is submitted with an invalid required field, the
    handler announces a correction request, focuses the first control of
    the form marked invalid, and returns before the send: the submit button
    is left as it was, no timer of the send is started, and the timers left
    behind do not touch the class list of the button. *)
Theorem C7_invalid_submission_aborts
    (w : World) (fieldId : jsstr) (i : nat) (field : Field) :
  fieldId ∈ requiredFields ->
  getElementById fieldId (controls (form_ui w)) = Some (i, field) ->
  f_name field ∈ requiredFields ->
  rule_valid (f_name field) (trim (f_value field)) = false ->
  let w' := state_of (validateAndSubmitForm w) in
  result_of (validateAndSubmitForm w) = Ok tt
  /\ live (page w') =
       live (page w) ++ [mkLiveNode (next_node (page w))
                           (js "Please correct the errors in the form")]
  /\ activeElement (page w') =
       match form_first_invalid (controls (form_ui w')) with
       | Some j => Some (RField j)
       | None => activeElement (page w)
       end
  /\ (f_in_form field = true ->
        exists j f', form_first_invalid (controls (form_ui w')) = Some j
                     /\ (j <= i)%nat
                     /\ controls (form_ui w') !! j = Some f'
                     /\ f_aria_invalid f' = Some (js "true"))
  /\ submitBtn (form_ui w') = submitBtn (form_ui w)
  /\ (forall t, t ∈ timers (loop w') ->
        t ∈ timers (loop w) \/ harmless_task (tm_task t))
  /\ (forall t, harmless_task t ->
        preserves (fun w => b_classes <$> submitBtn (form_ui w)) (run_task t)).
Proof.
  intros Hid Hget Hname Hinvalid w'.
  destruct (field_switch_rule _ (trim (f_value field)) Hname) as [Hsw _].
  rewrite Hinvalid in Hsw.
  destruct (validate_all_run requiredFields true w)
    as (w1 & Hrun & Hpage & Hbtn & HR & Htimers & Hval).
  assert (Hfalse : forallb (field_passes (controls (form_ui w))) requiredFields = false).
  { apply not_true_is_false. intros Hall. rewrite forallb_forall in Hall.
    specialize (Hall fieldId (proj1 (list_elem_of_In _ _) Hid)).
    unfold field_passes in Hall. rewrite Hget, Hsw in Hall. discriminate Hall. }
  rewrite Hfalse in Hrun. cbn [andb] in Hrun.
  assert (Hi : controls (form_ui w) !! i = Some field)
    by (apply list_find_Some in Hget; tauto).
  set (w2 := on_loop (fun l => with_timers
                (timers l ++ [mkTimer 1000 (TaskRemoveLive (next_node (page w1)))]) l)
       (on_page (fun p => with_next_node (S (next_node (page w1)))
                   (with_live (live p ++ [mkLiveNode (next_node (page w1))
                      (js "Please correct the errors in the form")]) p)) w1)).
  assert (Hw' : validateAndSubmitForm w =
                (Ok tt, match form_first_invalid (controls (form_ui w1)) with
                        | Some j => on_page (with_activeElement (Some (RField j))) w2
                        | None => w2
                        end)).
  { unfold validateAndSubmitForm. unfold bind at 1. rewrite Hrun. cbn [negb].
    unfold bind at 1. rewrite announce_run. fold w2.
    unfold bind, gets. change (controls (form_ui w2)) with (controls (form_ui w1)).
    destruct (form_first_invalid (controls (form_ui w1))); reflexivity. }
  subst w'. rewrite Hw'. unfold state_of, result_of. cbn [fst snd].
  assert (Hform : form_ui (match form_first_invalid (controls (form_ui w1)) with
                           | Some j => on_page (with_activeElement (Some (RField j))) w2
                           | None => w2
                           end) = form_ui w1)
    by (destruct (form_first_invalid (controls (form_ui w1))); reflexivity).
  rewrite Hform.
  split; [reflexivity|].
  split.
  { destruct (form_first_invalid (controls (form_ui w1))); unfold w2; wsimpl;
      by rewrite Hpage. }
  split.
  { destruct (form_first_invalid (controls (form_ui w1))); unfold w2; wsimpl;
      by rewrite ?Hpage. }
  split.
  { intros Hin_form.
    destruct (Hval fieldId i field Hid Hget) as (f1 & Hf1 & Ha1).
    destruct (Forall2_lookup_l _ _ _ _ _ HR Hi) as (f1' & Hf1' & (_ & _ & _ & _ & Hif & _)).
    rewrite Hf1 in Hf1'. apply (inj Some) in Hf1'. subst f1'.
    assert (Htrue : verdict field = js "true") by (unfold verdict; by rewrite Hsw).
    rewrite Htrue in Ha1.
    assert (HP : f_in_form f1 = true /\ f_aria_invalid f1 = Some (js "true"))
      by (split; congruence).
    unfold form_first_invalid.
    destruct (list_find_elem_of
                (fun f => f_in_form f = true /\ f_aria_invalid f = Some (js "true"))
                (controls (form_ui w1)) f1) as [[j f2] Hfind];
      [apply list_elem_of_lookup; by exists i | exact HP |].
    rewrite Hfind. cbn [fmap option_fmap option_map fst].
    apply list_find_Some in Hfind as (Hj & [_ Hja] & Hmin).
    exists j, f2. split; [reflexivity|]. split; [|split; assumption].
    destruct (decide (j <= i)%nat) as [Hle|Hgt]; [exact Hle|].
    exfalso. apply (Hmin i f1 Hf1); [lia | exact HP]. }
  split; [exact Hbtn|].
  split.
  { intros t Ht.
    assert (Ht2 : t ∈ timers (loop w2)).
    { destruct (form_first_invalid (controls (form_ui w1))); exact Ht. }
    unfold w2 in Ht2. wsimpl_all. apply elem_of_app in Ht2 as [Ht2|Ht2].
    - destruct (Htimers t Ht2) as [?|Hu]; [left; assumption|].
      right. left. exact Hu.
    - apply list_elem_of_singleton in Ht2. subst t. right. right. eexists. reflexivity. }
  exact harmless_task_button_classes.
Qed.

Lemma C7_invalid_submission_witness :
  result_of (validateAndSubmitForm (contact_page (js "Al") (js "bad") (js "short"))) = Ok tt.
Proof.
  apply (C7_invalid_submission_aborts
           (contact_page (js "Al") (js "bad") (js "short")) (js "email") 1%nat
           (text_field (js "email") (js "bad"))).
  - refine (bool_decide_eq_true_1 _ _). vm_compute. reflexivity.
  - vm_compute. reflexivity.
  - refine (bool_decide_eq_true_1 _ _). vm_compute. reflexivity.
  - vm_compute. reflexivity.
Defined.

(** ** Text size *)

Lemma setTextSize_root_classes (size : jsstr) (w : World) :
  root_classes (page (state_of (setTextSize size w))) =
    (root_classes (page w) ∖ size_classes) ∪ added_class size.
Proof.
  unfold setTextSize, documentElement_classList, localStorage_setItem,
    announceToScreenReader, setTimeout, added_class, size_class_of.
  run. destruct (token_error (js "text-" ++ size));
    destruct (js_eqb size (js "normal")); cbn [negb]; run;
    destruct (set_throws (storage w)); run;
    unfold classList_add, classList_remove, size_classes; set_solver.
Qed.

Lemma added_class_valid (size : jsstr) :
  valid_size size -> added_class size = size_class_of size.
Proof. intros [-> | [-> | ->] ]; reflexivity. Qed.

Lemma size_class_of_valid (size : jsstr) :
  valid_size size -> size_class_of size ⊆ size_classes.
Proof.
  unfold size_classes.
  intros [-> | [-> | ->] ]; unfold size_class_of; js_literals.
  - set_solver.
  - change (js "text-" ++ js "large") with (js "text-large"). set_solver.
  - change (js "text-" ++ js "extra-large") with (js "text-extra-large"). set_solver.
Qed.

Lemma setTextSize_calls_other_classes (sizes : list jsstr) (w : World) :
  Forall valid_size sizes ->
  root_classes (page (setTextSize_calls sizes w)) ∖ size_classes =
    root_classes (page w) ∖ size_classes.
Proof.
  intros Hv. revert w. induction Hv as [|size sizes Hsize _ IH]; intros w; [done|].
  cbn [setTextSize_calls fold_left]. fold (setTextSize_calls sizes).
  rewrite IH, setTextSize_root_classes, (added_class_valid size Hsize).
  pose proof (size_class_of_valid size Hsize). set_solver.
Qed.

(** C4: after any sequence of [setTextSize] calls that ends with a value
    of the preference, at most one text-size style class is on the document
    root, and it is the class of the last size set: [text-large] for
    [large], [text-extra-large] for [extra-large], none for [normal].  When
    every call had a value of the preference, the other classes of the root
    are as before the calls. *)
Theorem C4_one_size_class_matches_last
    (w : World) (sizes : list jsstr) (last : jsstr) :
  valid_size last ->
  let w' := setTextSize_calls (sizes ++ [last]) w in
  root_classes (page w') ∩ size_classes = size_class_of last
  /\ (size (root_classes (page w') ∩ size_classes) <= 1)%nat
  /\ (js "text-large" ∈ root_classes (page w') <-> last = js "large")
  /\ (js "text-extra-large" ∈ root_classes (page w') <-> last = js "extra-large")
  /\ (Forall valid_size sizes ->
        root_classes (page w') ∖ size_classes = root_classes (page w) ∖ size_classes).
Proof.
  intros Hlast w'.
  assert (Hroot : root_classes (page w') =
                  (root_classes (page (setTextSize_calls sizes w)) ∖ size_classes)
                    ∪ size_class_of last).
  { subst w'. unfold setTextSize_calls. rewrite fold_left_app. cbn [fold_left].
    rewrite <- (added_class_valid last Hlast). apply setTextSize_root_classes. }
  pose proof (size_class_of_valid last Hlast) as Hsub.
  assert (Hinter : root_classes (page w') ∩ size_classes = size_class_of last)
    by (rewrite Hroot; set_solver).
  split; [exact Hinter|]. split.
  { rewrite Hinter. unfold size_class_of.
    destruct (js_eqb last (js "normal")); [rewrite size_empty | rewrite size_singleton]; lia. }
  assert (Hne : js "text-large" <> js "text-extra-large") by discriminate.
  split; [|split].
  - rewrite Hroot. unfold size_classes.
    destruct Hlast as [-> | [-> | ->] ]; unfold size_class_of; js_literals;
      [| change (js "text-" ++ js "large") with (js "text-large")
       | change (js "text-" ++ js "extra-large") with (js "text-extra-large")];
      split; try discriminate; try reflexivity; set_solver.
  - rewrite Hroot. unfold size_classes.
    destruct Hlast as [-> | [-> | ->] ]; unfold size_class_of; js_literals;
      [| change (js "text-" ++ js "large") with (js "text-large")
       | change (js "text-" ++ js "extra-large") with (js "text-extra-large")];
      split; try discriminate; try reflexivity; set_solver.
  - intros Hsizes.
    pose proof (setTextSize_calls_other_classes sizes w Hsizes) as Hother.
    rewrite Hroot, <- Hother. set_solver.
Qed.

Lemma C4_one_size_class_witness :
  root_classes (page (setTextSize_calls
      ([js "extra-large"; js "normal"] ++ [js "large"]) blank_world)) ∩ size_classes
    = size_class_of (js "large").
Proof.
  apply (C4_one_size_class_matches_last blank_world
           [js "extra-large"; js "normal"] (js "large")).
  right; left; reflexivity.
Defined.

(** ** Start-up with a store that throws *)

Lemma loadUserPreferences_read_throws (h : option ThemeHelpers) (w : World) :
  get_throws (storage w) = true ->
  root_data_theme (page (state_of (loadUserPreferences h w))) = Some (js "dark").
Proof.
  intros Hget.
  unfold loadUserPreferences, detectSystemTheme, updateThemeControls, localStorage_getItem,
    setTheme, localStorage_setItem, announceToScreenReader, setTimeout, console_put.
  destruct h as [x|]; run; rewrite ?Hget; run;
    destruct (set_throws (storage w)); run; reflexivity.
Qed.

Lemma initializeComponents_returns (h : option ThemeHelpers) (w : World) :
  exists w', initializeComponents h w = (Ok tt, w').
Proof.
  unfold initializeComponents, try_catch.
  match goal with |- context [match ?m w with _ => _ end] => destruct (m w) as [[[]|e] w1] end.
  - eexists. reflexivity.
  - eexists. reflexivity.
Qed.

Lemma initializeComponents_split (h : option ThemeHelpers) (w : World) :
  initializeComponents h w =
    try_catch
      (setup_phase;;
       (loadUserPreferences h;;
        modify (on_mgr (fun m => mkManager (this_panel m) (this_toggle m) true));;
        console_put LogLevel (js "Accessibility Manager initialized successfully")))
      (fun error =>
         console_put ErrorLevel (js "Error initializing Accessibility Manager:")) w.
Proof.
  unfold initializeComponents, setup_phase, try_catch, bind.
  destruct (setupAccessibilityPanel w) as [[[]|?] w1]; [|reflexivity].
  destruct (setupThemeToggle w1) as [[[]|?] w2]; [|reflexivity].
  destruct (setupFormValidation w2) as [[[]|?] w3]; [|reflexivity].
  destruct (setupKeyboardNavigation w3) as [[[]|?] w4]; [|reflexivity].
  destruct (setupReducedMotion w4) as [[[]|?] w5]; reflexivity.
Qed.

Lemma setup_phase_get_throws :
  preserves (fun w => get_throws (storage w)) setup_phase.
Proof.
  unfold setup_phase, setupAccessibilityPanel, setupPanelTabbing, setupPreferenceControls,
    setupThemeToggle, setupFormValidation, updateSubmitButtonState,
    setupKeyboardNavigation, setupReducedMotion, setReducedMotion, localStorage_setItem,
    announceToScreenReader.
  frame.
Qed.

(** C1: if reading the store throws during start-up,
    [loadUserPreferences] falls back to the theme ['dark'] and puts it on
    the document, and no exception leaves [initializeComponents]; when
    the set-up steps before it have completed, ['dark'] is the theme of the
    document at the end of the initialization. *)
Theorem C1_storage_read_failure_falls_back_to_dark (h : option ThemeHelpers) (w : World) :
  get_throws (storage w) = true ->
  root_data_theme (page (state_of (loadUserPreferences h w))) = Some (js "dark")
  /\ result_of (initializeComponents h w) = Ok tt
  /\ (result_of (setup_phase w) = Ok tt ->
        root_data_theme (page (state_of (initializeComponents h w))) = Some (js "dark")).
Proof.
  intros Hget. split; [exact (loadUserPreferences_read_throws h w Hget)|]. split.
  - destruct (initializeComponents_returns h w) as [w' ->]. reflexivity.
  - intros Hsetup. rewrite initializeComponents_split.
    pose proof (setup_phase_get_throws w) as Hflag. cbv beta in Hflag.
    unfold result_of, state_of in Hsetup, Hflag.
    unfold try_catch. unfold bind at 1.
    destruct (setup_phase w) as [r w1]. cbn [fst snd] in Hsetup, Hflag. subst r.
    rewrite Hget in Hflag.
    pose proof (loadUserPreferences_read_throws h w1 Hflag) as Hdark.
    unfold state_of in Hdark. unfold bind at 1.
    destruct (loadUserPreferences h w1) as [[[]|e] w2]; cbn [snd] in Hdark.
    + unfold bind, modify, console_put. cbn [state_of snd]. wsimpl. exact Hdark.
    + unfold console_put, modify. cbn [state_of snd]. wsimpl. exact Hdark.
Qed.

Lemma C1_storage_read_failure_witness :
  root_data_theme (page (state_of (loadUserPreferences as_written blocked_storage_page)))
    = Some (js "dark").
Proof.
  apply (proj1 (C1_storage_read_failure_falls_back_to_dark
                  as_written blocked_storage_page eq_refl)).
Defined.

(** ** Start-up defaults *)

(** In the class as written [loadUserPreferences] never gets to read the
    store: the call of the missing [detectSystemTheme] throws, the handler
    sets the dark theme, and its call of the missing [updateThemeControls]
    throws again. *)
Lemma loadUserPreferences_as_written (w : World) :
  root_data_theme (page (state_of (loadUserPreferences as_written w))) = Some (js "dark")
  /\ root_classes (page (state_of (loadUserPreferences as_written w))) = root_classes (page w)
  /\ exists e, result_of (loadUserPreferences as_written w) = Throw e.
Proof.
  unfold loadUserPreferences, as_written, detectSystemTheme, updateThemeControls,
    setTheme, localStorage_setItem, announceToScreenReader, setTimeout, console_put.
  run. destruct (set_throws (storage w)); run; repeat split; eexists; reflexivity.
Qed.

(** C8 fails on the class as written: on a first visit with a system that
    asks for a light theme, the initialization ends with the dark theme on
    the document and with the manager not marked as initialized. *)
Theorem C8_as_written_ignores_system_theme :
  let w' := state_of (initializeComponents as_written first_visit_light) in
  prefers_dark (media first_visit_light) = false
  /\ items (storage first_visit_light) !! js "theme" = None
  /\ root_data_theme (page w') = Some (js "dark")
  /\ isInitialized (mgr w') = false.
Proof. vm_compute. repeat split; reflexivity. Qed.

(** With the two missing methods supplied and a working store,
    [loadUserPreferences] applies to the document what the store holds, the
    value of [detectSystemTheme] for a missing theme, and the hard defaults
    for the rest. *)
Lemma loadUserPreferences_with_helpers (h : ThemeHelpers) (w : World) :
  get_throws (storage w) = false ->
  set_throws (storage w) = false ->
  token_error (js "text-" ++ js_or (items (storage w) !! js "textSize") (js "normal")) = None ->
  let stored key := items (storage w) !! key in
  let w' := state_of (loadUserPreferences (Some h) w) in
  result_of (loadUserPreferences (Some h) w) = Ok tt
  /\ root_data_theme (page w') =
       Some (js_or (stored (js "theme")) (detectSystemTheme_impl h (media w)))
  /\ root_classes (page w') =
       classList_toggle (js "reduce-motion") (is_true_string (stored (js "reducedMotion")))
         (classList_toggle (js "high-contrast") (is_true_string (stored (js "highContrast")))
            ((root_classes (page w) ∖ size_classes)
               ∪ size_class_of (js_or (stored (js "textSize")) (js "normal")))).
Proof.
  intros Hget Hset Htoken stored w'. subst w' stored.
  unfold loadUserPreferences, detectSystemTheme, updateThemeControls, localStorage_getItem,
    setTheme, setTextSize, setHighContrast, setReducedMotion, documentElement_classList,
    localStorage_setItem, announceToScreenReader, setTimeout, console_put, size_class_of.
  open_world w. run. rewrite Htoken.
  match goal with |- context [js_eqb (js_or ?a ?b) ?c] => destruct (js_eqb (js_or a b) c) end;
    run; (split; [reflexivity|]); (split; [reflexivity|]);
    f_equal; f_equal; unfold classList_add, classList_remove, size_classes; set_solver.
Qed.

Lemma returns_ret {A} (a : A) : returns (ret a).
Proof. intros w. by exists a. Qed.

Lemma returns_gets {A} (g : World -> A) : returns (gets g).
Proof. intros w. by eexists. Qed.

Lemma returns_modify (g : World -> World) : returns (modify g).
Proof. intros w. by eexists. Qed.

Lemma returns_bind {A C} (m : M A) (k : A -> M C) :
  returns m -> (forall a, returns (k a)) -> returns (bind m k).
Proof.
  intros Hm Hk w. destruct (Hm w) as [a Ha]. unfold bind, result_of in *.
  destruct (m w) as [r w']. cbn [fst] in Ha. subst r. apply Hk.
Qed.

Lemma returns_when (b : bool) (m : M unit) : returns m -> returns (when b m).
Proof. intros Hm. destruct b; [exact Hm | apply returns_ret]. Qed.

Lemma returns_forEach {A} (l : list A) (body : A -> M unit) :
  (forall x, returns (body x)) -> returns (forEach l body).
Proof.
  intros Hbody. induction l as [|x l IH]; cbn [forEach].
  - apply returns_ret.
  - apply returns_bind; [apply Hbody | intros _; exact IH].
Qed.

Ltac total_step :=
  first
    [ apply returns_ret
    | apply returns_gets
    | apply returns_modify
    | apply returns_bind; [|intros ?]
    | apply returns_when
    | apply returns_forEach; intros ?
    | match goal with
      | |- returns (match ?x with _ => _ end) => destruct x
      end ].

Ltac total := autounfold with frame; repeat total_step.

Ltac quiet := unfold quiet_step; split; [total | repeat split; frame].

Lemma setupAccessibilityPanel_quiet : quiet_step setupAccessibilityPanel.
Proof.
  unfold setupAccessibilityPanel, setupPanelTabbing, setupPreferenceControls. quiet.
Qed.

Lemma setupThemeToggle_quiet : quiet_step setupThemeToggle.
Proof. unfold setupThemeToggle. quiet. Qed.

Lemma setupFormValidation_quiet : quiet_step setupFormValidation.
Proof. unfold setupFormValidation, updateSubmitButtonState. quiet. Qed.

Lemma setupKeyboardNavigation_quiet : quiet_step setupKeyboardNavigation.
Proof. unfold setupKeyboardNavigation. quiet. Qed.

(** [setupReducedMotion] with a working store: the system preference is
    put on the document and into the store. *)
Lemma setupReducedMotion_run (w : World) :
  set_throws (storage w) = false ->
  let w' := state_of (setupReducedMotion w) in
  let prefers := prefers_reduced_motion (media w) in
  result_of (setupReducedMotion w) = Ok tt
  /\ get_throws (storage w') = get_throws (storage w)
  /\ set_throws (storage w') = false
  /\ media w' = media w
  /\ root_data_theme (page w') = root_data_theme (page w)
  /\ root_classes (page w') =
       (if prefers then classList_add (js "reduce-motion") (root_classes (page w))
        else root_classes (page w))
  /\ items (storage w') =
       (if prefers then <[js "reducedMotion" := js "true"]> (items (storage w))
        else items (storage w)).
Proof.
  intros Hset w' prefers. subst w' prefers.
  unfold setupReducedMotion, set_reducedMotion_checked, setReducedMotion,
    documentElement_classList, localStorage_setItem, announceToScreenReader, setTimeout,
    addEventListener.
  open_world w. run.
  match goal with |- context [if ?b then _ else _] => destruct b end;
    run; repeat split; reflexivity.
Qed.

Lemma quiet_step_run (m : M unit) (w : World) :
  quiet_step m ->
  exists w1, m w = (Ok tt, w1)
             /\ storage w1 = storage w
             /\ media w1 = media w
             /\ root_classes (page w1) = root_classes (page w)
             /\ root_data_theme (page w1) = root_data_theme (page w).
Proof.
  intros (Hr & Hs & Hm & Hc & Ht).
  specialize (Hr w) as [ [] Hr]. specialize (Hs w). specialize (Hm w).
  specialize (Hc w). specialize (Ht w). unfold result_of, state_of in *.
  destruct (m w) as [r w1]. cbn [fst snd] in *. subst r.
  exists w1. repeat split; assumption.
Qed.

(** C8 on the class completed with the two missing methods: with a
    working store, and a stored text size (if any) that makes a class
    token, each preference that is not stored gets the media-query signal
    (theme, reduced motion) or the hard default (text size, high contrast)
    at start-up. *)
Lemma startup_defaults_with_helpers (h : ThemeHelpers) (w : World) :
  get_throws (storage w) = false ->
  set_throws (storage w) = false ->
  token_error (js "text-" ++ js_or (items (storage w) !! js "textSize") (js "normal")) = None ->
  let stored key := items (storage w) !! key in
  let w' := state_of (initializeComponents (Some h) w) in
  (stored (js "theme") = None ->
     root_data_theme (page w') = Some (detectSystemTheme_impl h (media w)))
  /\ (stored (js "textSize") = None -> root_classes (page w') ∩ size_classes = ∅)
  /\ (stored (js "highContrast") = None -> has_root_class (js "high-contrast") w' = false)
  /\ (stored (js "reducedMotion") = None ->
        has_root_class (js "reduce-motion") w' = prefers_reduced_motion (media w))
  /\ isInitialized (mgr w') = true.
Proof.
  intros Hget Hset Htoken stored w'. subst w' stored.
  unfold initializeComponents, try_catch, bind.
  destruct (quiet_step_run _ w setupAccessibilityPanel_quiet)
    as (w1 & -> & Hs1 & Hm1 & Hc1 & Ht1).
  destruct (quiet_step_run _ w1 setupThemeToggle_quiet)
    as (w2 & -> & Hs2 & Hm2 & Hc2 & Ht2).
  destruct (quiet_step_run _ w2 setupFormValidation_quiet)
    as (w3 & -> & Hs3 & Hm3 & Hc3 & Ht3).
  destruct (quiet_step_run _ w3 setupKeyboardNavigation_quiet)
    as (w4 & -> & Hs4 & Hm4 & Hc4 & Ht4).
  assert (Hs : storage w4 = storage w) by congruence.
  assert (Hm : media w4 = media w) by congruence.
  assert (Hc : root_classes (page w4) = root_classes (page w)) by congruence.
  clear Hs1 Hs2 Hs3 Hs4 Hm1 Hm2 Hm3 Hm4 Hc1 Hc2 Hc3 Hc4 Ht1 Ht2 Ht3 Ht4.
  assert (Hset4 : set_throws (storage w4) = false) by (rewrite Hs; exact Hset).
  destruct (setupReducedMotion_run w4 Hset4)
    as (Hr5 & Hg5 & Hs5 & Hm5 & _ & Hc5 & Hi5).
  unfold result_of, state_of in *.
  destruct (setupReducedMotion w4) as [r5 w5]. cbn [fst snd] in *. subst r5.
  assert (Hget5 : get_throws (storage w5) = false) by (rewrite Hg5, Hs; exact Hget).
  assert (Hn2 : js "reducedMotion" <> js "textSize") by discriminate.
  assert (Htoken5 : token_error (js "text-" ++
            js_or (items (storage w5) !! js "textSize") (js "normal")) = None).
  { rewrite Hi5, Hs. destruct (prefers_reduced_motion (media w4));
      rewrite ?(lookup_insert_ne _ _ _ _ Hn2); exact Htoken. }
  destruct (loadUserPreferences_with_helpers h w5 Hget5 Hs5 Htoken5) as (Hr6 & Ht6 & Hc6).
  unfold result_of, state_of in *.
  destruct (loadUserPreferences (Some h) w5) as [r6 w6]. cbn [fst snd] in *. subst r6.
  unfold console_put, has_root_class, classList_contains. run.
  rewrite Hm5, Hm in Ht6. rewrite Hi5, Hs, Hm in Ht6, Hc6. rewrite Hc5, Hm, Hc in Hc6.
  assert (Hn1 : js "reducedMotion" <> js "theme") by discriminate.
  assert (Hn3 : js "reducedMotion" <> js "highContrast") by discriminate.
  assert (Hk1 : js "reduce-motion" <> js "high-contrast") by discriminate.
  assert (Hk2 : js "reduce-motion" <> js "text-large") by discriminate.
  assert (Hk3 : js "reduce-motion" <> js "text-extra-large") by discriminate.
  assert (Hk4 : js "high-contrast" <> js "text-large") by discriminate.
  assert (Hk5 : js "high-contrast" <> js "text-extra-large") by discriminate.
  rewrite Hc6, Ht6. clear Hc6 Ht6.
  unfold classList_toggle, classList_add, classList_remove, size_classes.
  destruct (prefers_reduced_motion (media w)) eqn:Hp; cbv beta iota;
    rewrite ?lookup_insert_eq, ?(lookup_insert_ne _ _ _ _ Hn1),
      ?(lookup_insert_ne _ _ _ _ Hn2), ?(lookup_insert_ne _ _ _ _ Hn3).
  - split; [intros ->; reflexivity|].
    split.
    { intros ->. cbn [js_or]. unfold size_class_of. js_literals.
      destruct (is_true_string _), (is_true_string _); set_solver. }
    split.
    { intros ->. change (is_true_string None) with false. cbv beta iota.
      apply bool_decide_eq_false. destruct (is_true_string _); set_solver. }
    split; [|reflexivity].
    intros _. change (is_true_string (Some (js "true"))) with true. cbv beta iota.
    apply bool_decide_eq_true. set_solver.
  - split; [intros ->; reflexivity|].
    split.
    { intros ->. cbn [js_or]. unfold size_class_of. js_literals.
      destruct (is_true_string _), (is_true_string _); set_solver. }
    split.
    { intros ->. change (is_true_string None) with false. cbv beta iota.
      apply bool_decide_eq_false. destruct (is_true_string _); set_solver. }
    split; [|reflexivity].
    intros ->. change (is_true_string None) with false. cbv beta iota.
    apply bool_decide_eq_false. destruct (is_true_string _); set_solver.
Qed.

(** ** The panel *)

Lemma openPanel_panel_ui (w : World) (p : Panel) (t : Toggle) :
  this_panel (mgr w) = true -> this_toggle (mgr w) = true ->
  panel (panel_ui w) = Some p -> toggle (panel_ui w) = Some t ->
  panel_ui (state_of (openPanel w)) =
    mkPanelUI (Some (mkPanel (classList_add (js "open") (p_classes p))
                             (Some (js "false")) (p_children p)))
              (Some (mkToggle (Some (js "true")))).
Proof.
  intros Hp Ht Hpanel Htoggle.
  unfold openPanel, panel_or_toggle_missing, panel_classList, toggle_set_aria_expanded,
    panel_set_aria_hidden, update_panel, queue_record, panel_querySelector,
    panel_querySelectorAll, announceToScreenReader, setTimeout.
  open_world w. run.
  match goal with |- context [head ?l] => destruct (head l) end; run; reflexivity.
Qed.

Lemma closePanel_panel_ui (w : World) (p : Panel) (t : Toggle) :
  this_panel (mgr w) = true -> this_toggle (mgr w) = true ->
  panel (panel_ui w) = Some p -> toggle (panel_ui w) = Some t ->
  panel_ui (state_of (closePanel w)) =
    mkPanelUI (Some (mkPanel (classList_remove (js "open") (p_classes p))
                             (Some (js "true")) (p_children p)))
              (Some (mkToggle (Some (js "false")))).
Proof.
  intros Hp Ht Hpanel Htoggle.
  unfold closePanel, panel_or_toggle_missing, panel_classList, toggle_set_aria_expanded,
    panel_set_aria_hidden, update_panel, queue_record, announceToScreenReader, setTimeout.
  open_world w. run. reflexivity.
Qed.

(** C5: after an open or a close transition of the panel the
    representations of its state agree: the [open] class is on the panel,
    [aria-hidden] is ["false"] and [aria-expanded] is ["true"] exactly when
    the transition was the opening one. *)
Theorem C5_panel_mirrors_agree (w : World) (t : Transition) :
  panel_bound w ->
  let w' := state_of (transition t w) in
  has_open_class w' = open_after t
  /\ aria_hidden_is_false w' = open_after t
  /\ aria_expanded_is_true w' = open_after t.
Proof.
  intros (Hp & Ht & [p Hpanel] & [tg Htoggle]) w'. subst w'.
  unfold has_open_class, panel_has_class, aria_hidden_is_false, aria_expanded_is_true.
  destruct t; cbn [transition open_after].
  - rewrite (openPanel_panel_ui w p tg Hp Ht Hpanel Htoggle). wsimpl.
    unfold classList_contains, classList_add.
    split; [apply bool_decide_eq_true; set_solver|].
    split; apply bool_decide_eq_true; reflexivity.
  - rewrite (closePanel_panel_ui w p tg Hp Ht Hpanel Htoggle). wsimpl.
    unfold classList_contains, classList_remove.
    split; [apply bool_decide_eq_false; set_solver|].
    split; apply bool_decide_eq_false; discriminate.
Qed.

(** A page with the panel (an input, a select and a link inside it) and its
    toggle, after [setupAccessibilityPanel]. *)
Lemma C5_panel_mirrors_witness :
  has_open_class (state_of (transition ToOpen panel_page_ready)) = true.
Proof.
  apply (C5_panel_mirrors_agree panel_page_ready ToOpen).
  unfold panel_bound.
  split; [reflexivity|]. split; [reflexivity|].
  split; vm_compute; eexists; reflexivity.
Defined.

(** ** The panel under the events of the page *)

(** *** Methods that stay off the panel *)

Lemma announce_off_panel (message : jsstr) :
  preserves panel_core (announceToScreenReader message).
Proof. unfold announceToScreenReader. frame. Qed.

Lemma setItem_off_panel (key value : jsstr) :
  preserves panel_core (localStorage_setItem key value).
Proof. unfold localStorage_setItem. frame. Qed.

Global Hint Resolve announce_off_panel setItem_off_panel : frame.

Lemma setTheme_off_panel (theme : jsstr) : preserves panel_core (setTheme theme).
Proof. unfold setTheme. frame. Qed.

Lemma setTextSize_off_panel (size : jsstr) : preserves panel_core (setTextSize size).
Proof. unfold setTextSize. frame. Qed.

Lemma setHighContrast_off_panel (enabled : bool) :
  preserves panel_core (setHighContrast enabled).
Proof. unfold setHighContrast. frame. Qed.

Lemma setReducedMotion_off_panel (enabled : bool) :
  preserves panel_core (setReducedMotion enabled).
Proof. unfold setReducedMotion. frame. Qed.

Lemma updateSubmitButtonState_off_panel : preserves panel_core updateSubmitButtonState.
Proof. unfold updateSubmitButtonState. frame. Qed.

Global Hint Resolve setTheme_off_panel setTextSize_off_panel setHighContrast_off_panel
  setReducedMotion_off_panel updateSubmitButtonState_off_panel : frame.

Lemma validateField_off_panel (i : nat) : preserves panel_core (validateField i).
Proof. unfold validateField, displayFieldError. frame. Qed.

Lemma clearFieldError_off_panel (i : nat) : preserves panel_core (clearFieldError i).
Proof. unfold clearFieldError. frame. Qed.

Global Hint Resolve validateField_off_panel clearFieldError_off_panel : frame.

Lemma validate_all_off_panel (ids : list jsstr) (acc : bool) :
  preserves panel_core (validate_all ids acc).
Proof.
  revert acc. induction ids as [|id ids IH]; intros acc; cbn [validate_all]; frame;
    apply IH.
Qed.

Global Hint Resolve validate_all_off_panel : frame.

Lemma validateAndSubmitForm_off_panel : preserves panel_core validateAndSubmitForm.
Proof. unfold validateAndSubmitForm. frame. Qed.

Lemma run_task_off_panel (t : Task) : preserves panel_core (run_task t).
Proof.
  destruct t; cbn [run_task]; unfold validateAndSubmitForm_resume, showSuccessMessage,
    showErrorMessage; frame.
Qed.

Lemma default_action_off_panel (ev : Event) : preserves panel_core (default_action ev).
Proof. destruct ev; cbn [default_action]; frame. Qed.

(** A listener is one of the three handlers of the panel or stays off the
    panel. *)
Lemma listener_body_cases (stopped : bool) (l : Listener) (ev : Event) (body : M unit) :
  listener_body stopped l ev = Some body ->
  body = handleToggleClick
  \/ (exists inside, body = handleDocumentClick inside)
  \/ (exists key, body = handleKeydown key)
  \/ preserves panel_core body.
Proof.
  destruct l, ev; cbn [listener_body]; try discriminate;
    repeat match goal with
      | |- context [if ?b then _ else _] => destruct b
      end;
    intros H; try discriminate H; apply (inj Some) in H; subst body;
    first [ left; reflexivity
          | right; left; eexists; reflexivity
          | right; right; left; eexists; reflexivity
          | right; right; right;
            first [ exact validateAndSubmitForm_off_panel
                  | unfold on_themeToggle_click, on_toggleTheme_change,
                      on_motion_preference_change; frame ] ].
Qed.

(** *** Invariants of the dispatch *)

Section Keeps.
Context (I : World -> Prop).

Lemma keeps_ret {A} (a : A) : keeps I (ret a).
Proof. intros w Hw. exact Hw. Qed.

Lemma keeps_throw {A} (e : Exn) : keeps I (@throw A e).
Proof. intros w Hw. exact Hw. Qed.

Lemma keeps_bind {A C} (m : M A) (k : A -> M C) :
  keeps I m -> (forall a, keeps I (k a)) -> keeps I (bind m k).
Proof.
  intros Hm Hk w Hw. specialize (Hm w Hw). unfold bind, state_of in *.
  destruct (m w) as [[a|e] w']; cbn [snd] in *; [by apply Hk | exact Hm].
Qed.

Lemma keeps_try_catch {A} (body : M A) (handler : Exn -> M A) :
  keeps I body -> (forall e, keeps I (handler e)) -> keeps I (try_catch body handler).
Proof.
  intros Hb Hh w Hw. specialize (Hb w Hw). unfold try_catch, state_of in *.
  destruct (body w) as [[a|e] w']; cbn [snd] in *; [exact Hb | by apply Hh].
Qed.

Lemma keeps_forEach {A} (l : list A) (body : A -> M unit) :
  (forall x, keeps I (body x)) -> keeps I (forEach l body).
Proof.
  intros Hbody. induction l as [|x l IH]; cbn [forEach].
  - apply keeps_ret.
  - apply keeps_bind; [apply Hbody | intros _; exact IH].
Qed.

(** [I] speaks of the panel only, and the two transitions keep it. *)
Hypothesis I_core : forall w1 w2, panel_core w1 = panel_core w2 -> I w2 -> I w1.
Hypothesis I_transition : forall t, keeps I (transition t).

Lemma keeps_off_panel {A} (m : M A) : preserves panel_core m -> keeps I m.
Proof. intros Hm w Hw. exact (I_core _ _ (Hm w) Hw). Qed.

Lemma handleToggleClick_keeps : keeps I handleToggleClick.
Proof.
  unfold handleToggleClick. apply keeps_bind; [apply keeps_off_panel; frame|].
  intros w. destruct (negb _); [apply keeps_throw|].
  cbv zeta. destruct (panel_has_class _ _);
    [exact (I_transition ToClosed) | exact (I_transition ToOpen)].
Qed.

Lemma handleDocumentClick_keeps (inside : bool) : keeps I (handleDocumentClick inside).
Proof.
  unfold handleDocumentClick. apply keeps_bind; [apply keeps_off_panel; frame|].
  intros w. destruct (_ && _); [exact (I_transition ToClosed) | apply keeps_ret].
Qed.

Lemma handleKeydown_keeps (key : jsstr) : keeps I (handleKeydown key).
Proof.
  unfold handleKeydown. apply keeps_bind; [apply keeps_off_panel; frame|].
  intros w. apply keeps_bind; [|intros _; apply keeps_off_panel; frame].
  destruct (_ && _); [|apply keeps_ret].
  apply keeps_bind; [exact (I_transition ToClosed)|].
  intros _. apply keeps_off_panel. frame.
Qed.

Lemma dispatch_keeps (ev : Event) : keeps I (dispatch ev).
Proof.
  unfold dispatch.
  apply keeps_bind; [apply keeps_off_panel; apply default_action_off_panel|].
  intros _. apply keeps_bind; [apply keeps_off_panel; frame|].
  intros ls. apply keeps_forEach. intros l.
  destruct (listener_body _ l ev) as [body|] eqn:Hbody; [|apply keeps_ret].
  apply keeps_try_catch; [|intros _; apply keeps_off_panel; frame].
  destruct (listener_body_cases _ _ _ _ Hbody)
    as [-> | [ [inside ->] | [ [key ->] | Hoff] ] ].
  - exact handleToggleClick_keeps.
  - apply handleDocumentClick_keeps.
  - apply handleKeydown_keeps.
  - apply keeps_off_panel. exact Hoff.
Qed.
End Keeps.

(** *** The mirrors of the panel state *)

Lemma panel_view_core (w1 w2 : World) :
  panel_core w1 = panel_core w2 -> panel_view w1 = panel_view w2.
Proof.
  unfold panel_core, panel_view. intros H. injection H as Hm Hui _ _. by rewrite Hm, Hui.
Qed.

Ltac view_side :=
  unfold panel_view; wsimpl;
  repeat match goal with
    | |- context [fmap _ (panel ?u)] => destruct (panel u); wsimpl
    | |- context [fmap _ (toggle ?u)] => destruct (toggle u); wsimpl
    end;
  reflexivity.

Ltac view_step :=
  first
    [ apply preserves_ret
    | apply preserves_gets
    | apply preserves_modify; intros ?; view_side
    | apply preserves_bind; [|intros ?]
    | apply preserves_when
    | apply preserves_forEach; intros ?
    | match goal with
      | |- preserves _ (match ?x with _ => _ end) => destruct x
      end ].

(** The delivery of the records changes the [tabindex] of the controls
    only. *)
Lemma deliver_mutations_view : preserves panel_view deliver_mutations.
Proof.
  unfold deliver_mutations, observer_callback. autounfold with frame. repeat view_step.
Qed.

Lemma panel_invariant_view (w1 w2 : World) :
  panel_view w1 = panel_view w2 -> panel_invariant w2 -> panel_invariant w1.
Proof.
  unfold panel_view. intros Hview.
  injection Hview as Hmgr Hclasses Hhidden Htoggle.
  unfold panel_invariant, panel_bound, mirrors_agree, has_open_class, panel_has_class,
    aria_hidden_is_false, aria_expanded_is_true.
  rewrite Hmgr, Htoggle.
  destruct (panel (panel_ui w1)) as [p1|], (panel (panel_ui w2)) as [p2|];
    cbn [fmap option_fmap option_map] in Hclasses, Hhidden; try discriminate.
  - apply (inj Some) in Hclasses, Hhidden. rewrite Hclasses, Hhidden.
    intros ((? & ? & _ & ?) & ? & ?). repeat split; try assumption. by eexists.
  - intros ((_ & _ & [? [=] ] & _) & _).
Qed.

Lemma transition_mgr (t : Transition) : preserves mgr (transition t).
Proof. destruct t; cbn [transition]; unfold openPanel, closePanel, announceToScreenReader; frame. Qed.

(** Each transition establishes the invariant, from the binding alone. *)
Lemma transition_invariant (w : World) (t : Transition) :
  panel_bound w ->
  panel_invariant (state_of (transition t w))
  /\ has_open_class (state_of (transition t w)) = open_after t.
Proof.
  intros (Hp & Ht & [p Hpanel] & [tg Htoggle]).
  pose proof (transition_mgr t w) as Hmgr. cbv beta in Hmgr.
  assert (Hui : panel_ui (state_of (transition t w)) =
    mkPanelUI
      (Some (mkPanel
               (if open_after t then classList_add (js "open") (p_classes p)
                else classList_remove (js "open") (p_classes p))
               (Some (js_of_bool (negb (open_after t)))) (p_children p)))
      (Some (mkToggle (Some (js_of_bool (open_after t)))))).
  { destruct t; cbn [transition open_after negb js_of_bool];
      [exact (openPanel_panel_ui w p tg Hp Ht Hpanel Htoggle)
      |exact (closePanel_panel_ui w p tg Hp Ht Hpanel Htoggle)]. }
  unfold panel_invariant, panel_bound, mirrors_agree, has_open_class, panel_has_class,
    aria_hidden_is_false, aria_expanded_is_true.
  rewrite Hmgr, Hui. wsimpl. unfold classList_contains, classList_add, classList_remove.
  assert (Hopen : bool_decide (js "open" ∈
            (if open_after t then p_classes p ∪ {[js "open"]}
             else p_classes p ∖ {[js "open"]})) = open_after t).
  { destruct (open_after t);
      [apply bool_decide_eq_true | apply bool_decide_eq_false]; set_solver. }
  rewrite Hopen.
  split; [|reflexivity].
  split; [repeat split; [assumption.. | by eexists | by eexists]|].
  destruct (open_after t); split; reflexivity.
Qed.

(** Every turn of the event loop, for an event or for a timer, keeps the
    invariant of the panel: once the manager holds the panel and the toggle
    and the mirrors agree, they agree for good. *)
Theorem event_loop_keeps_panel_invariant (ev : Event) (k : nat) :
  keeps panel_invariant (handle_event ev) /\ keeps panel_invariant (fire_timer k).
Proof.
  assert (Hcore : forall w1 w2, panel_core w1 = panel_core w2 ->
                    panel_invariant w2 -> panel_invariant w1).
  { intros w1 w2 H. apply panel_invariant_view, panel_view_core, H. }
  assert (Hdeliver : keeps panel_invariant deliver_mutations).
  { intros w Hw. exact (panel_invariant_view _ _ (deliver_mutations_view w) Hw). }
  split.
  - unfold handle_event. apply keeps_bind; [|intros _; exact Hdeliver].
    apply dispatch_keeps; [exact Hcore|].
    intros t w [Hb _]. apply transition_invariant. exact Hb.
  - unfold fire_timer. apply keeps_bind; [apply (keeps_off_panel _ Hcore); frame|].
    intros l. destruct (timers l !! k) as [t|]; [|apply keeps_ret].
    apply keeps_bind; [apply (keeps_off_panel _ Hcore); frame|].
    intros _. apply keeps_bind; [|intros _; exact Hdeliver].
    apply keeps_try_catch; intros; apply (keeps_off_panel _ Hcore);
      [apply run_task_off_panel | frame].
Qed.

(** ** Tab order of the panel controls *)

Lemma retabbed_lookup (v : jsstr) (l : list nat) (cs : list PanelChild) (i : nat) :
  retabbed v l cs !! i =
    (fun c => if bool_decide (i ∈ l)
              then mkPanelChild (c_tag c) (c_classes c) (Some v) else c) <$> cs !! i.
Proof.
  unfold retabbed. revert cs. induction l as [|j l IH]; intros cs; cbn [foldl].
  - destruct (cs !! i); reflexivity.
  - rewrite IH. destruct (decide (i = j)) as [->|Hne].
    + rewrite list_lookup_alter_eq. destruct (cs !! j) as [c|]; [|reflexivity].
      cbn. rewrite (bool_decide_eq_true_2 (j ∈ j :: l)) by set_solver.
      by destruct (bool_decide (j ∈ l)).
    + rewrite list_lookup_alter_ne by done. destruct (cs !! i) as [c|]; [|reflexivity].
      cbn. f_equal. destruct (decide (i ∈ l)).
      * by rewrite !bool_decide_eq_true_2 by set_solver.
      * by rewrite !bool_decide_eq_false_2 by set_solver.
Qed.

Lemma elem_of_matching (sel : PanelChild -> bool) (cs : list PanelChild) (i : nat) :
  i ∈ matching sel cs <-> exists c, cs !! i = Some c /\ sel c = true.
Proof.
  unfold matching. rewrite list_elem_of_fmap. split.
  - intros [[j c] [-> Hin]]. apply list_elem_of_filter in Hin as [Hsel Hin].
    apply list_elem_of_lookup in Hin as [k Hk].
    rewrite list_lookup_imap in Hk. destruct (cs !! k) as [c'|] eqn:E; [|done].
    cbn in Hk. injection Hk as <- <-. eauto.
  - intros [c [Hc Hsel]]. exists (i, c). split; [reflexivity|].
    apply list_elem_of_filter. split; [exact Hsel|].
    apply list_elem_of_lookup. exists i. rewrite list_lookup_imap, Hc. reflexivity.
Qed.

Lemma retabbed_idemp (v : jsstr) (l : list nat) (cs : list PanelChild) :
  retabbed v l (retabbed v l cs) = retabbed v l cs.
Proof.
  apply list_eq. intros i. rewrite !retabbed_lookup.
  destruct (cs !! i) as [c|]; [|reflexivity]. cbn.
  by destruct (bool_decide (i ∈ l)).
Qed.

Lemma set_tabindex_all (v : jsstr) (l : list nat) (w : World) :
  exists w',
    forEach l (set_child_tabindex v) w = (Ok tt, w')
    /\ loop w' = loop w
    /\ toggle (panel_ui w') = toggle (panel_ui w)
    /\ panel (panel_ui w') =
         (fun p => mkPanel (p_classes p) (p_aria_hidden p) (retabbed v l (p_children p)))
           <$> panel (panel_ui w).
Proof.
  revert w. induction l as [|i l IH]; intros w.
  - exists w. repeat split; try reflexivity.
    destruct (panel (panel_ui w)) as [ [? ? ?] |]; reflexivity.
  - cbn [forEach]. unfold bind at 1, set_child_tabindex at 1, update_panel, modify.
    destruct (IH (on_panel_ui (fun u => with_panel
        ((fun p => mkPanel (p_classes p) (p_aria_hidden p)
           (alter (fun c => mkPanelChild (c_tag c) (c_classes c) (Some v)) i (p_children p)))
           <$> panel u) u) w)) as (w' & Hrun & Hloop & Htoggle & Hpanel).
    exists w'. split; [exact Hrun|]. split; [exact Hloop|]. split; [exact Htoggle|].
    rewrite Hpanel. wsimpl. destruct (panel (panel_ui w)); reflexivity.
Qed.

Lemma observer_callback_run (cap : list nat) (rs : list jsstr) (w : World) (p : Panel) :
  panel (panel_ui w) = Some p ->
  exists w',
    observer_callback cap rs w = (Ok tt, w')
    /\ loop w' = loop w
    /\ toggle (panel_ui w') = toggle (panel_ui w)
    /\ panel (panel_ui w') =
         Some (mkPanel (p_classes p) (p_aria_hidden p)
                 (if existsb is_aria_hidden_record rs
                  then retabbed (callback_tabindex p) cap (p_children p)
                  else p_children p)).
Proof.
  unfold observer_callback. revert w p.
  induction rs as [|r rs IH]; intros w p Hp.
  - exists w. repeat split; try reflexivity. rewrite Hp. by destruct p.
  - cbn [forEach existsb]. unfold bind at 1. unfold is_aria_hidden_record at 1.
    destruct (js_eqb r (js "aria-hidden")); cbn [when orb].
    + unfold bind at 1, gets at 1. rewrite Hp.
      fold (callback_tabindex p).
      destruct (set_tabindex_all (callback_tabindex p) cap w)
        as (w1 & Hrun & Hloop & Htoggle & Hpanel).
      rewrite Hrun. rewrite Hp in Hpanel. cbn in Hpanel.
      destruct (IH w1 _ Hpanel) as (w' & Hrun' & Hloop' & Htoggle' & Hpanel').
      exists w'. split; [exact Hrun'|]. split; [congruence|]. split; [congruence|].
      rewrite Hpanel'. cbn [p_classes p_aria_hidden p_children].
      unfold callback_tabindex at 1. cbn [p_aria_hidden]. fold (callback_tabindex p).
      rewrite retabbed_idemp. by destruct (existsb is_aria_hidden_record rs).
    + unfold ret at 1. apply IH. exact Hp.
Qed.

Lemma deliver_mutations_run (cap : list nat) (w : World) (p : Panel) :
  observers (loop w) = [cap] ->
  panel (panel_ui w) = Some p ->
  exists w',
    deliver_mutations w = (Ok tt, w')
    /\ toggle (panel_ui w') = toggle (panel_ui w)
    /\ panel (panel_ui w') =
         Some (mkPanel (p_classes p) (p_aria_hidden p)
                 (if existsb is_aria_hidden_record (mutations (loop w))
                  then retabbed (callback_tabindex p) cap (p_children p)
                  else p_children p))
    /\ observers (loop w') = [cap]
    /\ mutations (loop w') = [].
Proof.
  intros Hobs Hp. unfold deliver_mutations. unfold bind at 1, gets at 1.
  destruct (mutations (loop w)) as [|r rs] eqn:Hrs.
  - exists w. repeat split; try reflexivity; try assumption. rewrite Hp. by destruct p.
  - unfold bind at 1, modify at 1. rewrite Hobs. cbn [forEach].
    destruct (observer_callback_run cap (r :: rs) (on_loop (with_mutations []) w) p Hp)
      as (w' & Hrun & Hloop & Htoggle & Hpanel).
    unfold bind at 1. rewrite Hrun. exists w'. rewrite Hloop. wsimpl.
    repeat split; assumption.
Qed.

Lemma transition_run (w : World) (t : Transition) (p : Panel) (tg : Toggle) (o : list nat) :
  this_panel (mgr w) = true -> this_toggle (mgr w) = true ->
  panel (panel_ui w) = Some p -> toggle (panel_ui w) = Some tg ->
  observers (loop w) = [o] ->
  exists w',
    transition t w = (Ok tt, w')
    /\ observers (loop w') = [o]
    /\ mutations (loop w') = mutations (loop w) ++ [js "class"; js "aria-hidden"]
    /\ panel_ui w' =
         mkPanelUI
           (Some (mkPanel
                    (if open_after t then classList_add (js "open") (p_classes p)
                     else classList_remove (js "open") (p_classes p))
                    (Some (js_of_bool (negb (open_after t)))) (p_children p)))
           (Some (mkToggle (Some (js_of_bool (open_after t))))).
Proof.
  intros Hp Ht Hpanel Htoggle Hobs.
  destruct t; cbn [transition open_after negb js_of_bool];
    unfold openPanel, closePanel, panel_or_toggle_missing, panel_classList,
      toggle_set_aria_expanded, panel_set_aria_hidden, update_panel, queue_record,
      panel_querySelector, panel_querySelectorAll, announceToScreenReader, setTimeout;
    open_world w; run.
  - match goal with |- context [head ?l] => destruct (head l) end; run;
      eexists; (split; [reflexivity|]); wsimpl; rewrite <- app_assoc; repeat split.
  - eexists; (split; [reflexivity|]); wsimpl; rewrite <- app_assoc; repeat split.
Qed.

(** C6, as stated, does not hold.  Right after [openPanel] returns, the
    panel is open and its input still has [tabindex="-1"]: the observer
    has not run yet.  And once the records of a closing have been
    delivered, the text area of the closed panel has no [tabindex] at all:
    the selector of [setupPanelTabbing] leaves it out. *)
Lemma C6_tabindex_counterexample :
  (has_open_class (state_of (openPanel panel_page_ready)) = true
   /\ ~ tabindex_in_sync (state_of (openPanel panel_page_ready))
   /\ ~ interactive_in_sync (state_of (openPanel panel_page_ready)))
  /\ (has_open_class (state_of ((closePanel;; deliver_mutations) panel_page_ready)) = false
      /\ ~ interactive_in_sync (state_of ((closePanel;; deliver_mutations) panel_page_ready))).
Proof.
  assert (Hinput : exists p,
            panel (panel_ui (state_of (openPanel panel_page_ready))) = Some p
            /\ p_children p !! 0%nat = Some (mkPanelChild TagInput ∅ (Some (js "-1")))).
  { vm_compute. eexists. split; reflexivity. }
  assert (Harea : exists p,
            panel (panel_ui (state_of ((closePanel;; deliver_mutations) panel_page_ready)))
              = Some p
            /\ p_children p !! 2%nat = Some (mkPanelChild TagTextarea ∅ None)).
  { vm_compute. eexists. split; reflexivity. }
  destruct Hinput as (p1 & Hp1 & Hc1), Harea as (p2 & Hp2 & Hc2).
  split; (split; [vm_compute; reflexivity|]).
  - split; intros Hsync; pose proof (Hsync p1 0%nat _ Hp1 Hc1 eq_refl) as H;
      vm_compute in H; discriminate H.
  - intros Hsync. pose proof (Hsync p2 2%nat _ Hp2 Hc2 eq_refl) as H. discriminate H.
Qed.

(** C6, amended: each control of the panel that the selector of
    [setupPanelTabbing] picks has [tabindex] 0 when the panel is open and
    -1 when it is closed once the mutation records of the transition have
    been delivered to the observer, after a programmatic [openPanel] or
    [closePanel] as after a user-triggered one; the call itself leaves the
    [tabindex] attributes as they were. *)
Theorem C6_tabindex_in_sync_after_delivery (w : World) (t : Transition) :
  panel_bound w ->
  tabbing_observed w ->
  let w1 := state_of (transition t w) in
  let w2 := state_of ((transition t;; deliver_mutations) w) in
  (p_children <$> panel (panel_ui w1)) = (p_children <$> panel (panel_ui w))
  /\ has_open_class w2 = open_after t
  /\ tabindex_in_sync w2.
Proof.
  intros (Hp & Ht & _ & [tg Htoggle]) (p & Hpanel & Hobs) w1 w2.
  destruct (transition_run w t p tg _ Hp Ht Hpanel Htoggle Hobs)
    as (w' & Hrun & Hobs' & Hmut & Hui).
  assert (Hpanel' : panel (panel_ui w') = Some (mkPanel
            (if open_after t then classList_add (js "open") (p_classes p)
             else classList_remove (js "open") (p_classes p))
            (Some (js_of_bool (negb (open_after t)))) (p_children p)))
    by (rewrite Hui; reflexivity).
  destruct (deliver_mutations_run _ w' _ Hobs' Hpanel') as (w'' & Hrun' & _ & Hpanel'' & _).
  assert (Hw1 : w1 = w') by (subst w1; rewrite Hrun; reflexivity).
  assert (Hw2 : w2 = w'') by (subst w2; unfold bind; rewrite Hrun, Hrun'; reflexivity).
  rewrite Hmut, existsb_app in Hpanel''. cbn [p_classes p_aria_hidden p_children] in Hpanel''.
  replace (existsb is_aria_hidden_record [js "class"; js "aria-hidden"]) with true in Hpanel''
    by (vm_compute; reflexivity).
  rewrite orb_true_r in Hpanel''.
  assert (Hopen : has_open_class w2 = open_after t).
  { rewrite Hw2. unfold has_open_class, panel_has_class. rewrite Hpanel''. wsimpl.
    unfold classList_contains, classList_add, classList_remove.
    destruct (open_after t);
      [apply bool_decide_eq_true | apply bool_decide_eq_false]; set_solver. }
  split; [rewrite Hw1, Hpanel', Hpanel; reflexivity|].
  split; [exact Hopen|].
  intros p2 i c Hp2 Hc Hsel. unfold expected_tabindex. rewrite Hopen.
  rewrite Hw2, Hpanel'' in Hp2. injection Hp2 as <-. cbn [p_children] in Hc.
  rewrite retabbed_lookup in Hc.
  destruct (p_children p !! i) as [c0|] eqn:Hc0; [|discriminate Hc].
  cbn in Hc. injection Hc as <-.
  assert (Hin : i ∈ matching tabbing_selector (p_children p)).
  { apply elem_of_matching. exists c0. split; [exact Hc0|].
    destruct (bool_decide (i ∈ matching tabbing_selector (p_children p))); exact Hsel. }
  rewrite (bool_decide_eq_true_2 _ Hin). cbn [c_tabindex].
  unfold callback_tabindex. cbn [p_aria_hidden].
  destruct (open_after t); reflexivity.
Qed.

Lemma C6_tabindex_witness :
  tabindex_in_sync (state_of ((transition ToOpen;; deliver_mutations) panel_page_ready)).
Proof.
  apply (C6_tabindex_in_sync_after_delivery panel_page_ready ToOpen).
  - unfold panel_bound.
    split; [reflexivity|]. split; [reflexivity|].
    split; vm_compute; eexists; reflexivity.
  - unfold tabbing_observed. eexists. split; vm_compute; reflexivity.
Defined.

(** ** What the set-up of the panel establishes *)

Lemma length_retabbed (v : jsstr) (l : list nat) (cs : list PanelChild) :
  length (retabbed v l cs) = length cs.
Proof.
  unfold retabbed. revert cs. induction l as [|i l IH]; intros cs; cbn [foldl]; [done|].
  by rewrite IH, length_alter.
Qed.

Lemma matching_same_selection (sel : PanelChild -> bool) (cs cs' : list PanelChild) :
  Forall2 (fun c c' => sel c = sel c') cs cs' -> matching sel cs = matching sel cs'.
Proof.
  unfold matching. intros H.
  enough (Hk : forall k : nat -> nat,
             fst <$> filter (fun ic => sel (snd ic) = true) (imap (fun i c => (k i, c)) cs) =
             fst <$> filter (fun ic => sel (snd ic) = true) (imap (fun i c => (k i, c)) cs'))
    by exact (Hk id).
  induction H as [|c c' cs cs' Hc _ IH]; intros k; [reflexivity|].
  cbn [imap]. rewrite !filter_cons. cbn [snd]. rewrite <- Hc.
  specialize (IH (fun i => k (S i))). unfold compose.
  destruct (decide (sel c = true)); cbn [fmap list_fmap]; [f_equal|]; exact IH.
Qed.

Lemma matching_retabbed (v : jsstr) (l : list nat) (cs : list PanelChild) :
  matching tabbing_selector (retabbed v l cs) = matching tabbing_selector cs.
Proof.
  symmetry. apply matching_same_selection. apply Forall2_same_length_lookup_2.
  - by rewrite length_retabbed.
  - intros i c c' Hc Hc'. rewrite retabbed_lookup, Hc in Hc'.
    cbn [fmap option_fmap option_map] in Hc'. apply (inj Some) in Hc'. subst c'.
    by destruct (bool_decide (i ∈ l)).
Qed.

(** On a page with the panel and the toggle, [setupAccessibilityPanel]
    binds both, takes the selected controls out of the tab order and leaves
    one observer on the panel. *)
Lemma setupAccessibilityPanel_establishes (w : World) (p : Panel) (t : Toggle) :
  panel (panel_ui w) = Some p ->
  toggle (panel_ui w) = Some t ->
  observers (loop w) = [] ->
  let w' := state_of (setupAccessibilityPanel w) in
  panel_bound w'
  /\ tabbing_observed w'
  /\ panel (panel_ui w') =
       Some (mkPanel (p_classes p) (p_aria_hidden p)
               (retabbed (js "-1") (matching tabbing_selector (p_children p)) (p_children p))).
Proof.
  intros Hp Ht Hobs w'. subst w'.
  unfold setupAccessibilityPanel, panel_or_toggle_missing, setupPanelTabbing,
    panel_querySelectorAll, addEventListener.
  open_world w. run.
  rewrite !(bool_decide_eq_true_2 (is_Some (Some _))) by (by eexists). run.
  fold (matching tabbing_selector (p_children p)).
  match goal with
  | |- context [forEach ?l (set_child_tabindex ?v) ?w0] =>
      destruct (set_tabindex_all v l w0) as (w2 & Hrun & Hloop & Htoggle & Hpanel);
      pose proof (preserves_forEach mgr l (set_child_tabindex v)
                    ltac:(intros x; frame) w0) as Hmgr;
      rewrite Hrun in Hmgr |- *
  end.
  unfold state_of in Hmgr. wsimpl_all. run.
  assert (Hq : preserves (fun w => (mgr w, panel_ui w, observers (loop w)))
                 setupPreferenceControls)
    by (unfold setupPreferenceControls; frame).
  match goal with
  | |- context [setupPreferenceControls ?w3] => specialize (Hq w3)
  end.
  unfold state_of in Hq. wsimpl_all. injection Hq as Hq1 Hq2 Hq3.
  unfold panel_bound, tabbing_observed.
  rewrite Hq1, Hq2, Hq3, Hmgr, Hloop. wsimpl.
  destruct (panel_ui w2) as [pn2 tg2]. wsimpl_all. subst pn2 tg2. wsimpl.
  split; [repeat split; by eexists|]. split; [|reflexivity].
  eexists. split; [reflexivity|]. cbn [p_children app]. by rewrite matching_retabbed.
Qed.

(** ** Runs on concrete pages *)

(** The class completed with the helpers read from the spec follows the
    system theme on a first visit, where the class as written ends with
    the dark theme. *)
Example completed_class_follows_system_theme :
  root_data_theme (page (state_of (initializeComponents (Some spec_helpers) first_visit_light)))
    = Some (js "light")
  /\ isInitialized (mgr (state_of (initializeComponents (Some spec_helpers) first_visit_light)))
     = true.
Proof. vm_compute. split; reflexivity. Qed.

(** A string that is not a value of the preference gets a class of its
    own, which the later calls do not remove. *)
Example setTextSize_other_string :
  let w := setTextSize_calls [js "huge"; js "large"] blank_world in
  has_root_class (js "text-huge") w = true /\ has_root_class (js "text-large") w = true.
Proof. vm_compute. split; reflexivity. Qed.

(** A string with a space in it makes no class token: [classList.add]
    throws, and the call ends before the size is stored. *)
Example setTextSize_refused_token :
  result_of (setTextSize (js "extra large") blank_world)
    = Throw (DOMException (js "InvalidCharacterError"))
  /\ items (storage (state_of (setTextSize (js "extra large") blank_world))) !! js "textSize"
     = None.
Proof. vm_compute. split; reflexivity. Qed.

(** The submission of a valid form: the button goes into the loading
    state and the timer of the send is started; when it fires the fields
    are reset, a success banner is shown and the button is restored. *)
Example valid_submission_starts_send :
  let w := state_of (handle_event EvSubmit valid_form_page) in
  button_of w = Some (true, true, js "Sending...")
  /\ TaskSendDone (js "Send") ∈ pending_tasks w.
Proof.
  split; [vm_compute; reflexivity|].
  refine (bool_decide_eq_true_1 _ _). vm_compute. reflexivity.
Qed.

Example valid_submission_completes :
  let w := state_of (handle_event EvSubmit valid_form_page) in
  let w' := state_of (run_task (TaskSendDone (js "Send")) w) in
  button_of w' = Some (false, false, js "Send")
  /\ f_value <$> controls (form_ui w') = [ []; []; [] ]
  /\ bn_class <$> banners (form_ui w') = [js "success-message"].
Proof. vm_compute. repeat split; reflexivity. Qed.

(** The scenario of the spec with the values [Al], [bad] and [short]: the
    name passes its rule (two characters), the two other fields are marked
    invalid, and the focus goes to the e-mail field. *)
Example invalid_submission_scenario :
  let w := state_of (handle_event EvSubmit
             (state_of (setupFormValidation
                (contact_page (js "Al") (js "bad") (js "short"))))) in
  f_aria_invalid <$> controls (form_ui w)
    = [Some (js "false"); Some (js "true"); Some (js "true")]
  /\ activeElement (page w) = Some (RField 1)
  /\ button_of w = Some (true, false, js "Send").
Proof. vm_compute. repeat split; reflexivity. Qed.

(** ** The tab order at the end of each turn *)

Lemma retabbed_selected (v : jsstr) (cs : list PanelChild) (i : nat) (c : PanelChild) :
  retabbed v (matching tabbing_selector cs) cs !! i = Some c ->
  tabbing_selector c = true ->
  c_tabindex c = Some v.
Proof.
  intros Hc Hsel. rewrite retabbed_lookup in Hc.
  destruct (cs !! i) as [c0|] eqn:Hc0; [|discriminate Hc].
  cbn [fmap option_fmap option_map] in Hc. apply (inj Some) in Hc. subst c.
  assert (Hin : i ∈ matching tabbing_selector cs).
  { apply elem_of_matching. exists c0. split; [exact Hc0|].
    destruct (bool_decide (i ∈ matching tabbing_selector cs)); exact Hsel. }
  rewrite (bool_decide_eq_true_2 _ Hin). reflexivity.
Qed.

Lemma tabbing_pending_core (w1 w2 : World) :
  panel_core w1 = panel_core w2 -> tabbing_pending w2 -> tabbing_pending w1.
Proof.
  unfold panel_core. intros H. injection H as Hm Hui Ho Hmu.
  unfold tabbing_pending, tabbing_observed, panel_state, tabindex_in_sync,
    expected_tabindex, has_open_class, panel_has_class.
  rewrite Hm, Hui, Ho, Hmu. trivial.
Qed.

Lemma tabbing_settled_pending (w : World) : tabbing_settled w -> tabbing_pending w.
Proof. intros (? & ? & ? & ? & _ & ?). unfold tabbing_pending. auto 10. Qed.

(** A transition leaves a record of [aria-hidden] for the observer. *)
Lemma transition_pending (t : Transition) : keeps tabbing_pending (transition t).
Proof.
  intros w (Hp & Ht & (p & Hpanel & Hobs) & (b & p' & Hpanel' & _ & _ & Htoggle) & _).
  rewrite Hpanel in Hpanel'. apply (inj Some) in Hpanel'. subst p'.
  destruct (transition_run w t p _ _ Hp Ht Hpanel Htoggle Hobs)
    as (w' & Hrun & Hobs' & Hmut & Hui).
  pose proof (transition_mgr t w) as Hmgr. cbv beta in Hmgr.
  rewrite Hrun in Hmgr |- *. unfold state_of in *. cbn [snd] in *.
  unfold tabbing_pending, tabbing_observed, panel_state.
  rewrite Hmgr, Hui, Hobs', Hmut. wsimpl.
  split; [exact Hp|]. split; [exact Ht|].
  split; [eexists; split; reflexivity|].
  split.
  - exists (open_after t). eexists. split; [reflexivity|]. wsimpl.
    split; [|split; reflexivity].
    unfold classList_contains, classList_add, classList_remove.
    destruct (open_after t);
      [apply bool_decide_eq_true | apply bool_decide_eq_false]; set_solver.
  - right. rewrite existsb_app. apply orb_true_iff. right. vm_compute. reflexivity.
Qed.

(** The delivery of the records settles the tab order. *)
Lemma deliver_mutations_settles (w : World) :
  tabbing_pending w ->
  exists w', deliver_mutations w = (Ok tt, w') /\ tabbing_settled w'.
Proof.
  intros (Hp & Ht & (p & Hpanel & Hobs) & (b & p' & Hpanel' & Hb & Hh & Htoggle) & Hsync).
  rewrite Hpanel in Hpanel'. apply (inj Some) in Hpanel'. subst p'.
  destruct (deliver_mutations_run _ w p Hobs Hpanel)
    as (w' & Hrun & Htoggle' & Hpanel' & Hobs' & Hmut').
  assert (Hmgr : mgr w' = mgr w).
  { assert (Hf : preserves mgr deliver_mutations)
      by (unfold deliver_mutations, observer_callback; frame).
    specialize (Hf w). rewrite Hrun in Hf. exact Hf. }
  exists w'. split; [exact Hrun|].
  unfold tabbing_settled, tabbing_observed, panel_state.
  rewrite Hmgr, Hpanel', Htoggle', Hobs', Hmut', Htoggle. wsimpl.
  split; [exact Hp|]. split; [exact Ht|].
  split.
  { eexists. split; [reflexivity|]. cbn [p_children].
    destruct (existsb _ _); [by rewrite matching_retabbed | reflexivity]. }
  split; [exists b; eexists; repeat split; assumption|].
  split; [reflexivity|].
  intros p2 i c Hp2 Hc Hsel. rewrite Hpanel' in Hp2. apply (inj Some) in Hp2. subst p2.
  cbn [p_children] in Hc.
  assert (Hexp : expected_tabindex w' = callback_tabindex p).
  { unfold expected_tabindex, has_open_class, panel_has_class, callback_tabindex.
    rewrite Hpanel'. cbn [p_classes]. rewrite Hb, Hh. by destruct b. }
  destruct (existsb is_aria_hidden_record (mutations (loop w))) eqn:Hrec.
  - rewrite Hexp. exact (retabbed_selected _ _ _ _ Hc Hsel).
  - destruct Hsync as [Hsync|Hsync]; [|discriminate Hsync].
    rewrite (Hsync p i c Hpanel Hc Hsel). f_equal.
    unfold expected_tabindex, has_open_class, panel_has_class.
    by rewrite Hpanel, Hpanel'.
Qed.

Lemma returns_try_catch {A} (body : M A) (handler : Exn -> M A) :
  (forall e, returns (handler e)) -> returns (try_catch body handler).
Proof.
  intros Hh w. unfold try_catch. destruct (body w) as [[a|e] w'] eqn:E.
  - by exists a.
  - apply Hh.
Qed.

Lemma dispatch_returns (ev : Event) : returns (dispatch ev).
Proof.
  unfold dispatch. apply returns_bind; [destruct ev; cbn [default_action]; total|].
  intros _. apply returns_bind; [total|]. intros ls. apply returns_forEach. intros l.
  destruct (listener_body _ l ev); [|total].
  apply returns_try_catch. intros _. total.
Qed.

(** Between two tasks the selected controls of the panel are in step with
    its state, whatever the event or the timer of the task was. *)
Theorem event_loop_keeps_tab_order (ev : Event) (k : nat) :
  keeps tabbing_settled (handle_event ev) /\ keeps tabbing_settled (fire_timer k).
Proof.
  split; intros w Hw; apply tabbing_settled_pending in Hw as Hpending.
  - pose proof (dispatch_keeps tabbing_pending tabbing_pending_core transition_pending
                  ev w Hpending) as Hd.
    destruct (dispatch_returns ev w) as [ [] Hr].
    unfold handle_event, bind, state_of, result_of in *.
    destruct (dispatch ev w) as [r w1]. cbn [fst snd] in *. subst r.
    destruct (deliver_mutations_settles w1 Hd) as (w2 & -> & Hs). exact Hs.
  - unfold fire_timer. unfold bind at 1, gets at 1.
    destruct (timers (loop w) !! k) as [t|]; [|exact Hw].
    unfold bind at 1, modify at 1.
    set (w0 := on_loop (with_timers (delete k (timers (loop w)))) w).
    assert (H0 : tabbing_pending w0) by (apply (tabbing_pending_core w0 w); done).
    assert (Hlog : preserves panel_core (console_put ErrorLevel (js "Uncaught")))
      by frame.
    assert (Hlog' : returns (console_put ErrorLevel (js "Uncaught"))) by total.
    pose proof (keeps_try_catch tabbing_pending (run_task (tm_task t))
                  (fun _ => console_put ErrorLevel (js "Uncaught"))
                  (keeps_off_panel _ tabbing_pending_core _ (run_task_off_panel _))
                  (fun _ => keeps_off_panel _ tabbing_pending_core _ Hlog) w0 H0) as H1.
    destruct (returns_try_catch (run_task (tm_task t))
                (fun _ => console_put ErrorLevel (js "Uncaught"))
                (fun _ => Hlog') w0) as [ [] Hr].
    unfold bind, state_of, result_of in *.
    destruct (try_catch _ _ w0) as [r w1]. cbn [fst snd] in *. subst r.
    destruct (deliver_mutations_settles w1 H1) as (w2 & -> & Hs). exact Hs.
Qed.

(** On a page whose panel is closed, [setupAccessibilityPanel] leaves the
    tab order settled. *)
Lemma setupAccessibilityPanel_settles (w : World) :
  panel_state false w ->
  observers (loop w) = [] ->
  mutations (loop w) = [] ->
  tabbing_settled (state_of (setupAccessibilityPanel w)).
Proof.
  intros (p & Hpanel & Hb & Hh & Htoggle) Hobs Hmut.
  destruct (setupAccessibilityPanel_establishes w p _ Hpanel Htoggle Hobs)
    as ((Hp & Ht & _) & Hobserved & Hpanel').
  assert (Hf : preserves (fun w => (toggle (panel_ui w), mutations (loop w)))
                 setupAccessibilityPanel)
    by (unfold setupAccessibilityPanel, setupPanelTabbing, setupPreferenceControls; frame).
  specialize (Hf w). cbv beta in Hf. injection Hf as Htoggle' Hmut'.
  unfold tabbing_settled, panel_state.
  split; [exact Hp|]. split; [exact Ht|]. split; [exact Hobserved|].
  rewrite Hpanel', Htoggle', Hmut', Htoggle, Hmut.
  split; [exists false; eexists; repeat split; assumption|].
  split; [reflexivity|].
  intros p2 i c Hp2 Hc Hsel. rewrite Hpanel' in Hp2. apply (inj Some) in Hp2. subst p2.
  cbn [p_children] in Hc.
  rewrite (retabbed_selected _ _ _ _ Hc Hsel).
  unfold expected_tabindex, has_open_class, panel_has_class.
  rewrite Hpanel'. cbn [p_classes]. by rewrite Hb.
Qed.

(** ** What [trim] leaves of a value *)

Lemma trimStart_split (s : jsstr) :
  exists a, s = a ++ trimStart s /\ blank a
            /\ forall c, head (trimStart s) = Some c -> is_js_whitespace c = false.
Proof.
  induction s as [|c s (a & Hs & Ha & Hhead)]; cbn [trimStart].
  - exists []. split; [reflexivity|]. split; [constructor | intros c [=] ].
  - destruct (is_js_whitespace c) eqn:Hc.
    + exists (c :: a). split; [cbn; congruence|]. split; [by constructor | exact Hhead].
    + exists []. split; [reflexivity|]. split; [constructor|].
      intros c' [= <-]. exact Hc.
Qed.

Lemma blank_rev (s : jsstr) : blank s -> blank (rev s).
Proof.
  unfold blank. intros H. rewrite rev_alt.
  change (rev_append s []) with (reverse s). by apply Forall_reverse.
Qed.

Lemma trimEnd_split (s : jsstr) :
  exists b, s = trimEnd s ++ b /\ blank b
            /\ forall c, last (trimEnd s) = Some c -> is_js_whitespace c = false.
Proof.
  unfold trimEnd. destruct (trimStart_split (rev s)) as (a & Hs & Ha & Hhead).
  exists (rev a). split.
  - rewrite <- rev_app_distr, <- Hs, rev_involutive. reflexivity.
  - split; [by apply blank_rev|]. intros c Hc. apply Hhead.
    rewrite rev_alt in Hc.
    change (rev_append (trimStart (rev s)) []) with (reverse (trimStart (rev s))) in Hc.
    rewrite last_reverse in Hc. exact Hc.
Qed.

(** [trim] cuts a prefix and a suffix of white space off the string, and
    what is left neither starts nor ends with white space. *)
Lemma trim_strips_white_space (s : jsstr) :
  exists a b,
    s = a ++ trim s ++ b
    /\ blank a /\ blank b
    /\ (forall c, head (trim s) = Some c -> is_js_whitespace c = false)
    /\ (forall c, last (trim s) = Some c -> is_js_whitespace c = false).
Proof.
  unfold trim.
  destruct (trimStart_split s) as (a & Hs & Ha & Hhead).
  destruct (trimEnd_split (trimStart s)) as (b & Ht & Hb & Hlast).
  exists a, b. split; [rewrite <- Ht; exact Hs|]. split; [exact Ha|]. split; [exact Hb|].
  split; [|exact Hlast].
  intros c Hc. apply Hhead. rewrite Ht.
  destruct (trimEnd (trimStart s)) as [|c' t]; [discriminate Hc|].
  cbn in Hc |- *. exact Hc.
Qed.

(** ** The e-mail check of [validateField] *)

(** X1: [validateField] on a control named [email] returns true exactly
    when the trimmed value has the shape local@domain.tld. *)
Theorem validateField_email_accepts_addresses (w : World) (i : nat) (field : Field) :
  controls (form_ui w) !! i = Some field ->
  f_name field = js "email" ->
  result_of (validateField i w) = Ok true <-> address_shape (trim (f_value field)).
Proof.
  intros Hi Hname. rewrite (validateField_run i field w Hi). cbn [result_of fst].
  rewrite Hname. rewrite <- email_pattern_shape.
  unfold field_switch. js_literals.
  destruct (trim (f_value field)) as [|c s] eqn:Htrim; cbn [js_falsy].
  - cbn. split; intros [=].
  - destruct (regex_test email_pattern (c :: s)); cbn [negb fst]; split; congruence.
Qed.

Lemma validateField_email_accepts_addresses_witness :
  address_shape (trim (js "  user@example.com ")).
Proof.
  apply (proj1 (validateField_email_accepts_addresses
                  (contact_page (js "Al") (js "  user@example.com ") (js "short")) 1%nat
                  (text_field (js "email") (js "  user@example.com ")) eq_refl eq_refl)).
  vm_compute. reflexivity.
Defined.

(** ** Values of white space only *)

Lemma trimStart_blank (s : jsstr) : blank s -> trimStart s = [].
Proof.
  unfold blank. induction 1 as [|c s Hc _ IH]; cbn [trimStart]; [reflexivity|].
  rewrite Hc. exact IH.
Qed.

Lemma trim_blank (s : jsstr) : blank s -> trim s = [].
Proof. intros Hs. unfold trim, trimEnd. rewrite (trimStart_blank s Hs). reflexivity. Qed.

Lemma field_switch_empty (fieldName : jsstr) :
  fieldName ∈ requiredFields ->
  field_switch fieldName [] = (false, required_message fieldName).
Proof.
  unfold requiredFields. rewrite !elem_of_cons, elem_of_nil.
  intros [-> | [-> | [-> | [] ] ] ]; vm_compute; reflexivity.
Qed.

(** X2: a required field whose value holds white space only is treated as
    empty: [validateField] returns false, sets [aria-invalid] to ["true"] and
    shows the message that the field is required in its error container. *)
Theorem validateField_blank_value_is_required (w : World) (i : nat) (field : Field) :
  controls (form_ui w) !! i = Some field ->
  f_name field ∈ requiredFields ->
  blank (f_value field) ->
  let w' := state_of (validateField i w) in
  result_of (validateField i w) = Ok false
  /\ (f_aria_invalid <$> controls (form_ui w') !! i) = Some (Some (js "true"))
  /\ error_els (form_ui w') !! (f_name field ++ js "Error") =
       (fun e => mkErrorEl (required_message (f_name field))
                           (classList_add (js "visible") (e_classes e)))
         <$> error_els (form_ui w) !! (f_name field ++ js "Error").
Proof.
  intros Hi Hname Hblank. cbv zeta.
  rewrite (validateField_run i field w Hi). cbn [result_of state_of fst snd].
  destruct (after_validateField_form i field w Hi) as (Hcs & Hes & _).
  cbv zeta in Hcs, Hes. rewrite Hcs, Hes.
  rewrite (trim_blank _ Hblank), (field_switch_empty _ Hname). cbn [fst snd].
  assert (Hmsg : js_falsy (required_message (f_name field)) = false).
  { revert Hname. unfold requiredFields. rewrite !elem_of_cons, elem_of_nil.
    intros [-> | [-> | [-> | [] ] ] ]; vm_compute; reflexivity. }
  rewrite Hmsg. cbn [negb js_of_bool classList_toggle].
  split; [reflexivity|]. split.
  - rewrite list_lookup_alter. case_decide; [|done]. rewrite Hi. reflexivity.
  - rewrite lookup_alter. case_decide; [|done]. reflexivity.
Qed.

Lemma validateField_blank_value_is_required_witness :
  result_of (validateField 0 (contact_page (js "   ") (js "a@b.c") (js "short"))) = Ok false.
Proof.
  apply (validateField_blank_value_is_required
           (contact_page (js "   ") (js "a@b.c") (js "short")) 0%nat
           (text_field (js "name") (js "   ")) eq_refl).
  - refine (bool_decide_eq_true_1 _ _). vm_compute. reflexivity.
  - unfold blank. repeat constructor.
Defined.

(** ** The gate and the validation of a submission *)

Lemma forallb_ext_elem_of {A} (f g : A -> bool) (l : list A) :
  (forall x, x ∈ l -> f x = g x) -> forallb f l = forallb g l.
Proof.
  induction l as [|x l IH]; intros H; cbn [forallb]; [reflexivity|].
  rewrite (H x) by left. rewrite IH; [reflexivity|].
  intros y Hy. apply H. by right.
Qed.

(** X3: when every required field of the page carries its id as its name,
    the gate recompute enables the submit button exactly when the validation
    pass of a submission would accept the form. *)
Theorem submit_gate_agrees_with_validation (w : World) (btn : Button) :
  submitBtn (form_ui w) = Some btn ->
  (forall id i f, id ∈ requiredFields ->
     getElementById id (controls (form_ui w)) = Some (i, f) -> f_name f = id) ->
  exists isFormValid : bool,
    result_of (validate_all requiredFields true w) = Ok isFormValid
    /\ b_disabled <$> submitBtn (form_ui (state_of (updateSubmitButtonState w))) =
         Some (negb isFormValid).
Proof.
  intros Hbtn Hnames.
  destruct (validate_all_run requiredFields true w) as (w' & Hrun & _).
  eexists. split; [rewrite Hrun; reflexivity|].
  rewrite (updateSubmitButtonState_disabled w btn Hbtn), submit_gate_spec.
  cbn [andb]. do 2 f_equal. apply forallb_ext_elem_of. intros id Hid.
  unfold present_field_ok, field_passes.
  destruct (getElementById id (controls (form_ui w))) as [ [i f]|] eqn:Hget; [|reflexivity].
  rewrite (Hnames id i f Hid Hget).
  symmetry. apply (field_switch_rule id _ Hid).
Qed.

Lemma submit_gate_agrees_with_validation_witness :
  exists isFormValid : bool,
    result_of (validate_all requiredFields true
                 (contact_page (js "Al") (js "bad") (js "A long enough message"))) =
      Ok isFormValid
    /\ b_disabled <$> submitBtn (form_ui (state_of (updateSubmitButtonState
         (contact_page (js "Al") (js "bad") (js "A long enough message"))))) =
         Some (negb isFormValid).
Proof.
  apply (submit_gate_agrees_with_validation
           (contact_page (js "Al") (js "bad") (js "A long enough message"))
           (mkButton false ∅ (js "Send") None) eq_refl).
  intros id i f. unfold requiredFields. rewrite !elem_of_cons, elem_of_nil.
  intros [-> | [-> | [-> | [] ] ] ]; vm_compute; intros [= <- <-]; reflexivity.
Defined.

(** ** Validating twice *)

Lemma after_validateField_form_ui (i : nat) (field : Field) (w : World) :
  controls (form_ui w) !! i = Some field ->
  let message := snd (field_switch (f_name field) (trim (f_value field))) in
  form_ui (after_validateField i field w) =
    mkFormUI (contactForm (form_ui w))
      (alter (fun f => mkField (f_id f) (f_name f) (f_value f) (f_default f)
                         (Some (js_of_bool (negb (js_falsy message)))) (f_in_form f))
             i (controls (form_ui w)))
      (alter (fun e => mkErrorEl message
                         (classList_toggle (js "visible") (negb (js_falsy message))
                                           (e_classes e)))
             (f_name field ++ js "Error") (error_els (form_ui w)))
      (submitBtn (form_ui w)) (submitReady (form_ui w)) (banners (form_ui w)).
Proof.
  intros Hi. cbv zeta. unfold after_validateField, displayFieldError, the_field,
    update_error_el, set_aria_invalid, setTimeout.
  open_world w. run. rewrite Hi. run. reflexivity.
Qed.


(** ** White space around a value *)

Lemma trimStart_app_blank (a s : jsstr) : blank a -> trimStart (a ++ s) = trimStart s.
Proof.
  unfold blank. induction 1 as [|c a Hc _ IH]; [reflexivity|].
  cbn [app trimStart]. rewrite Hc. exact IH.
Qed.

Lemma trimStart_app (s b : jsstr) :
  trimStart (s ++ b) =
    match trimStart s with
    | [] => trimStart b
    | t => t ++ b
    end.
Proof.
  induction s as [|c s IH]; cbn [app trimStart].
  - reflexivity.
  - destruct (is_js_whitespace c); [exact IH | reflexivity].
Qed.

Lemma trimEnd_app_blank (s b : jsstr) : blank b -> trimEnd (s ++ b) = trimEnd s.
Proof.
  intros Hb. unfold trimEnd. rewrite rev_app_distr.
  rewrite trimStart_app_blank by (by apply blank_rev). reflexivity.
Qed.

Lemma trim_padded (a v b : jsstr) : blank a -> blank b -> trim (a ++ v ++ b) = trim v.
Proof.
  intros Ha Hb. unfold trim. rewrite (trimStart_app_blank a _ Ha), trimStart_app.
  destruct (trimStart v) as [|c t] eqn:Hv.
  - rewrite (trimStart_blank b Hb). reflexivity.
  - apply trimEnd_app_blank. exact Hb.
Qed.

Lemma getElementById_same_trimmed (id : jsstr) (cs cs' : list Field) :
  Forall2 same_trimmed cs cs' ->
  match getElementById id cs with
  | Some (i, f) => exists f', getElementById id cs' = Some (i, f') /\ same_trimmed f f'
  | None => getElementById id cs' = None
  end.
Proof.
  intros H. unfold getElementById. induction H as [|f f' cs cs' Hf _ IH].
  - reflexivity.
  - cbn [list_find]. pose proof Hf as (Hid & _).
    destruct (decide (f_id f = id)) as [E|E];
      destruct (decide (f_id f' = id)) as [E'|E']; try congruence.
    + exists f'. split; [reflexivity | exact Hf].
    + destruct (list_find (fun f0 => f_id f0 = id) cs) as [[i f0]|].
      * destruct IH as (f0' & -> & HR). exists f0'. split; [reflexivity | exact HR].
      * rewrite IH. reflexivity.
Qed.

Lemma submit_gate_same_trimmed (cs cs' : list Field) :
  Forall2 same_trimmed cs cs' -> submit_gate cs' = submit_gate cs.
Proof.
  intros H. unfold submit_gate.
  assert (Hstep : forall acc id, gate_step cs' acc id = gate_step cs acc id).
  { intros acc id. unfold gate_step.
    pose proof (getElementById_same_trimmed id cs cs' H) as Hget.
    destruct (getElementById id cs) as [ [i f]|].
    - destruct Hget as (f' & -> & (_ & _ & Htrim)). cbv zeta. rewrite Htrim. reflexivity.
    - rewrite Hget. reflexivity. }
  generalize true. induction requiredFields as [|id ids IH]; intros acc; [reflexivity|].
  cbn [fold_left]. rewrite Hstep. apply IH.
Qed.

(** X5: white space before and after the value of a control changes
    nothing for the validators: [validateField] gives the same answer and the
    same error message, and the gate over the fields is the same. *)
Theorem validators_ignore_outer_white_space (w : World) (i : nat) (a b : jsstr) :
  blank a ->
  blank b ->
  result_of (validateField i (padded i a b w)) = result_of (validateField i w)
  /\ error_els (form_ui (state_of (validateField i (padded i a b w)))) =
       error_els (form_ui (state_of (validateField i w)))
  /\ submit_gate (controls (form_ui (padded i a b w))) = submit_gate (controls (form_ui w)).
Proof.
  intros Ha Hb.
  assert (Hgate : submit_gate (controls (form_ui (padded i a b w))) =
                  submit_gate (controls (form_ui w))).
  { apply submit_gate_same_trimmed. unfold padded. wsimpl.
    apply Forall2_same_length_lookup_2; [by rewrite length_alter|].
    intros j f f' Hf Hf'. destruct (decide (i = j)) as [->|Hne].
    - rewrite list_lookup_alter_eq, Hf in Hf'. apply (inj Some) in Hf'. subst f'.
      unfold same_trimmed. cbn. split; [reflexivity|]. split; [reflexivity|].
      by apply trim_padded.
    - rewrite list_lookup_alter_ne, Hf in Hf' by done. apply (inj Some) in Hf'. subst f'.
      unfold same_trimmed. auto. }
  destruct (controls (form_ui w) !! i) as [field|] eqn:Hi.
  - set (field' := mkField (f_id field) (f_name field) (a ++ f_value field ++ b)
                     (f_default field) (f_aria_invalid field) (f_in_form field)).
    assert (Hi' : controls (form_ui (padded i a b w)) !! i = Some field').
    { unfold padded. wsimpl. rewrite list_lookup_alter_eq, Hi. reflexivity. }
    rewrite (validateField_run i field w Hi), (validateField_run i field' _ Hi').
    cbn [result_of state_of fst snd].
    rewrite (after_validateField_form_ui i field w Hi),
      (after_validateField_form_ui i field' _ Hi').
    cbv zeta. cbn [error_els field' f_name f_value].
    rewrite (trim_padded a (f_value field) b Ha Hb).
    split; [reflexivity|]. split; [reflexivity | exact Hgate].
  - assert (Hi' : controls (form_ui (padded i a b w)) !! i = None).
    { unfold padded. wsimpl. rewrite list_lookup_alter_eq, Hi. reflexivity. }
    assert (Hthrow : forall w0, controls (form_ui w0) !! i = None ->
              validateField i w0 = (Throw (TypeError (js "field is undefined")), w0)).
    { intros w0 H0. unfold validateField, the_field. run. rewrite H0. reflexivity. }
    rewrite (Hthrow w Hi), (Hthrow _ Hi'). cbn [result_of state_of fst snd].
    split; [reflexivity|]. split; [reflexivity | exact Hgate].
Qed.

Lemma validators_ignore_outer_white_space_witness :
  result_of (validateField 1
    (padded 1 (js "  ") (js " ") (contact_page (js "Al") (js "user@example.com") (js "short"))))
  = result_of (validateField 1 (contact_page (js "Al") (js "user@example.com") (js "short"))).
Proof.
  apply (validators_ignore_outer_white_space
           (contact_page (js "Al") (js "user@example.com") (js "short")) 1%nat
           (js "  ") (js " ")); unfold blank; repeat constructor.
Defined.

(** ** A submission that passes validation *)

Lemma validate_all_timers (ids : list jsstr) (acc : bool) (w : World) :
  exists ts,
    timers (loop (state_of (validate_all ids acc w))) = timers (loop w) ++ ts
    /\ Forall (fun t => t = mkTimer 0 TaskUpdateSubmit) ts.
Proof.
  revert acc w. induction ids as [|id ids IH]; intros acc w.
  - exists []. cbn [validate_all]. unfold ret, state_of. cbn [snd].
    rewrite app_nil_r. split; [reflexivity | constructor].
  - cbn [validate_all]. unfold bind at 1, gets at 1.
    destruct (getElementById id (controls (form_ui w))) as [[i f]|] eqn:Hget.
    + assert (Hi : controls (form_ui w) !! i = Some f)
        by (apply list_find_Some in Hget; tauto).
      unfold bind at 1. rewrite (validateField_run i f w Hi).
      destruct (after_validateField_form i f w Hi) as (_ & _ & _ & _ & Htimers).
      destruct (IH (if negb (fst (field_switch (f_name f) (trim (f_value f))))
                    then false else acc) (after_validateField i f w)) as (ts & Hts & Hall).
      exists (mkTimer 0 TaskUpdateSubmit :: ts). rewrite Hts, Htimers, <- app_assoc.
      split; [reflexivity | by constructor].
    + exact (IH acc w).
Qed.

(** X6: a submission whose required fields all pass puts the submit button
    in its loading state (disabled, class [loading], label ["Sending..."]),
    announces nothing yet, and starts exactly one timer for the send, which
    carries the label to restore; the only other timers it adds are deferred
    recomputes of the gate. *)
Theorem accepted_submission_starts_one_send (w : World) (btn : Button) :
  submitBtn (form_ui w) = Some btn ->
  forallb (field_passes (controls (form_ui w))) requiredFields = true ->
  let w' := state_of (validateAndSubmitForm w) in
  result_of (validateAndSubmitForm w) = Ok tt
  /\ submitBtn (form_ui w') =
       Some (mkButton true (classList_add (js "loading") (b_classes btn))
                      (js "Sending...") (b_describedby btn))
  /\ page w' = page w
  /\ exists ts,
       timers (loop w') =
         timers (loop w) ++ ts ++ [mkTimer 2000 (TaskSendDone (b_text btn))]
       /\ Forall (fun t => t = mkTimer 0 TaskUpdateSubmit) ts.
Proof.
  intros Hbtn Hall. cbv zeta.
  destruct (validate_all_run requiredFields true w) as (w1 & Hrun & Hpage & Hbtn1 & _).
  destruct (validate_all_timers requiredFields true w) as (ts & Hts & Hall_ts).
  rewrite Hrun in Hts. cbn [state_of snd] in Hts.
  rewrite Hall in Hrun. cbn [andb] in Hrun. rewrite Hbtn in Hbtn1.
  assert (Hw : exists w',
             validateAndSubmitForm w = (Ok tt, w')
             /\ submitBtn (form_ui w') =
                  Some (mkButton true (classList_add (js "loading") (b_classes btn))
                                 (js "Sending...") (b_describedby btn))
             /\ page w' = page w1
             /\ timers (loop w') =
                  timers (loop w1) ++ [mkTimer 2000 (TaskSendDone (b_text btn))]).
  { unfold validateAndSubmitForm. unfold bind at 1. rewrite Hrun. cbn [negb].
    unfold update_submitBtn, setTimeout. run. rewrite Hbtn1. run.
    eexists. split; [reflexivity|]. wsimpl. rewrite Hbtn1.
    split; [reflexivity|]. split; reflexivity. }
  destruct Hw as (w' & Hw & Hb' & Hp' & Ht'). rewrite Hw. cbn [result_of state_of fst snd].
  split; [reflexivity|]. split; [exact Hb'|]. split; [congruence|].
  exists ts. rewrite Ht', Hts, <- app_assoc. split; [reflexivity | exact Hall_ts].
Qed.

Lemma accepted_submission_starts_one_send_witness :
  result_of (validateAndSubmitForm valid_form_page) = Ok tt.
Proof.
  apply (accepted_submission_starts_one_send valid_form_page
           (mkButton false ∅ (js "Send") (Some (js "submitReady")))).
  - vm_compute. reflexivity.
  - vm_compute. reflexivity.
Defined.

(** ** The end of a send *)

Lemma error_state_cleared_refl (f : Field) : error_state_cleared f f.
Proof. unfold error_state_cleared. tauto. Qed.

Lemma error_state_cleared_trans (f1 f2 f3 : Field) :
  error_state_cleared f1 f2 -> error_state_cleared f2 f3 -> error_state_cleared f1 f3.
Proof.
  intros (? & ? & ? & ? & ? & Ha) (? & ? & ? & ? & ? & Hb).
  unfold error_state_cleared. repeat split; try congruence.
  destruct Ha as [Ha|Ha], Hb as [Hb|Hb]; (left; congruence) || (right; congruence).
Qed.

Lemma Forall2_error_state_cleared_refl (cs : list Field) :
  Forall2 error_state_cleared cs cs.
Proof. induction cs; constructor; [apply error_state_cleared_refl | assumption]. Qed.

Lemma Forall2_error_state_cleared_trans (cs1 cs2 cs3 : list Field) :
  Forall2 error_state_cleared cs1 cs2 -> Forall2 error_state_cleared cs2 cs3 ->
  Forall2 error_state_cleared cs1 cs3.
Proof.
  intros H12. revert cs3. induction H12 as [|f1 f2 cs1 cs2 Hf _ IH]; intros cs3 H23.
  - inversion H23. constructor.
  - inversion H23 as [|? f3 ? cs3' Hf' H23']; subst. constructor.
    + exact (error_state_cleared_trans _ _ _ Hf Hf').
    + apply IH. exact H23'.
Qed.

Lemma getElementById_error_state_cleared (id : jsstr) (cs cs' : list Field) :
  Forall2 error_state_cleared cs cs' ->
  match getElementById id cs with
  | Some (i, f) => exists f', getElementById id cs' = Some (i, f') /\ error_state_cleared f f'
  | None => getElementById id cs' = None
  end.
Proof.
  intros H. unfold getElementById. induction H as [|f f' cs cs' Hf _ IH].
  - reflexivity.
  - cbn [list_find]. pose proof Hf as (Hid & _).
    destruct (decide (f_id f = id)) as [E|E];
      destruct (decide (f_id f' = id)) as [E'|E']; try congruence.
    + exists f'. split; [reflexivity | exact Hf].
    + destruct (list_find (fun f0 => f_id f0 = id) cs) as [[i f0]|].
      * destruct IH as (f0' & -> & HR). exists f0'. split; [reflexivity | exact HR].
      * rewrite IH. reflexivity.
Qed.

Lemma alter_error_state_cleared (cs : list Field) (i : nat) (g : Field -> Field) :
  (forall f, cs !! i = Some f -> error_state_cleared f (g f)) ->
  Forall2 error_state_cleared cs (alter g i cs).
Proof.
  intros Hg. apply Forall2_same_length_lookup_2.
  - by rewrite length_alter.
  - intros j f f' Hf Hf'. destruct (decide (i = j)) as [->|Hne].
    + rewrite list_lookup_alter_eq, Hf in Hf'. apply (inj Some) in Hf'. subst f'.
      apply Hg. exact Hf.
    + rewrite list_lookup_alter_ne, Hf in Hf' by done. apply (inj Some) in Hf'. subst f'.
      apply error_state_cleared_refl.
Qed.

(** The loop of [validateAndSubmitForm] that clears the error states. *)
Lemma clear_all_run (ids : list jsstr) (w : World) :
  exists w',
    forEach ids (fun fieldName =>
      let* x := gets form_ui in
      match getElementById fieldName (controls x) with
      | Some (i, _) => clearFieldError i
      | None => ret tt
      end) w = (Ok tt, w')
    /\ page w' = page w /\ loop w' = loop w /\ console w' = console w
    /\ submitBtn (form_ui w') = submitBtn (form_ui w)
    /\ banners (form_ui w') = banners (form_ui w)
    /\ Forall2 error_state_cleared (controls (form_ui w)) (controls (form_ui w'))
    /\ (forall key e', error_els (form_ui w') !! key = Some e' ->
          exists e, error_els (form_ui w) !! key = Some e /\ (e' = e \/ shows_nothing e'))
    /\ (forall id i f, id ∈ ids ->
          getElementById id (controls (form_ui w)) = Some (i, f) ->
          (f_aria_invalid <$> controls (form_ui w') !! i) = Some (Some (js "false"))
          /\ forall e, error_els (form_ui w') !! (f_name f ++ js "Error") = Some e ->
               shows_nothing e).
Proof.
  revert w. induction ids as [|id ids IH]; intros w.
  - exists w. cbn [forEach]. split; [reflexivity|].
    repeat (split; [reflexivity|]).
    split; [apply Forall2_error_state_cleared_refl|].
    split; [intros key e' He'; exists e'; auto|].
    intros id i f Hin. by apply elem_of_nil in Hin.
  - cbn [forEach]. unfold bind at 1. unfold bind at 1, gets at 1.
    destruct (getElementById id (controls (form_ui w))) as [[i f]|] eqn:Hget.
    + assert (Hi : controls (form_ui w) !! i = Some f)
        by (apply list_find_Some in Hget; tauto).
      destruct (clearFieldError_run i f w Hi) as (w1 & Hrun1 & Hcs1 & Hes1).
      assert (Hframe : page w1 = page w /\ loop w1 = loop w /\ console w1 = console w
                       /\ submitBtn (form_ui w1) = submitBtn (form_ui w)
                       /\ banners (form_ui w1) = banners (form_ui w)).
      { assert (Hp : preserves page (clearFieldError i)) by (unfold clearFieldError; frame).
        assert (Hl : preserves loop (clearFieldError i)) by (unfold clearFieldError; frame).
        assert (Hc : preserves console (clearFieldError i)) by (unfold clearFieldError; frame).
        assert (Hb : preserves (fun w => submitBtn (form_ui w)) (clearFieldError i))
          by (unfold clearFieldError; frame).
        assert (Hn : preserves (fun w => banners (form_ui w)) (clearFieldError i))
          by (unfold clearFieldError; frame).
        specialize (Hp w). specialize (Hl w). specialize (Hc w). specialize (Hb w).
        specialize (Hn w). rewrite Hrun1 in Hp, Hl, Hc, Hb, Hn.
        cbn [state_of snd] in Hp, Hl, Hc, Hb, Hn. tauto. }
      destruct Hframe as (Hp1 & Hl1 & Hc1 & Hb1 & Hn1).
      assert (HR1 : Forall2 error_state_cleared (controls (form_ui w)) (controls (form_ui w1))).
      { rewrite Hcs1. apply alter_error_state_cleared. intros f0 _.
        unfold error_state_cleared. cbn. tauto. }
      destruct (IH w1) as (w' & Hrun & Hp & Hl & Hc & Hb & Hn & HR & Hes & Hreq).
      exists w'. rewrite Hrun1. split; [exact Hrun|].
      split; [congruence|]. split; [congruence|]. split; [congruence|].
      split; [congruence|]. split; [congruence|].
      split; [exact (Forall2_error_state_cleared_trans _ _ _ HR1 HR)|].
      assert (Hes_w : forall key e', error_els (form_ui w') !! key = Some e' ->
                exists e, error_els (form_ui w) !! key = Some e
                          /\ (e' = e \/ shows_nothing e')
                          /\ (key = f_name f ++ js "Error" -> shows_nothing e')).
      { intros key e' He'. destruct (Hes key e' He') as (e1 & He1 & Hrel).
        rewrite Hes1 in He1. destruct (decide (f_name f ++ js "Error" = key)) as [<-|Hne].
        - rewrite lookup_alter_eq in He1.
          destruct (error_els (form_ui w) !! (f_name f ++ js "Error")) as [e|];
            [|discriminate He1].
          cbn in He1. apply (inj Some) in He1.
          assert (Hnothing : shows_nothing e').
          { destruct Hrel as [->|Hn']; [|exact Hn']. subst e1. split; [reflexivity|].
            cbn. unfold classList_remove. set_solver. }
          exists e. split; [reflexivity|]. split; [right; exact Hnothing|]. auto.
        - rewrite lookup_alter_ne in He1 by done.
          exists e1. split; [exact He1|]. split; [exact Hrel|]. congruence. }
      split.
      { intros key e' He'. destruct (Hes_w key e' He') as (e & He & Hrel & _). eauto. }
      intros id0 i0 f0 Hin Hget0. apply elem_of_cons in Hin as [->|Hin].
      * rewrite Hget in Hget0. injection Hget0 as <- <-. split.
        -- assert (Hi1 : controls (form_ui w1) !! i =
                           Some (mkField (f_id f) (f_name f) (f_value f) (f_default f)
                                         (Some (js "false")) (f_in_form f))).
           { rewrite Hcs1, list_lookup_alter_eq, Hi. reflexivity. }
           destruct (Forall2_lookup_l _ _ _ _ _ HR Hi1) as (f2 & Hf2 & HR2).
           rewrite Hf2. cbn. do 2 f_equal.
           destruct HR2 as (_ & _ & _ & _ & _ & [Ha|Ha]); exact Ha.
        -- intros e He. destruct (Hes_w _ e He) as (_ & _ & _ & Hnothing). auto.
      * pose proof (getElementById_error_state_cleared id0 _ _ HR1) as Hg.
        rewrite Hget0 in Hg. destruct Hg as (f0' & Hget0' & (_ & Hname & _)).
        destruct (Hreq id0 i0 f0' Hin Hget0') as (Haria & Herr).
        split; [exact Haria|]. rewrite <- Hname. exact Herr.
    + destruct (IH w) as (w' & Hrun & Hrest). exists w'. split; [exact Hrun|].
      destruct Hrest as (Hp & Hl & Hc & Hb & Hn & HR & Hes & Hreq).
      repeat (split; [assumption|]).
      intros id0 i0 f0 Hin Hget0. apply elem_of_cons in Hin as [->|Hin].
      * rewrite Hget in Hget0. discriminate Hget0.
      * exact (Hreq id0 i0 f0 Hin Hget0).
Qed.

Lemma getElementById_reset (fieldId : jsstr) (cs : list Field) :
  getElementById fieldId (reset_field <$> cs) =
    prod_map id reset_field <$> getElementById fieldId cs.
Proof.
  unfold getElementById. rewrite list_find_fmap. f_equal.
  apply list_find_ext. intros f. unfold compose, reset_field.
  destruct (f_in_form f); reflexivity.
Qed.

(** X7: when the timer of the simulated send fires, the rest of
    [validateAndSubmitForm] always completes by its success branch: it
    announces the success, resets the controls of the form to their default
    values, clears the error state of every required field, replaces the
    first banner of the form by a success banner, and, whatever the reset
    values are, leaves the submit button enabled, without the class
    [loading] and with the label it had; nothing is logged. *)
Theorem send_completion_restores_form (originalText : jsstr) (w : World) :
  let w' := state_of (validateAndSubmitForm_resume originalText w) in
  result_of (validateAndSubmitForm_resume originalText w) = Ok tt
  /\ submitBtn (form_ui w') =
       (fun b => mkButton false (classList_remove (js "loading") (b_classes b))
                          originalText (b_describedby b)) <$> submitBtn (form_ui w)
  /\ console w' = console w
  /\ live (page w') =
       live (page w) ++ [mkLiveNode (next_node (page w)) (js "Message sent successfully")]
  /\ banners (form_ui w') =
       tail (banners (form_ui w)) ++ [success_banner (S (next_node (page w)))]
  /\ Forall2 error_state_cleared (reset_field <$> controls (form_ui w)) (controls (form_ui w'))
  /\ (forall id i f, id ∈ requiredFields ->
        getElementById id (controls (form_ui w)) = Some (i, f) ->
        (f_aria_invalid <$> controls (form_ui w') !! i) = Some (Some (js "false"))
        /\ forall e, error_els (form_ui w') !! (f_name f ++ js "Error") = Some e ->
             shows_nothing e).
Proof.
  cbv zeta.
  set (w1 := on_loop (fun l => with_timers
                (timers l ++ [mkTimer 1000 (TaskRemoveLive (next_node (page w)))]) l)
       (on_page (fun p => with_next_node (S (next_node (page w)))
                   (with_live (live p ++ [mkLiveNode (next_node (page w))
                      (js "Message sent successfully")]) p)) w)).
  set (w2 := on_form_ui (fun x => with_controls (reset_field <$> controls x) x) w1).
  destruct (clear_all_run requiredFields w2)
    as (w3 & Hrun3 & Hp & Hl & Hc & Hb & Hn & HR & _ & Hreq).
  assert (Hw : exists w',
             validateAndSubmitForm_resume originalText w = (Ok tt, w')
             /\ submitBtn (form_ui w') =
                  (fun b => mkButton false (classList_remove (js "loading") (b_classes b))
                                     originalText (b_describedby b)) <$> submitBtn (form_ui w3)
             /\ console w' = console w3
             /\ live (page w') = live (page w3)
             /\ banners (form_ui w') =
                  tail (banners (form_ui w3)) ++ [success_banner (next_node (page w3))]
             /\ controls (form_ui w') = controls (form_ui w3)
             /\ error_els (form_ui w') = error_els (form_ui w3)).
  { unfold validateAndSubmitForm_resume, try_finally, try_catch.
    unfold bind at 1. rewrite announce_run. fold w1.
    unfold bind at 1. unfold form_reset at 1, modify at 1.
    change (on_form_ui _ w1) with w2.
    unfold bind at 1. rewrite Hrun3.
    unfold showSuccessMessage, remove_existing_message, new_banner, setTimeout,
      update_submitBtn. run.
    eexists. split; [reflexivity|]. wsimpl.
    split; [destruct (submitBtn (form_ui w3)); reflexivity|]. repeat split; reflexivity. }
  destruct Hw as (w' & Hw & Hb' & Hc' & Hl' & Hn' & Hcs' & Hes').
  rewrite Hw. cbn [result_of state_of fst snd].
  split; [reflexivity|].
  split; [rewrite Hb', Hb; reflexivity|].
  split; [rewrite Hc', Hc; reflexivity|].
  split; [rewrite Hl', Hp; reflexivity|].
  split; [rewrite Hn', Hn, Hp; reflexivity|].
  split; [rewrite Hcs'; exact HR|].
  intros id i f Hid Hget. rewrite Hcs', Hes'.
  assert (Hget2 : getElementById id (controls (form_ui w2)) = Some (i, reset_field f)).
  { change (controls (form_ui w2)) with (reset_field <$> controls (form_ui w)).
    rewrite getElementById_reset, Hget. reflexivity. }
  destruct (Hreq id i (reset_field f) Hid Hget2) as (Haria & Herr).
  split; [exact Haria|].
  replace (f_name f) with (f_name (reset_field f));
    [exact Herr | unfold reset_field; destruct (f_in_form f); reflexivity].
Qed.

(** ** Announcements *)

Lemma filter_all {A} (P : A -> Prop) `{forall x, Decision (P x)} (l : list A) :
  Forall P l -> filter P l = l.
Proof.
  induction 1 as [|x l Hx _ IH]; [reflexivity|].
  rewrite filter_cons_True by exact Hx. by rewrite IH.
Qed.

(** X8: an announcement is appended to the live region of the page with a
    timer of one second that removes it, and that timer removes this
    announcement only: the nodes announced before and after it stay. *)
Theorem announcement_removed_by_its_timer (message : jsstr) (w : World) :
  nodes_fresh w ->
  let w1 := state_of (announceToScreenReader message w) in
  let n := next_node (page w) in
  result_of (announceToScreenReader message w) = Ok tt
  /\ live (page w1) = live (page w) ++ [mkLiveNode n message]
  /\ timers (loop w1) = timers (loop w) ++ [mkTimer 1000 (TaskRemoveLive n)]
  /\ nodes_fresh w1
  /\ forall w2 later,
       live (page w2) = live (page w1) ++ later ->
       Forall (fun l => (n < ln_node l)%nat) later ->
       live (page (state_of (run_task (TaskRemoveLive n) w2))) = live (page w) ++ later.
Proof.
  intros Hfresh. cbv zeta. rewrite announce_run. cbn [result_of state_of fst snd]. wsimpl.
  split; [reflexivity|]. split; [reflexivity|]. split; [reflexivity|]. split.
  - unfold nodes_fresh in *. wsimpl. apply Forall_app. split.
    + eapply Forall_impl; [exact Hfresh|]. intros l Hl. cbn beta in *. lia.
    + constructor; [cbn; lia | constructor].
  - intros w2 later Hlive Hlater. cbn [run_task]. unfold modify, state_of. cbn [snd]. wsimpl.
    rewrite Hlive, !filter_app.
    rewrite (filter_all _ (live (page w))).
    2:{ eapply Forall_impl; [exact Hfresh|]. intros l Hl. cbn beta in *. lia. }
    rewrite (filter_all _ later).
    2:{ eapply Forall_impl; [exact Hlater|]. intros l Hl. cbn beta in *. lia. }
    rewrite filter_cons_False by (cbn; intros Hne; by apply Hne).
    rewrite filter_nil, app_nil_r. reflexivity.
Qed.

Lemma announcement_removed_by_its_timer_witness :
  live (page (state_of (announceToScreenReader (js "Saved") blank_world))) =
    live (page blank_world) ++ [mkLiveNode (next_node (page blank_world)) (js "Saved")].
Proof.
  apply (announcement_removed_by_its_timer (js "Saved") blank_world).
  unfold nodes_fresh. constructor.
Defined.

(** ** The setters and the store *)

(** X9: with a store that works, what each setter stores is what the
    expressions of [loadUserPreferences] read back: a theme and a text size
    that are not the empty string come back as given, instead of the
    fallback, and the two switches come back as the booleans given. *)
Theorem stored_preferences_read_back (w : World) :
  set_throws (storage w) = false ->
  get_throws (storage w) = false ->
  (forall theme systemTheme, theme <> [] -> exists v,
     result_of ((setTheme theme;; localStorage_getItem (js "theme")) w) = Ok v
     /\ js_or v systemTheme = theme)
  /\ (forall size, size <> [] -> token_error (js "text-" ++ size) = None -> exists v,
        result_of ((setTextSize size;; localStorage_getItem (js "textSize")) w) = Ok v
        /\ js_or v (js "normal") = size)
  /\ (forall enabled, exists v,
        result_of ((setHighContrast enabled;; localStorage_getItem (js "highContrast")) w)
          = Ok v /\ is_true_string v = enabled)
  /\ (forall enabled, exists v,
        result_of ((setReducedMotion enabled;; localStorage_getItem (js "reducedMotion")) w)
          = Ok v /\ is_true_string v = enabled).
Proof.
  intros Hset Hget. open_world w.
  split; [|split; [|split] ].
  - intros theme systemTheme Hne. unfold setTheme, localStorage_setItem, localStorage_getItem,
      announceToScreenReader, setTimeout. run.
    eexists. split; [reflexivity|]. rewrite lookup_insert_eq. cbn [js_or].
    destruct theme; [done | reflexivity].
  - intros size Hne Htok. unfold setTextSize, localStorage_setItem, localStorage_getItem,
      announceToScreenReader, setTimeout, documentElement_classList. run.
    destruct (js_eqb size (js "normal")); run; [|rewrite Htok; run];
      (eexists; split; [reflexivity|]); rewrite lookup_insert_eq; cbn [js_or];
      (destruct size; [done | reflexivity]).
  - intros enabled. unfold setHighContrast, localStorage_setItem, localStorage_getItem,
      announceToScreenReader, setTimeout, documentElement_classList. run.
    eexists. split; [reflexivity|]. rewrite lookup_insert_eq.
    destruct enabled; vm_compute; reflexivity.
  - intros enabled. unfold setReducedMotion, localStorage_setItem, localStorage_getItem,
      announceToScreenReader, setTimeout, documentElement_classList. run.
    eexists. split; [reflexivity|]. rewrite lookup_insert_eq.
    destruct enabled; vm_compute; reflexivity.
Qed.

Lemma stored_preferences_read_back_witness :
  exists v,
    result_of ((setTheme (js "light");; localStorage_getItem (js "theme")) blank_world) = Ok v
    /\ js_or v (js "dark") = js "light".
Proof.
  apply (proj1 (stored_preferences_read_back blank_world eq_refl eq_refl)
           (js "light") (js "dark")).
  discriminate.
Defined.

(** X10: with a store that refuses writes, each setter still changes the
    document (attribute or class) and then throws: nothing is stored and
    nothing is announced. *)
Theorem setters_with_refusing_store (w : World) :
  set_throws (storage w) = true ->
  let quota := Throw (DOMException (js "QuotaExceededError")) in
  (forall theme,
     result_of (setTheme theme w) = quota
     /\ root_data_theme (page (state_of (setTheme theme w))) = Some theme
     /\ not_stored_not_announced w (state_of (setTheme theme w)))
  /\ (forall size, token_error (js "text-" ++ size) = None ->
        result_of (setTextSize size w) = quota
        /\ root_classes (page (state_of (setTextSize size w))) =
             (root_classes (page w) ∖ size_classes) ∪ size_class_of size
        /\ not_stored_not_announced w (state_of (setTextSize size w)))
  /\ (forall enabled,
        result_of (setHighContrast enabled w) = quota
        /\ has_root_class (js "high-contrast") (state_of (setHighContrast enabled w)) = enabled
        /\ not_stored_not_announced w (state_of (setHighContrast enabled w)))
  /\ (forall enabled,
        result_of (setReducedMotion enabled w) = quota
        /\ has_root_class (js "reduce-motion") (state_of (setReducedMotion enabled w)) = enabled
        /\ not_stored_not_announced w (state_of (setReducedMotion enabled w))).
Proof.
  intros Hset. cbv zeta. unfold not_stored_not_announced. open_world w.
  split; [|split; [|split] ].
  - intros theme. unfold setTheme, localStorage_setItem. run. repeat split; reflexivity.
  - intros size Htok.
    pose proof (setTextSize_root_classes size) as Hroot.
    unfold added_class in Hroot. rewrite Htok in Hroot. rewrite Hroot. clear Hroot.
    unfold setTextSize, localStorage_setItem, documentElement_classList. run.
    destruct (js_eqb size (js "normal")); run; [|rewrite Htok; run]; repeat split; reflexivity.
  - intros enabled. unfold setHighContrast, localStorage_setItem, documentElement_classList,
      has_root_class, classList_contains, classList_toggle, classList_add, classList_remove.
    run. split; [reflexivity|]. split; [|repeat split; reflexivity].
    destruct enabled; [apply bool_decide_eq_true_2 | apply bool_decide_eq_false_2]; set_solver.
  - intros enabled. unfold setReducedMotion, localStorage_setItem, documentElement_classList,
      has_root_class, classList_contains, classList_toggle, classList_add, classList_remove.
    run. split; [reflexivity|]. split; [|repeat split; reflexivity].
    destruct enabled; [apply bool_decide_eq_true_2 | apply bool_decide_eq_false_2]; set_solver.
Qed.

Lemma setters_with_refusing_store_witness :
  root_data_theme (page (state_of (setTheme (js "light") blocked_storage_page)))
    = Some (js "light").
Proof.
  apply (proj1 (setters_with_refusing_store blocked_storage_page eq_refl)).
Defined.

(** ** Text sizes outside the three values *)

Lemma setTextSize_calls_keep_class (c : jsstr) (sizes : list jsstr) (w : World) :
  c ∉ size_classes ->
  c ∈ root_classes (page w) ->
  c ∈ root_classes (page (setTextSize_calls sizes w)).
Proof.
  intros Hc. revert w. unfold setTextSize_calls.
  induction sizes as [|size sizes IH]; intros w Hin; cbn [fold_left]; [exact Hin|].
  apply IH. rewrite setTextSize_root_classes. set_solver.
Qed.

(** X11: a text size that holds white space is refused by the class list:
    [setTextSize] throws after it has taken the two size classes off the
    document; nothing is stored and nothing is announced. *)
Theorem setTextSize_refuses_white_space (size : jsstr) (w : World) :
  existsb is_ascii_whitespace size = true ->
  let w' := state_of (setTextSize size w) in
  result_of (setTextSize size w) = Throw (DOMException (js "InvalidCharacterError"))
  /\ root_classes (page w') = root_classes (page w) ∖ size_classes
  /\ not_stored_not_announced w w'.
Proof.
  intros Hspace. cbv zeta.
  assert (Htok : token_error (js "text-" ++ size) = Some (js "InvalidCharacterError")).
  { unfold token_error. change (js_falsy (js "text-" ++ size)) with false. cbv iota.
    rewrite existsb_app, Hspace, orb_true_r. reflexivity. }
  assert (Hne : js_eqb size (js "normal") = false).
  { unfold js_eqb. apply bool_decide_eq_false_2. intros ->. vm_compute in Hspace.
    discriminate Hspace. }
  unfold not_stored_not_announced.
  unfold setTextSize, documentElement_classList. run. rewrite Hne, Htok. run.
  split; [reflexivity|]. split; [|repeat split; reflexivity].
  unfold classList_remove, size_classes. set_solver.
Qed.

Lemma setTextSize_refuses_white_space_witness :
  result_of (setTextSize (js "extra large") blank_world)
    = Throw (DOMException (js "InvalidCharacterError")).
Proof.
  apply (setTextSize_refuses_white_space (js "extra large") blank_world).
  vm_compute. reflexivity.
Defined.

(** X12: [setTextSize] takes only [text-large] and [text-extra-large] off
    the document: the class it adds for any other size stays on the document
    through every later call, beside the class of the size set last. *)
Theorem setTextSize_other_sizes_accumulate (size : jsstr) (sizes : list jsstr) (w : World) :
  ~ valid_size size ->
  token_error (js "text-" ++ size) = None ->
  js "text-" ++ size ∈ root_classes (page (setTextSize_calls (size :: sizes) w)).
Proof.
  intros Hsize Htok. change (setTextSize_calls (size :: sizes) w)
    with (setTextSize_calls sizes (state_of (setTextSize size w))).
  assert (Hnormal : js_eqb size (js "normal") = false).
  { unfold js_eqb. apply bool_decide_eq_false_2. intros ->. apply Hsize. by left. }
  apply setTextSize_calls_keep_class.
  - unfold size_classes. intros Hin. apply Hsize.
    apply elem_of_union in Hin as [Hin|Hin]; apply elem_of_singleton in Hin;
      apply (app_inv_head (js "text-")) in Hin; subst size; unfold valid_size; auto.
  - rewrite setTextSize_root_classes. unfold added_class, size_class_of.
    rewrite Htok, Hnormal. set_solver.
Qed.

Lemma setTextSize_other_sizes_accumulate_witness :
  js "text-huge" ∈
    root_classes (page (setTextSize_calls [js "huge"; js "large"; js "normal"] blank_world)).
Proof.
  apply (setTextSize_other_sizes_accumulate (js "huge") [js "large"; js "normal"] blank_world).
  - unfold valid_size. intros [H|[H|H] ]; discriminate H.
  - vm_compute. reflexivity.
Defined.

(** ** The theme toggle *)

Lemma js_of_bool_is_true (b : bool) :
  bool_decide (Some (js_of_bool b) = Some (js "true")) = b.
Proof. destruct b; vm_compute; reflexivity. Qed.

Lemma on_themeToggle_click_run (w : World) (b : PressButton) :
  themeToggle (theme_widgets (widgets w)) = Some b ->
  let newTheme := theme_after_click (themeToggle_pressed w) in
  exists w',
    on_themeToggle_click w =
      (if set_throws (storage w)
       then Throw (DOMException (js "QuotaExceededError")) else Ok tt, w')
    /\ root_data_theme (page w') = Some newTheme
    /\ set_throws (storage w') = set_throws (storage w)
    /\ toggleTheme (theme_widgets (widgets w')) = toggleTheme (theme_widgets (widgets w))
    /\ themeToggle (theme_widgets (widgets w')) =
         (if set_throws (storage w) then Some b
          else Some (mkPressButton (Some (js_of_bool (negb (themeToggle_pressed w))))))
    /\ items (storage w') =
         (if set_throws (storage w) then items (storage w)
          else <[js "theme" := newTheme]> (items (storage w))).
Proof.
  intros Hb. cbv zeta. unfold themeToggle_pressed. rewrite Hb.
  unfold on_themeToggle_click, setTheme, localStorage_setItem, announceToScreenReader,
    setTimeout, set_themeToggle_pressed, theme_after_click.
  destruct (set_throws (storage w)) eqn:Hset; open_world w; run; eexists;
    (split; [reflexivity|]); wsimpl; repeat split; reflexivity.
Qed.

(** X13: with a store that works, every click on [#themeToggle] flips its
    pressed state, and after a click the theme of the document is dark
    exactly when the button is pressed, the stored theme is the theme of the
    document, and the footer check box is as it was. *)
Theorem themeToggle_clicks_alternate (w : World) (b : PressButton) (n : nat) :
  themeToggle (theme_widgets (widgets w)) = Some b ->
  set_throws (storage w) = false ->
  let w' := themeToggle_clicks (S n) w in
  themeToggle_pressed w' = xorb (themeToggle_pressed w) (Nat.even n)
  /\ root_data_theme (page w') =
       Some (if themeToggle_pressed w' then js "dark" else js "light")
  /\ items (storage w') !! js "theme" = root_data_theme (page w')
  /\ toggleTheme (theme_widgets (widgets w')) = toggleTheme (theme_widgets (widgets w)).
Proof.
  intros Hb Hset. cbv zeta.
  assert (Hinv : forall k, exists bk,
             themeToggle (theme_widgets (widgets (themeToggle_clicks k w))) = Some bk
             /\ set_throws (storage (themeToggle_clicks k w)) = false
             /\ themeToggle_pressed (themeToggle_clicks k w) =
                  xorb (themeToggle_pressed w) (Nat.odd k)
             /\ toggleTheme (theme_widgets (widgets (themeToggle_clicks k w))) =
                  toggleTheme (theme_widgets (widgets w))).
  { induction k as [|k (bk & Hbk & Hsk & Hpk & Htk)].
    - exists b. cbn [themeToggle_clicks Nat.iter]. rewrite xorb_false_r. auto.
    - destruct (on_themeToggle_click_run _ bk Hbk) as (w1 & Hrun & _ & Hs1 & Ht1 & Hb1 & _).
      rewrite Hsk in Hrun, Hs1, Hb1.
      change (themeToggle_clicks (S k) w)
        with (state_of (on_themeToggle_click (themeToggle_clicks k w))).
      rewrite Hrun. cbn [state_of snd]. eexists. split; [exact Hb1|].
      split; [exact Hs1|]. split; [|congruence].
      unfold themeToggle_pressed at 1. rewrite Hb1. cbn [pb_aria_pressed].
      rewrite js_of_bool_is_true, Hpk, Nat.odd_succ, <- Nat.negb_odd.
      destruct (themeToggle_pressed w), (Nat.odd k); reflexivity. }
  destruct (Hinv n) as (bn & Hbn & Hsn & Hpn & Htn).
  destruct (on_themeToggle_click_run _ bn Hbn) as (w1 & Hrun & Hth1 & Hs1 & Ht1 & Hb1 & Hi1).
  rewrite Hsn in Hrun, Hs1, Hb1, Hi1. cbv zeta in Hth1.
  change (themeToggle_clicks (S n) w)
    with (state_of (on_themeToggle_click (themeToggle_clicks n w))).
  rewrite Hrun. cbn [state_of snd].
  assert (Hp1 : themeToggle_pressed w1 = negb (themeToggle_pressed (themeToggle_clicks n w))).
  { unfold themeToggle_pressed at 1. rewrite Hb1. cbn [pb_aria_pressed].
    apply js_of_bool_is_true. }
  split.
  { rewrite Hp1, Hpn, <- Nat.negb_odd.
    destruct (themeToggle_pressed w), (Nat.odd n); reflexivity. }
  split.
  { rewrite Hth1, Hp1. unfold theme_after_click.
    destruct (themeToggle_pressed (themeToggle_clicks n w)); reflexivity. }
  split; [rewrite Hi1, Hth1; apply lookup_insert_eq | congruence].
Qed.

Lemma themeToggle_clicks_alternate_witness :
  root_data_theme (page (themeToggle_clicks 2
     (on_widgets (with_theme_widgets
        (mkThemeWidgets (Some (mkPressButton (Some (js "true")))) None)) blank_world)))
  = Some (js "dark").
Proof.
  apply (themeToggle_clicks_alternate
           (on_widgets (with_theme_widgets
              (mkThemeWidgets (Some (mkPressButton (Some (js "true")))) None)) blank_world)
           (mkPressButton (Some (js "true"))) 1 eq_refl eq_refl).
Defined.

(** X14: with a store that refuses writes, a click on [#themeToggle] sets
    the theme on the document and throws before the pressed state of the
    button is updated: the button stays as it was, and every later click
    asks for the same theme again. *)
Theorem themeToggle_stuck_without_store (w : World) (b : PressButton) (n : nat) :
  themeToggle (theme_widgets (widgets w)) = Some b ->
  set_throws (storage w) = true ->
  let w' := themeToggle_clicks (S n) w in
  themeToggle (theme_widgets (widgets w')) = Some b
  /\ root_data_theme (page w') = Some (theme_after_click (themeToggle_pressed w))
  /\ items (storage w') = items (storage w)
  /\ exists e, result_of (on_themeToggle_click (themeToggle_clicks n w)) = Throw e.
Proof.
  intros Hb Hset. cbv zeta.
  assert (Hinv : forall k,
             themeToggle (theme_widgets (widgets (themeToggle_clicks k w))) = Some b
             /\ set_throws (storage (themeToggle_clicks k w)) = true
             /\ items (storage (themeToggle_clicks k w)) = items (storage w)).
  { induction k as [|k (Hbk & Hsk & Hik)]; [auto|].
    destruct (on_themeToggle_click_run _ b Hbk) as (w1 & Hrun & _ & Hs1 & _ & Hb1 & Hi1).
    rewrite Hsk in Hrun, Hs1, Hb1, Hi1.
    change (themeToggle_clicks (S k) w)
      with (state_of (on_themeToggle_click (themeToggle_clicks k w))).
    rewrite Hrun. cbn [state_of snd]. split; [exact Hb1|]. split; congruence. }
  destruct (Hinv n) as (Hbn & Hsn & Hin).
  destruct (on_themeToggle_click_run _ b Hbn) as (w1 & Hrun & Hth1 & Hs1 & _ & Hb1 & Hi1).
  rewrite Hsn in Hrun, Hs1, Hb1, Hi1. cbv zeta in Hth1.
  change (themeToggle_clicks (S n) w)
    with (state_of (on_themeToggle_click (themeToggle_clicks n w))).
  rewrite Hrun. cbn [state_of snd result_of fst].
  split; [exact Hb1|]. split.
  { rewrite Hth1. unfold themeToggle_pressed. rewrite Hbn, Hb. reflexivity. }
  split; [congruence|]. eexists. reflexivity.
Qed.

Lemma themeToggle_stuck_without_store_witness :
  root_data_theme (page (themeToggle_clicks 2
     (on_widgets (with_theme_widgets
        (mkThemeWidgets (Some (mkPressButton None)) None)) blocked_storage_page)))
  = Some (js "dark").
Proof.
  apply (themeToggle_stuck_without_store
           (on_widgets (with_theme_widgets
              (mkThemeWidgets (Some (mkPressButton None)) None)) blocked_storage_page)
           (mkPressButton None) 1 eq_refl eq_refl).
Defined.

(** ** The footer check box of the theme *)

Lemma handle_event_frame {B} (f : World -> B) (ev : Event) (w : World) :
  preserves f deliver_mutations ->
  f (state_of (handle_event ev w)) = f (state_of (dispatch ev w)).
Proof. intros Hf. unfold handle_event. apply bind_state_frame. intros _. exact Hf. Qed.

Lemma deliver_mutations_off_page :
  preserves (fun w => (page w, widgets w, storage w)) deliver_mutations.
Proof. unfold deliver_mutations, observer_callback. frame. Qed.

(** X15: with a store that works, a change of the footer check box
    [#toggleTheme] sets the theme of the document to dark exactly when the
    box is checked, stores it, and brings [aria-pressed] of [#themeToggle],
    when the page has it, in line with the box. *)
Theorem footer_checkbox_sets_theme (w : World) (c : Checkbox) (checked : bool) :
  toggleTheme (theme_widgets (widgets w)) = Some c ->
  set_throws (storage w) = false ->
  OnToggleThemeChange ∈ listeners (loop w) ->
  let w' := state_of (handle_event (EvChangeToggleTheme checked) w) in
  root_data_theme (page w') = Some (if checked then js "dark" else js "light")
  /\ items (storage w') !! js "theme" = root_data_theme (page w')
  /\ toggleTheme (theme_widgets (widgets w')) = Some (mkCheckbox checked (cb_aria_pressed c))
  /\ themeToggle (theme_widgets (widgets w')) =
       (fun _ => mkPressButton (Some (js_of_bool checked)))
         <$> themeToggle (theme_widgets (widgets w)).
Proof.
  intros Hc Hset Hin. cbv zeta.
  pose proof (handle_event_frame _ (EvChangeToggleTheme checked) w deliver_mutations_off_page)
    as Hframe.
  injection Hframe as Hpage Hwidgets Hstorage. rewrite Hpage, Hwidgets, Hstorage.
  clear Hpage Hwidgets Hstorage.
  set (P := fun w0 : World =>
         set_throws (storage w0) = false
         /\ toggleTheme (theme_widgets (widgets w0)) = Some (mkCheckbox checked (cb_aria_pressed c))
         /\ (fun _ => tt) <$> themeToggle (theme_widgets (widgets w0)) =
              (fun _ => tt) <$> themeToggle (theme_widgets (widgets w))).
  set (Q := fun w0 : World =>
         root_data_theme (page w0) = Some (if checked then js "dark" else js "light")
         /\ items (storage w0) !! js "theme" = root_data_theme (page w0)
         /\ themeToggle (theme_widgets (widgets w0)) =
              (fun _ => mkPressButton (Some (js_of_bool checked)))
                <$> themeToggle (theme_widgets (widgets w))).
  assert (HPQ : (fun w' => P w' /\ Q w')
                  (state_of (dispatch (EvChangeToggleTheme checked) w))).
  { unfold dispatch. unfold bind at 1, default_action at 1, modify at 1.
    unfold bind at 1, gets at 1.
    apply (forEach_listeners (EvChangeToggleTheme checked) _ P Q OnToggleThemeChange
             (on_toggleTheme_change checked)).
    - intros l Hl. destruct l; try reflexivity. done.
    - reflexivity.
    - intros w0 (Hs0 & Ht0 & Hp0). unfold on_toggleTheme_change, setTheme, localStorage_setItem,
      announceToScreenReader, setTimeout, set_themeToggle_pressed.
      run. rewrite Hs0. run. eexists. split; [reflexivity|]. unfold P, Q. wsimpl.
      split; [split; [exact Hs0|]; split; [exact Ht0|]|].
      + rewrite <- Hp0. by destruct (themeToggle (theme_widgets (widgets w0))).
      + split; [reflexivity|]. split; [by rewrite lookup_insert_eq|].
        destruct (themeToggle (theme_widgets (widgets w0))),
          (themeToggle (theme_widgets (widgets w)));
          try discriminate Hp0; reflexivity.
    - unfold P. wsimpl. rewrite Hc. split; [exact Hset|]. split; reflexivity.
    - right. exact Hin. }
  destruct HPQ as [(_ & Ht & _) (H1 & H2 & H3)]. auto.
Qed.

Lemma footer_checkbox_sets_theme_witness :
  root_data_theme (page (state_of (handle_event (EvChangeToggleTheme true) theme_page)))
    = Some (js "dark").
Proof.
  apply (footer_checkbox_sets_theme theme_page (mkCheckbox false None) true eq_refl eq_refl).
  refine (bool_decide_eq_true_1 _ _). vm_compute. reflexivity.
Defined.

(** ** Closing the panel from the keyboard and by a click outside *)

Lemma mirrors_view (w1 w2 : World) :
  panel_view w1 = panel_view w2 ->
  has_open_class w1 = has_open_class w2
  /\ aria_hidden_is_false w1 = aria_hidden_is_false w2
  /\ aria_expanded_is_true w1 = aria_expanded_is_true w2.
Proof.
  unfold panel_view. intros Hview.
  injection Hview as Hmgr Hclasses Hhidden Htoggle.
  unfold has_open_class, panel_has_class, aria_hidden_is_false, aria_expanded_is_true.
  rewrite Htoggle.
  destruct (panel (panel_ui w1)) as [p1|], (panel (panel_ui w2)) as [p2|];
    cbn [fmap option_fmap option_map] in Hclasses, Hhidden; try discriminate.
  - apply (inj Some) in Hclasses, Hhidden. rewrite Hclasses, Hhidden. auto.
  - auto.
Qed.

Lemma deliver_mutations_page : preserves page deliver_mutations.
Proof. unfold deliver_mutations, observer_callback. frame. Qed.

Lemma closePanel_run (w : World) :
  panel_bound w ->
  exists w',
    closePanel w = (Ok tt, w')
    /\ panel_bound w' /\ shown_closed w'
    /\ activeElement (page w') = activeElement (page w)
    /\ body_classes (page w') = body_classes (page w).
Proof.
  intros (Hp & Ht & [p Hpanel] & [tg Htoggle]).
  unfold closePanel, panel_or_toggle_missing, panel_classList, panel_set_aria_hidden,
    toggle_set_aria_expanded, update_panel, queue_record, announceToScreenReader, setTimeout.
  open_world w. run. eexists. split; [reflexivity|].
  unfold panel_bound, shown_closed, has_open_class, panel_has_class, aria_hidden_is_false,
    aria_expanded_is_true, classList_contains, classList_remove.
  wsimpl. split; [repeat split; by eexists|].
  split; [|split; reflexivity].
  split; [apply bool_decide_eq_false_2; set_solver|].
  split; vm_compute; reflexivity.
Qed.



(** X17: with the panel open, a click outside the panel closes it; a click
    inside the panel, and any click while the panel is closed, leave the
    panel as it is. *)
Theorem click_outside_closes_panel (w : World) (inside : bool) :
  panel_bound w ->
  OnDocumentClick ∈ listeners (loop w) ->
  let w' := state_of (handle_event (EvClick inside) w) in
  (has_open_class w = true -> inside = false -> shown_closed w')
  /\ (has_open_class w = false \/ inside = true ->
        panel_view w' = panel_view w /\ page w' = page w).
Proof.
  intros Hbound Hin. cbv zeta.
  pose proof (handle_event_frame panel_view (EvClick inside) w deliver_mutations_view)
    as Hview.
  pose proof (handle_event_frame page (EvClick inside) w deliver_mutations_page) as Hpage.
  split.
  - intros Hopen ->.
    set (P := fun w0 : World => panel_bound w0 /\ (has_open_class w0 = true \/ shown_closed w0)).
    assert (HPQ : (fun w' => P w' /\ shown_closed w') (state_of (dispatch (EvClick false) w))).
    { unfold dispatch. unfold bind at 1, default_action at 1, ret at 1.
      unfold bind at 1, gets at 1.
      apply (forEach_listeners (EvClick false) _ P shown_closed OnDocumentClick
               (handleDocumentClick false)).
      - intros l Hl. destruct l; try reflexivity. done.
      - reflexivity.
      - intros w0 (Hb0 & Hcase). unfold handleDocumentClick.
        unfold bind at 1, gets at 1. unfold id.
        pose proof Hb0 as (Hp0 & _). rewrite Hp0. cbn [andb negb]. rewrite andb_true_r.
        destruct (panel_has_class (js "open") w0) eqn:Hopen0.
        + destruct (closePanel_run w0 Hb0) as (w1 & Hrun & Hb1 & Hc1 & _).
          exists w1. split; [exact Hrun|]. split; [|exact Hc1].
          split; [exact Hb1 | right; exact Hc1].
        + unfold ret. eexists. split; [reflexivity|].
          destruct Hcase as [Hcase|HQ0]; [unfold has_open_class in Hcase; congruence|].
          split; [|exact HQ0]. split; [exact Hb0 | right; exact HQ0].
      - split; [exact Hbound | left; exact Hopen].
      - right. exact Hin. }
    destruct HPQ as [_ Hc].
    destruct (mirrors_view _ _ Hview) as (H1 & H2 & H3).
    unfold shown_closed. rewrite H1, H2, H3. exact Hc.
  - intros Hcase.
    set (P := fun w0 : World => w0 = w).
    assert (HPQ : (fun w' => P w' /\ P w') (state_of (dispatch (EvClick inside) w))).
    { unfold dispatch. unfold bind at 1, default_action at 1, ret at 1.
      unfold bind at 1, gets at 1.
      apply (forEach_listeners (EvClick inside) _ P P OnDocumentClick
               (handleDocumentClick inside)).
      - intros l Hl. destruct l; try reflexivity. done.
      - reflexivity.
      - intros w0 ->. unfold handleDocumentClick.
        unfold bind at 1, gets at 1. unfold id.
        assert (Hcond : this_panel (mgr w) && panel_has_class (js "open") w && negb inside
                        = false).
        { destruct Hcase as [Hclosed| ->].
          - unfold has_open_class in Hclosed. rewrite Hclosed, andb_false_r. reflexivity.
          - apply andb_false_r. }
        rewrite Hcond. unfold ret. eexists. split; [reflexivity|]. split; reflexivity.
      - reflexivity.
      - left. reflexivity. }
    destruct HPQ as [HP _]. unfold P in HP. rewrite HP in Hview, Hpage. auto.
Qed.

Lemma click_outside_closes_panel_witness :
  shown_closed (state_of (handle_event (EvClick false) panel_page_open)).
Proof.
  apply (click_outside_closes_panel panel_page_open false).
  - unfold panel_bound.
    split; [reflexivity|]. split; [reflexivity|].
    split; vm_compute; eexists; reflexivity.
  - refine (bool_decide_eq_true_1 _ _). vm_compute. reflexivity.
  - vm_compute. reflexivity.
  - reflexivity.
Defined.

(** ** A click on the toggle button *)

Lemma forEach_no_listener (ev : Event) (stopped : bool) (ls : list Listener) (w : World) :
  (forall l, l ∈ ls -> listener_body stopped l ev = None) ->
  forEach ls (fun l =>
    match listener_body stopped l ev with
    | Some body => try_catch body (fun _ => console_put ErrorLevel (js "Uncaught"))
    | None => ret tt
    end) w = (Ok tt, w).
Proof.
  induction ls as [|l ls IH]; intros Hnone; cbn [forEach]; [reflexivity|].
  unfold bind. rewrite (Hnone l) by left. unfold ret.
  apply IH. intros l' Hl'. apply Hnone. by right.
Qed.

Lemma forEach_single_listener (ev : Event) (stopped : bool) (target : Listener)
    (body : M unit) (ls : list Listener) (w : World) :
  (forall l, l <> target -> listener_body stopped l ev = None) ->
  listener_body stopped target ev = Some body ->
  NoDup ls -> target ∈ ls ->
  state_of (forEach ls (fun l =>
    match listener_body stopped l ev with
    | Some body => try_catch body (fun _ => console_put ErrorLevel (js "Uncaught"))
    | None => ret tt
    end) w)
  = state_of (try_catch body (fun _ => console_put ErrorLevel (js "Uncaught")) w).
Proof.
  intros Hother Htarget Hnodup. revert w.
  induction Hnodup as [|l ls Hnotin Hnodup IH]; intros w Hin.
  - by apply elem_of_nil in Hin.
  - cbn [forEach]. unfold bind. destruct (decide (l = target)) as [->|Hne].
    + rewrite Htarget.
      assert (Hok : exists w1, try_catch body
                (fun _ => console_put ErrorLevel (js "Uncaught")) w = (Ok tt, w1)).
      { unfold try_catch. destruct (body w) as [ [ [] |e] w1]; eexists; reflexivity. }
      destruct Hok as (w1 & Hrun). rewrite Hrun.
      rewrite forEach_no_listener; [reflexivity|].
      intros l Hl. apply Hother. intros ->. contradiction.
    + rewrite (Hother l Hne). unfold ret. apply IH.
      apply elem_of_cons in Hin as [->|Hin]; [done | exact Hin].
Qed.

Lemma try_catch_state_frame {A B} (f : World -> B) (body : M A) (handler : Exn -> M A)
    (w : World) :
  (forall e, preserves f (handler e)) ->
  f (state_of (try_catch body handler w)) = f (state_of (body w)).
Proof.
  intros Hh. unfold try_catch, state_of. destruct (body w) as [ [a|e] w']; cbn [snd];
    [reflexivity | apply Hh].
Qed.

Lemma console_put_view (l : Level) (msg : jsstr) : preserves panel_view (console_put l msg).
Proof. unfold console_put. apply preserves_modify. intros w. reflexivity. Qed.

(** X18: a click on the toggle button flips the panel: whether the button
    is inside the panel or not, the panel is open afterwards exactly when
    its class list did not hold [open] before, and [aria-hidden] and
    [aria-expanded] say the same; the click does not reach the listener of
    the document that closes the panel. *)
Theorem toggle_click_flips_panel (w : World) (inside : bool) :
  panel_bound w ->
  NoDup (listeners (loop w)) ->
  OnToggleClick ∈ listeners (loop w) ->
  let w' := state_of (handle_event (EvClickToggle inside) w) in
  has_open_class w' = negb (has_open_class w)
  /\ aria_hidden_is_false w' = negb (has_open_class w)
  /\ aria_expanded_is_true w' = negb (has_open_class w).
Proof.
  intros Hbound Hnodup Hin. cbv zeta.
  pose proof (handle_event_frame panel_view (EvClickToggle inside) w deliver_mutations_view)
    as Hview.
  destruct (mirrors_view _ _ Hview) as (H1 & H2 & H3). rewrite H1, H2, H3.
  clear Hview H1 H2 H3.
  assert (Hstate : panel_view (state_of (dispatch (EvClickToggle inside) w)) =
                   panel_view (state_of (transition
                     (if has_open_class w then ToClosed else ToOpen) w))).
  { unfold dispatch. unfold bind at 1, default_action at 1, ret at 1.
    unfold bind at 1, gets at 1.
    rewrite (forEach_single_listener (EvClickToggle inside) _ OnToggleClick
               handleToggleClick _ w); [| |reflexivity|exact Hnodup|exact Hin].
    - rewrite (try_catch_state_frame panel_view) by (intros _; apply console_put_view).
      unfold handleToggleClick. unfold bind, gets, id.
      destruct Hbound as (Hp & _). rewrite Hp. cbn [negb]. unfold has_open_class.
      destruct (panel_has_class (js "open") w); reflexivity.
    - intros l Hl. rewrite (bool_decide_eq_true_2 _ Hin).
      destruct l; try reflexivity. done. }
  destruct (mirrors_view _ _ Hstate) as (H1 & H2 & H3). rewrite H1, H2, H3.
  destruct (transition_invariant w (if has_open_class w then ToClosed else ToOpen) Hbound)
    as [ (_ & Ha1 & Ha2) Ho].
  rewrite Ha1, Ha2, Ho. destruct (has_open_class w); auto.
Qed.

Lemma toggle_click_flips_panel_witness :
  has_open_class (state_of (handle_event (EvClickToggle false) panel_page_ready)) =
    negb (has_open_class panel_page_ready).
Proof.
  apply (toggle_click_flips_panel panel_page_ready false).
  - unfold panel_bound.
    split; [reflexivity|]. split; [reflexivity|].
    split; vm_compute; eexists; reflexivity.
  - refine (bool_decide_eq_true_1 _ _). vm_compute. reflexivity.
  - refine (bool_decide_eq_true_1 _ _). vm_compute. reflexivity.
Defined.

(** ** The focus after the panel opens *)

Lemma head_matching_from (sel : PanelChild -> bool) (cs : list PanelChild) (k : nat) :
  head (fst <$> filter (fun ic : nat * PanelChild => sel (snd ic) = true)
                       (imap (fun i c => ((k + i)%nat, c)) cs)) =
    (fun ic : nat * PanelChild => (k + fst ic)%nat)
      <$> list_find (fun c => sel c = true) cs.
Proof.
  revert k. induction cs as [|c cs IH]; intros k; [reflexivity|].
  rewrite imap_cons. cbn [list_find].
  destruct (decide (sel c = true)) as [Hc|Hc].
  - rewrite filter_cons_True by exact Hc. cbn. reflexivity.
  - rewrite filter_cons_False by exact Hc.
    rewrite (imap_ext _ (fun i c => ((S k + i)%nat, c))).
    2:{ intros i x _. cbn. f_equal. lia. }
    rewrite IH. destruct (list_find _ cs) as [ [i x]|]; cbn; [f_equal; lia | reflexivity].
Qed.

Lemma head_matching (sel : PanelChild -> bool) (cs : list PanelChild) :
  head (matching sel cs) = fst <$> list_find (fun c => sel c = true) cs.
Proof.
  unfold matching.
  transitivity (head (fst <$> filter (fun ic : nat * PanelChild => sel (snd ic) = true)
                                     (imap (fun i c => ((0 + i)%nat, c)) cs)));
    [reflexivity|].
  rewrite head_matching_from.
  destruct (list_find _ cs) as [ [i x]|]; reflexivity.
Qed.

(** X19: [openPanel] does not move the focus during the call: it leaves a
    timer of 100 ms that focuses the first descendant of the panel, in
    document order, among the inputs, selects, buttons, text areas and
    nodes with a [tabindex], and no focus timer when the panel has no such
    descendant. *)
Theorem openPanel_schedules_focus (w : World) (p : Panel) :
  panel_bound w ->
  panel (panel_ui w) = Some p ->
  let w' := state_of (openPanel w) in
  result_of (openPanel w) = Ok tt
  /\ activeElement (page w') = activeElement (page w)
  /\ timers (loop w') =
       timers (loop w)
       ++ match list_find (fun c => focusable_selector c = true) (p_children p) with
          | Some (i, _) => [mkTimer 100 (TaskFocus (RPanelChild i))]
          | None => []
          end
       ++ [mkTimer 1000 (TaskRemoveLive (next_node (page w)))].
Proof.
  intros (Hp & Ht & _ & [tg Htoggle]) Hpanel. cbv zeta.
  pose proof (head_matching focusable_selector (p_children p)) as Hhead.
  unfold matching in Hhead.
  unfold openPanel, panel_or_toggle_missing, panel_classList, panel_set_aria_hidden,
    toggle_set_aria_expanded, update_panel, queue_record, panel_querySelector,
    panel_querySelectorAll, announceToScreenReader, setTimeout.
  destruct (observers (loop w)) eqn:Hobs; open_world w; run; rewrite Hhead;
    destruct (list_find _ (p_children p)) as [ [i c]|]; run;
    (split; [reflexivity|]); (split; [reflexivity|]);
    rewrite <- ?app_assoc; reflexivity.
Qed.

Lemma openPanel_schedules_focus_witness :
  timers (loop (state_of (openPanel panel_page_ready))) =
    timers (loop panel_page_ready)
    ++ [mkTimer 100 (TaskFocus (RPanelChild 0))]
    ++ [mkTimer 1000 (TaskRemoveLive (next_node (page panel_page_ready)))].
Proof.
  apply (openPanel_schedules_focus panel_page_ready
           (mkPanel ∅ (Some (js "true"))
              [mkPanelChild TagInput ∅ (Some (js "-1")); mkPanelChild TagSelect ∅ (Some (js "-1"));
               mkPanelChild TagTextarea ∅ None; mkPanelChild TagOther ∅ None])).
  - unfold panel_bound.
    split; [reflexivity|]. split; [reflexivity|].
    split; vm_compute; eexists; reflexivity.
  - vm_compute. reflexivity.
Defined.

(** ** The controls of the preferences *)

Lemma forEach_listeners_any (ev : Event) (stopped : bool) (P Q : World -> Prop)
    (target : Listener) (body : M unit) (ls : list Listener) :
  (forall l, l <> target -> listener_body stopped l ev = None) ->
  listener_body stopped target ev = Some body ->
  (forall w, P w ->
     let w' := state_of (try_catch body
                 (fun _ => console_put ErrorLevel (js "Uncaught")) w) in
     P w' /\ Q w') ->
  forall w, P w -> Q w \/ target ∈ ls ->
  let w' := state_of (forEach ls (fun l =>
              match listener_body stopped l ev with
              | Some body => try_catch body (fun _ => console_put ErrorLevel (js "Uncaught"))
              | None => ret tt
              end) w) in
  P w' /\ Q w'.
Proof.
  intros Hother Htarget Hbody. induction ls as [|l ls IH]; intros w HP HQ.
  - destruct HQ as [HQ|Hin]; [split; assumption | by apply elem_of_nil in Hin].
  - cbv zeta. cbn [forEach]. destruct (decide (l = target)) as [->|Hne].
    + specialize (Hbody w HP). cbv zeta in Hbody.
      unfold bind. rewrite Htarget.
      assert (Hok : exists w1, try_catch body
                (fun _ => console_put ErrorLevel (js "Uncaught")) w = (Ok tt, w1)).
      { unfold try_catch. destruct (body w) as [ [ [] |e] w1]; eexists; reflexivity. }
      destruct Hok as (w1 & Hrun). rewrite Hrun in Hbody |- *. cbn [state_of snd] in Hbody.
      apply IH; [tauto | left; tauto].
    + unfold bind. rewrite (Hother l Hne). unfold ret. apply IH; [exact HP|].
      destruct HQ as [HQ|Hin]; [left; exact HQ | right].
      apply elem_of_cons in Hin as [->|Hin]; [done | exact Hin].
Qed.

Lemma root_class_toggled (c : jsstr) (force : bool) (s : gset jsstr) :
  classList_contains c (classList_toggle c force s) = force.
Proof.
  unfold classList_contains, classList_toggle, classList_add, classList_remove.
  destruct force; [apply bool_decide_eq_true_2 | apply bool_decide_eq_false_2]; set_solver.
Qed.

Lemma setHighContrast_class (enabled : bool) (w : World) :
  has_root_class (js "high-contrast") (state_of (setHighContrast enabled w)) = enabled.
Proof.
  pose proof (root_class_toggled (js "high-contrast") enabled (root_classes (page w))) as H.
  unfold has_root_class, setHighContrast, documentElement_classList, localStorage_setItem,
    announceToScreenReader, setTimeout.
  run. destruct (set_throws (storage w)); run; exact H.
Qed.

Lemma setReducedMotion_class (enabled : bool) (w : World) :
  has_root_class (js "reduce-motion") (state_of (setReducedMotion enabled w)) = enabled.
Proof.
  pose proof (root_class_toggled (js "reduce-motion") enabled (root_classes (page w))) as H.
  unfold has_root_class, setReducedMotion, documentElement_classList, localStorage_setItem,
    announceToScreenReader, setTimeout.
  run. destruct (set_throws (storage w)); run; exact H.
Qed.

Lemma console_put_page (l : Level) (msg : jsstr) : preserves page (console_put l msg).
Proof. unfold console_put. frame. Qed.

(** X20: a change of the check box [#highContrast] or [#reducedMotion] puts
    the class [high-contrast] or [reduce-motion] on the document exactly when
    the box is checked, and a choice of one of the three sizes in [#textSize]
    leaves the class of that size as the only size class, whether or not the
    store accepts the write. *)
Theorem preference_controls_apply (w : World) :
  (forall checked, OnHighContrastChange ∈ listeners (loop w) ->
     has_root_class (js "high-contrast")
       (state_of (handle_event (EvChangeHighContrast checked) w)) = checked)
  /\ (forall checked, OnReducedMotionChange ∈ listeners (loop w) ->
        has_root_class (js "reduce-motion")
          (state_of (handle_event (EvChangeReducedMotion checked) w)) = checked)
  /\ (forall value s,
        textSize_select (widgets w) = Some s ->
        value ∈ sel_options s ->
        valid_size value ->
        OnTextSizeChange ∈ listeners (loop w) ->
        root_classes (page (state_of (handle_event (EvChangeTextSize value) w)))
          ∩ size_classes = size_class_of value).
Proof.
  split; [|split].
  - intros checked Hin. unfold has_root_class.
    rewrite (handle_event_frame page _ w deliver_mutations_page).
    set (Q := fun w0 : World => has_root_class (js "high-contrast") w0 = checked).
    assert (HPQ : (fun w' => True /\ Q w')
                    (state_of (dispatch (EvChangeHighContrast checked) w))).
    { unfold dispatch. unfold bind at 1, default_action at 1, modify at 1.
      unfold bind at 1, gets at 1.
      apply (forEach_listeners_any (EvChangeHighContrast checked) _ (fun _ => True) Q
               OnHighContrastChange (setHighContrast checked)).
      - intros l Hl. destruct l; try reflexivity. done.
      - reflexivity.
      - intros w0 _. cbv zeta. split; [exact I|]. unfold Q, has_root_class.
        rewrite (try_catch_state_frame page) by (intros _; apply console_put_page).
        apply setHighContrast_class.
      - exact I.
      - right. exact Hin. }
    exact (proj2 HPQ).
  - intros checked Hin. unfold has_root_class.
    rewrite (handle_event_frame page _ w deliver_mutations_page).
    set (Q := fun w0 : World => has_root_class (js "reduce-motion") w0 = checked).
    assert (HPQ : (fun w' => True /\ Q w')
                    (state_of (dispatch (EvChangeReducedMotion checked) w))).
    { unfold dispatch. unfold bind at 1, default_action at 1, set_reducedMotion_checked at 1,
        modify at 1.
      unfold bind at 1, gets at 1.
      apply (forEach_listeners_any (EvChangeReducedMotion checked) _ (fun _ => True) Q
               OnReducedMotionChange (setReducedMotion checked)).
      - intros l Hl. destruct l; try reflexivity. done.
      - reflexivity.
      - intros w0 _. cbv zeta. split; [exact I|]. unfold Q, has_root_class.
        rewrite (try_catch_state_frame page) by (intros _; apply console_put_page).
        apply setReducedMotion_class.
      - exact I.
      - right. exact Hin. }
    exact (proj2 HPQ).
  - intros value s Hs Hvalue Hvalid Hin.
    rewrite (handle_event_frame page _ w deliver_mutations_page).
    set (P := fun w0 : World => sel_value <$> textSize_select (widgets w0) = Some value).
    set (Q := fun w0 : World =>
           root_classes (page w0) ∩ size_classes = size_class_of value).
    assert (HPQ : (fun w' => P w' /\ Q w') (state_of (dispatch (EvChangeTextSize value) w))).
    { unfold dispatch. unfold bind at 1, default_action at 1, modify at 1.
      unfold bind at 1, gets at 1.
      apply (forEach_listeners_any (EvChangeTextSize value) _ P Q OnTextSizeChange
               (let* x := gets widgets in
                match textSize_select x with
                | Some s => setTextSize (sel_value s)
                | None => ret tt
                end)).
      - intros l Hl. destruct l; try reflexivity. done.
      - reflexivity.
      - intros w0 HP0. cbv zeta. unfold P, Q in *.
        assert (Hbody : exists s0, textSize_select (widgets w0) = Some s0
                                   /\ sel_value s0 = value).
        { destruct (textSize_select (widgets w0)) as [s0|]; [|discriminate HP0].
          exists s0. split; [reflexivity|]. by apply (inj Some) in HP0. }
        destruct Hbody as (s0 & Hs0 & Hv0).
        assert (Hwidgets : preserves widgets (setTextSize value)).
        { unfold setTextSize, localStorage_setItem, announceToScreenReader. frame. }
        rewrite (try_catch_state_frame widgets), (try_catch_state_frame page)
          by (intros _; unfold console_put; frame).
        unfold bind at 1 2, gets at 1 2. rewrite Hs0, Hv0.
        split; [rewrite (Hwidgets w0); exact HP0|].
        rewrite setTextSize_root_classes, (added_class_valid value Hvalid).
        pose proof (size_class_of_valid value Hvalid). set_solver.
      - unfold P. wsimpl. rewrite Hs. cbn [fmap option_fmap option_map].
        unfold set_select_value. cbn [sel_value].
        rewrite (bool_decide_eq_true_2 _ Hvalue). reflexivity.
      - right. exact Hin. }
    exact (proj2 HPQ).
Qed.

Lemma preference_controls_apply_witness :
  has_root_class (js "high-contrast")
    (state_of (handle_event (EvChangeHighContrast true) preferences_page)) = true.
Proof.
  apply (proj1 (preference_controls_apply preferences_page)).
  refine (bool_decide_eq_true_1 _ _). vm_compute. reflexivity.
Defined.

(** X21: when the system preference for reduced motion changes, the class
    [reduce-motion] of the document and the check box [#reducedMotion] follow
    the new system value, and, with a store that works, the stored choice
    of the user is overwritten with it. *)
Theorem system_motion_preference_overrides (w : World) (matches : bool) :
  OnMotionPreferenceChange ∈ listeners (loop w) ->
  let w' := state_of (handle_event (EvMotionPreference matches) w) in
  has_root_class (js "reduce-motion") w' = matches
  /\ cb_checked <$> reducedMotion_box (widgets w') =
       (fun _ => matches) <$> reducedMotion_box (widgets w)
  /\ (set_throws (storage w) = false ->
        items (storage w') !! js "reducedMotion" = Some (js_of_bool matches)).
Proof.
  intros Hin. cbv zeta. unfold has_root_class.
  pose proof (handle_event_frame _ (EvMotionPreference matches) w deliver_mutations_off_page)
    as Hframe.
  injection Hframe as Hpage Hwidgets Hstorage. rewrite Hpage, Hwidgets, Hstorage.
  clear Hpage Hwidgets Hstorage.
  set (P := fun w0 : World =>
         set_throws (storage w0) = set_throws (storage w)
         /\ (fun _ => tt) <$> reducedMotion_box (widgets w0) =
              (fun _ => tt) <$> reducedMotion_box (widgets w)).
  set (Q := fun w0 : World =>
         classList_contains (js "reduce-motion") (root_classes (page w0)) = matches
         /\ cb_checked <$> reducedMotion_box (widgets w0) =
              (fun _ => matches) <$> reducedMotion_box (widgets w)
         /\ (set_throws (storage w) = false ->
               items (storage w0) !! js "reducedMotion" = Some (js_of_bool matches))).
  assert (HPQ : (fun w' => P w' /\ Q w') (state_of (dispatch (EvMotionPreference matches) w))).
  { unfold dispatch. unfold bind at 1, default_action at 1, ret at 1.
    unfold bind at 1, gets at 1.
    apply (forEach_listeners_any (EvMotionPreference matches) _ P Q OnMotionPreferenceChange
             (on_motion_preference_change matches)).
    - intros l Hl. destruct l; try reflexivity. done.
    - reflexivity.
    - intros w0 (Hs0 & Hb0). cbv zeta. unfold P, Q.
      pose proof (root_class_toggled (js "reduce-motion") matches (root_classes (page w0)))
        as Hclass.
      unfold on_motion_preference_change, set_reducedMotion_checked, setReducedMotion,
        documentElement_classList, localStorage_setItem, announceToScreenReader, setTimeout,
        console_put.
      run. destruct (set_throws (storage w0)) eqn:Hset0; run.
      + split; [split; [congruence|]|split; [exact Hclass|split] ].
        * rewrite <- Hb0. by destruct (reducedMotion_box (widgets w0)).
        * destruct (reducedMotion_box (widgets w0)), (reducedMotion_box (widgets w));
            try discriminate Hb0; reflexivity.
        * intros Hset. congruence.
      + split; [split; [congruence|]|split; [exact Hclass|split] ].
        * rewrite <- Hb0. by destruct (reducedMotion_box (widgets w0)).
        * destruct (reducedMotion_box (widgets w0)), (reducedMotion_box (widgets w));
            try discriminate Hb0; reflexivity.
        * intros _. apply lookup_insert_eq.
    - split; reflexivity.
    - right. exact Hin. }
  exact (proj2 HPQ).
Qed.

Lemma system_motion_preference_overrides_witness :
  has_root_class (js "reduce-motion")
    (state_of (handle_event (EvMotionPreference true) motion_page)) = true.
Proof.
  apply (system_motion_preference_overrides motion_page true).
  refine (bool_decide_eq_true_1 _ _). vm_compute. reflexivity.
Defined.

(** ** The marker of keyboard navigation *)

Lemma dispatch_body_classes (key : jsstr) :
  key <> js "Tab" ->
  preserves (fun w => body_classes (page w)) (dispatch (EvKeydown key)).
Proof.
  intros Hkey. unfold dispatch.
  apply preserves_bind; [unfold default_action; frame|]. intros _.
  apply preserves_bind; [frame|]. intros ls.
  apply preserves_forEach. intros l.
  destruct (listener_body _ l _) as [body|] eqn:Hbody; [|frame].
  destruct l; try discriminate Hbody. cbn [listener_body] in Hbody.
  apply (inj Some) in Hbody. subst body.
  apply preserves_try_catch; [|intros _; frame].
  unfold handleKeydown, closePanel, announceToScreenReader.
  unfold js_eqb at 2. rewrite (bool_decide_eq_false_2 _ Hkey). frame.
Qed.

(** X22: the Tab key puts the class [keyboard-navigation] on the body, a
    press of a mouse button takes it off, and no other key touches it. *)
Theorem keyboard_navigation_marker (w : World) :
  (OnDocumentKeydown ∈ listeners (loop w) ->
     js "keyboard-navigation" ∈
       body_classes (page (state_of (handle_event (EvKeydown (js "Tab")) w))))
  /\ (OnDocumentMousedown ∈ listeners (loop w) ->
        js "keyboard-navigation" ∉
          body_classes (page (state_of (handle_event EvMousedown w))))
  /\ (forall key, key <> js "Tab" ->
        body_classes (page (state_of (handle_event (EvKeydown key) w))) =
          body_classes (page w)).
Proof.
  split; [|split].
  - intros Hin.
    rewrite (handle_event_frame page (EvKeydown (js "Tab")) w deliver_mutations_page).
    set (Q := fun w0 : World => js "keyboard-navigation" ∈ body_classes (page w0)).
    assert (HPQ : (fun w' => True /\ Q w') (state_of (dispatch (EvKeydown (js "Tab")) w))).
    { unfold dispatch. unfold bind at 1, default_action at 1, ret at 1.
      unfold bind at 1, gets at 1.
      apply (forEach_listeners (EvKeydown (js "Tab")) _ (fun _ => True) Q OnDocumentKeydown
               (handleKeydown (js "Tab"))).
      - intros l Hl. destruct l; try reflexivity. done.
      - reflexivity.
      - intros w0 _. unfold handleKeydown, body_classList. js_literals. run.
        eexists. split; [reflexivity|]. split; [exact I|].
        unfold Q, classList_add. wsimpl. set_solver.
      - exact I.
      - right. exact Hin. }
    exact (proj2 HPQ).
  - intros Hin.
    rewrite (handle_event_frame page EvMousedown w deliver_mutations_page).
    set (Q := fun w0 : World => js "keyboard-navigation" ∉ body_classes (page w0)).
    assert (HPQ : (fun w' => True /\ Q w') (state_of (dispatch EvMousedown w))).
    { unfold dispatch. unfold bind at 1, default_action at 1, ret at 1.
      unfold bind at 1, gets at 1.
      apply (forEach_listeners EvMousedown _ (fun _ => True) Q OnDocumentMousedown
               (body_classList (classList_remove (js "keyboard-navigation")))).
      - intros l Hl. destruct l; try reflexivity. done.
      - reflexivity.
      - intros w0 _. unfold body_classList. run.
        eexists. split; [reflexivity|]. split; [exact I|].
        unfold Q, classList_remove. wsimpl. set_solver.
      - exact I.
      - right. exact Hin. }
    exact (proj2 HPQ).
  - intros key Hkey.
    rewrite (handle_event_frame (fun w => body_classes (page w)) (EvKeydown key) w).
    + apply (dispatch_body_classes key Hkey).
    + intros w0. cbv beta. by rewrite deliver_mutations_page.
Qed.

Lemma keyboard_navigation_marker_witness :
  js "keyboard-navigation" ∈
    body_classes (page (state_of (handle_event (EvKeydown (js "Tab")) panel_page_ready))).
Proof.
  apply (proj1 (keyboard_navigation_marker panel_page_ready)).
  refine (bool_decide_eq_true_1 _ _). vm_compute. reflexivity.
Defined.

(** ** The steps of the start-up after the panel *)

Lemma initializeComponents_after_panel (h : option ThemeHelpers) (w : World) :
  exists w0,
    setupAccessibilityPanel w = (Ok tt, w0)
    /\ initializeComponents h w =
         try_catch (rest_of_set_up h)
           (fun error =>
              console_put ErrorLevel (js "Error initializing Accessibility Manager:")) w0.
Proof.
  destruct setupAccessibilityPanel_quiet as (Hret & _).
  destruct (Hret w) as ([] & Hok). unfold result_of in Hok.
  destruct (setupAccessibilityPanel w) as [r w0] eqn:Hrun. cbn [fst] in Hok. subst r.
  exists w0. split; [reflexivity|].
  unfold initializeComponents, try_catch. unfold bind at 1. rewrite Hrun. reflexivity.
Qed.

Lemma rest_of_set_up_panel_part (h : option ThemeHelpers) :
  preserves panel_part
    (try_catch (rest_of_set_up h)
       (fun error =>
          console_put ErrorLevel (js "Error initializing Accessibility Manager:"))).
Proof.
  unfold rest_of_set_up,
    setupThemeToggle, setupFormValidation, setupKeyboardNavigation, setupReducedMotion,
    loadUserPreferences, updateSubmitButtonState, setReducedMotion, setTheme, setTextSize,
    setHighContrast, detectSystemTheme, updateThemeControls, localStorage_getItem,
    localStorage_setItem, announceToScreenReader.
  frame.
Qed.

(** ** A page without the panel *)

Lemma keeps_listeners {A} (I : list Listener -> Prop) (m : M A) :
  preserves (fun w => listeners (loop w)) m -> keeps (fun w => I (listeners (loop w))) m.
Proof. intros Hm w Hw. cbv beta. rewrite (Hm w). exact Hw. Qed.

Lemma addEventListener_all (ok : Listener -> Prop) (l : Listener) :
  ok l -> keeps (listeners_all ok) (addEventListener l).
Proof.
  intros Hl w Hw l' Hin. unfold addEventListener, modify, state_of in Hin.
  cbn [snd] in Hin. wsimpl_all. apply elem_of_app in Hin as [Hin|Hin]; [by apply Hw|].
  apply list_elem_of_singleton in Hin. by subst l'.
Qed.

Lemma keeps_when {I : World -> Prop} (b : bool) (m : M unit) :
  keeps I m -> keeps I (when b m).
Proof. intros Hm. destruct b; [exact Hm | apply keeps_ret]. Qed.

(** One step of a proof that a computation attaches only listeners that
    satisfy [ok]; [side] proves [ok] of a listener. *)
Ltac listeners_step ok side :=
  first
    [ apply keeps_ret
    | apply keeps_throw
    | apply addEventListener_all; side
    | solve [apply (keeps_listeners (fun ls => forall l, l ∈ ls -> ok l)); frame]
    | apply keeps_bind; [|intros ?]
    | apply keeps_when
    | apply keeps_forEach; intros ?
    | apply keeps_try_catch; [|intros ?]
    | match goal with
      | |- keeps _ (match ?x with _ => _ end) => destruct x
      | |- keeps _ (if ?x then _ else _) => destruct x
      end ].

Lemma rest_of_set_up_no_panel (h : option ThemeHelpers) :
  keeps no_panel_listeners
    (try_catch (rest_of_set_up h)
       (fun error =>
          console_put ErrorLevel (js "Error initializing Accessibility Manager:"))).
Proof.
  change no_panel_listeners with (listeners_all (fun l => ~ panel_listener l)).
  unfold rest_of_set_up,
    setupThemeToggle, setupFormValidation, setupKeyboardNavigation, setupReducedMotion,
    loadUserPreferences, updateSubmitButtonState, setReducedMotion, setTheme, setTextSize,
    setHighContrast, detectSystemTheme, updateThemeControls, localStorage_getItem,
    localStorage_setItem, announceToScreenReader.
  repeat listeners_step (fun l => ~ panel_listener l)
    ltac:(unfold panel_listener; intros [?|[?|?] ]; discriminate).
Qed.

Lemma setupAccessibilityPanel_missing (w : World) :
  panel (panel_ui w) = None \/ toggle (panel_ui w) = None ->
  setupAccessibilityPanel w =
    (Ok tt,
     on_console (fun c => c ++ [(WarnLevel, js "Accessibility panel elements not found")])
       (on_mgr (fun m => mkManager (bool_decide (is_Some (panel (panel_ui w))))
                                   (bool_decide (is_Some (toggle (panel_ui w))))
                                   (isInitialized m)) w)).
Proof.
  intros Hmissing. unfold setupAccessibilityPanel, panel_or_toggle_missing, console_put.
  destruct (panel (panel_ui w)) eqn:Hpanel, (toggle (panel_ui w)) eqn:Htoggle;
    try (destruct Hmissing; discriminate); open_world w; run; reflexivity.
Qed.

(** X23: on a page without the panel or without its toggle button,
    [setupAccessibilityPanel] only records what it found and logs a
    warning; the start-up then attaches no listener for clicks on the
    document or for keys and no observer, so that no key, Tab included,
    changes the page. *)
Theorem page_without_panel_ignores_keys (h : option ThemeHelpers) (w : World) :
  panel (panel_ui w) = None \/ toggle (panel_ui w) = None ->
  no_panel_listeners w ->
  let w1 := state_of (initializeComponents h w) in
  state_of (setupAccessibilityPanel w) =
    on_console (fun c => c ++ [(WarnLevel, js "Accessibility panel elements not found")])
      (on_mgr (fun m => mkManager (bool_decide (is_Some (panel (panel_ui w))))
                                  (bool_decide (is_Some (toggle (panel_ui w))))
                                  (isInitialized m)) w)
  /\ no_panel_listeners w1
  /\ observers (loop w1) = observers (loop w)
  /\ forall key, page (state_of (handle_event (EvKeydown key) w1)) = page w1.
Proof.
  intros Hmissing Hnone. cbv zeta.
  pose proof (setupAccessibilityPanel_missing w Hmissing) as Hsetup.
  split; [rewrite Hsetup; reflexivity|].
  destruct (initializeComponents_after_panel h w) as (w0 & Hsetup0 & ->).
  rewrite Hsetup in Hsetup0. injection Hsetup0 as Hw0.
  assert (Hnone1 : no_panel_listeners (state_of (try_catch (rest_of_set_up h)
              (fun error =>
                 console_put ErrorLevel (js "Error initializing Accessibility Manager:")) w0))).
  { apply rest_of_set_up_no_panel. rewrite <- Hw0. exact Hnone. }
  split; [exact Hnone1|].
  split.
  { pose proof (rest_of_set_up_panel_part h w0) as Hpart. unfold panel_part in Hpart.
    injection Hpart as _ _ _ Hobs _. rewrite Hobs, <- Hw0. reflexivity. }
  intros key.
  match goal with |- page (state_of (handle_event _ ?x)) = _ => set (w1 := x) in * end.
  rewrite (handle_event_frame page (EvKeydown key) w1 deliver_mutations_page).
  unfold dispatch. unfold bind at 1, default_action at 1, ret at 1.
  unfold bind at 1, gets at 1.
  rewrite forEach_no_listener; [reflexivity|].
  intros l Hl. specialize (Hnone1 l Hl). unfold panel_listener in Hnone1.
  destruct l; try reflexivity. tauto.
Qed.

Lemma page_without_panel_ignores_keys_witness :
  page (state_of (handle_event (EvKeydown (js "Tab"))
                    (state_of (initializeComponents as_written blank_world)))) =
  page (state_of (initializeComponents as_written blank_world)).
Proof.
  apply (page_without_panel_ignores_keys as_written blank_world).
  - left. reflexivity.
  - intros l Hl. vm_compute in Hl. by apply elem_of_nil in Hl.
Defined.

(** ** The panel over a whole run of the page *)

Lemma panel_invariant_part (w1 w2 : World) :
  panel_part w1 = panel_part w2 -> panel_invariant w2 -> panel_invariant w1.
Proof.
  unfold panel_part. intros [= Hp Ht Hui _ _].
  unfold panel_invariant, panel_bound, mirrors_agree, has_open_class, panel_has_class,
    aria_hidden_is_false, aria_expanded_is_true.
  rewrite Hp, Ht, Hui. tauto.
Qed.

Lemma tabbing_settled_part (w1 w2 : World) :
  panel_part w1 = panel_part w2 -> tabbing_settled w2 -> tabbing_settled w1.
Proof.
  unfold panel_part. intros [= Hp Ht Hui Ho Hm].
  unfold tabbing_settled, tabbing_observed, panel_state, tabindex_in_sync, expected_tabindex,
    has_open_class, panel_has_class.
  rewrite Hp, Ht, Hui, Ho, Hm. tauto.
Qed.

Lemma run_turns_keeps (I : World -> Prop) (ts : list Turn) (w : World) :
  (forall ev, keeps I (handle_event ev)) ->
  (forall k, keeps I (fire_timer k)) ->
  I w -> I (run_turns ts w).
Proof.
  intros Hev Htm. revert w. unfold run_turns.
  induction ts as [|t ts IH]; intros w Hw; cbn [fold_left]; [exact Hw|].
  apply IH. destruct t; cbn [run_turn]; [by apply Hev | by apply Htm].
Qed.

(** X24: on a page that has the panel and the toggle button, with markup in
    which the class [open], [aria-hidden] and [aria-expanded] agree, the three
    agree after the start-up and after every turn of the event loop that
    follows it, whatever the events and the timers are. *)
Theorem panel_mirrors_agree_in_every_run
    (h : option ThemeHelpers) (w : World) (ts : list Turn) :
  is_Some (panel (panel_ui w)) ->
  is_Some (toggle (panel_ui w)) ->
  observers (loop w) = [] ->
  mirrors_agree w ->
  let w' := run_turns ts (state_of (initializeComponents h w)) in
  panel_bound w' /\ mirrors_agree w'.
Proof.
  intros [p Hpanel] [t Htoggle] Hobs Hagree. cbv zeta.
  apply (run_turns_keeps panel_invariant).
  - intros ev. apply (event_loop_keeps_panel_invariant ev 0%nat).
  - intros k. apply (event_loop_keeps_panel_invariant EvSubmit k).
  - destruct (initializeComponents_after_panel h w) as (w0 & Hsetup & ->).
    apply (panel_invariant_part _ w0 (rest_of_set_up_panel_part h w0)).
    destruct (setupAccessibilityPanel_establishes w p t Hpanel Htoggle Hobs)
      as (Hbound & _ & Hp').
    rewrite Hsetup in Hbound, Hp'. cbn [state_of snd] in Hbound, Hp'.
    split; [exact Hbound|].
    assert (Htg : toggle (panel_ui w0) = toggle (panel_ui w)).
    { assert (H : preserves (fun w => toggle (panel_ui w)) setupAccessibilityPanel).
      { unfold setupAccessibilityPanel, setupPanelTabbing, setupPreferenceControls. frame. }
      specialize (H w). rewrite Hsetup in H. exact H. }
    revert Hagree. unfold mirrors_agree, has_open_class, panel_has_class,
      aria_hidden_is_false, aria_expanded_is_true.
    rewrite Hp', Htg, Hpanel. tauto.
Qed.

Lemma panel_mirrors_agree_in_every_run_witness :
  mirrors_agree
    (run_turns [TurnEvent (EvClickToggle false); TurnTimer 0; TurnEvent (EvKeydown (js "Escape"))]
       (state_of (initializeComponents as_written panel_page))).
Proof.
  apply (panel_mirrors_agree_in_every_run as_written panel_page
           [TurnEvent (EvClickToggle false); TurnTimer 0; TurnEvent (EvKeydown (js "Escape"))]).
  - vm_compute. eexists. reflexivity.
  - vm_compute. eexists. reflexivity.
  - reflexivity.
  - vm_compute. split; reflexivity.
Defined.

(** X25: on a page whose markup has the panel closed, after the start-up and
    after every turn of the event loop that follows it, each control of the
    panel that the tabbing selector picks has [tabindex] 0 when the panel is
    open and -1 when it is closed, and no mutation record waits. *)
Theorem panel_tab_order_in_every_run
    (h : option ThemeHelpers) (w : World) (ts : list Turn) :
  panel_state false w ->
  observers (loop w) = [] ->
  mutations (loop w) = [] ->
  let w' := run_turns ts (state_of (initializeComponents h w)) in
  tabindex_in_sync w' /\ mutations (loop w') = [].
Proof.
  intros Hstate Hobs Hmut. cbv zeta.
  assert (Hsettled : tabbing_settled (run_turns ts (state_of (initializeComponents h w)))).
  { apply (run_turns_keeps tabbing_settled).
    - intros ev. apply (event_loop_keeps_tab_order ev 0%nat).
    - intros k. apply (event_loop_keeps_tab_order EvSubmit k).
    - destruct (initializeComponents_after_panel h w) as (w0 & Hsetup & ->).
      apply (tabbing_settled_part _ w0 (rest_of_set_up_panel_part h w0)).
      pose proof (setupAccessibilityPanel_settles w Hstate Hobs Hmut) as H.
      rewrite Hsetup in H. exact H. }
  destruct Hsettled as (_ & _ & _ & _ & Hm & Hsync). auto.
Qed.

Lemma panel_tab_order_in_every_run_witness :
  tabindex_in_sync
    (run_turns [TurnEvent (EvClickToggle false); TurnTimer 0; TurnEvent (EvKeydown (js "Escape"))]
       (state_of (initializeComponents as_written panel_page))).
Proof.
  apply (panel_tab_order_in_every_run as_written panel_page
           [TurnEvent (EvClickToggle false); TurnTimer 0; TurnEvent (EvKeydown (js "Escape"))]).
  - unfold panel_state. eexists. split; [reflexivity|]. vm_compute.
    split; [reflexivity|]. split; reflexivity.
  - reflexivity.
  - reflexivity.
Defined.

(** ** The tab order that the set-up leaves *)

(** X26: [setupAccessibilityPanel] gives [tabindex] -1 to every control of
    the panel that the tabbing selector picks and leaves every other node of
    the panel, its class list and [aria-hidden] as they are, whatever the
    markup says; on markup that has the panel open, the selected controls
    are therefore out of step with the panel after the set-up. *)
Theorem setup_takes_controls_out_of_tab_order (w : World) (p : Panel) (t : Toggle) :
  panel (panel_ui w) = Some p ->
  toggle (panel_ui w) = Some t ->
  observers (loop w) = [] ->
  let w' := state_of (setupAccessibilityPanel w) in
  (exists p',
     panel (panel_ui w') = Some p'
     /\ p_classes p' = p_classes p
     /\ p_aria_hidden p' = p_aria_hidden p
     /\ length (p_children p') = length (p_children p)
     /\ forall i c, p_children p !! i = Some c ->
          p_children p' !! i =
            Some (if tabbing_selector c
                  then mkPanelChild (c_tag c) (c_classes c) (Some (js "-1")) else c))
  /\ (has_open_class w = true ->
      (exists i c, p_children p !! i = Some c /\ tabbing_selector c = true) ->
      ~ tabindex_in_sync w').
Proof.
  intros Hpanel Htoggle Hobs. cbv zeta.
  destruct (setupAccessibilityPanel_establishes w p t Hpanel Htoggle Hobs) as (_ & _ & Hp').
  assert (Hchild : forall i c, p_children p !! i = Some c ->
            retabbed (js "-1") (matching tabbing_selector (p_children p)) (p_children p) !! i =
              Some (if tabbing_selector c
                    then mkPanelChild (c_tag c) (c_classes c) (Some (js "-1")) else c)).
  { intros i c Hc. rewrite retabbed_lookup, Hc. cbn [fmap option_fmap option_map]. f_equal.
    destruct (tabbing_selector c) eqn:Hsel.
    - rewrite bool_decide_eq_true_2; [reflexivity|].
      apply elem_of_matching. eauto.
    - rewrite bool_decide_eq_false_2; [reflexivity|].
      intros Hin. apply elem_of_matching in Hin as (c' & Hc' & Hsel'). congruence. }
  split.
  - eexists. split; [exact Hp'|]. cbn [p_classes p_aria_hidden p_children].
    split; [reflexivity|]. split; [reflexivity|]. split; [apply length_retabbed | exact Hchild].
  - intros Hopen (i & c & Hc & Hsel) Hsync.
    specialize (Hsync _ i _ Hp' (Hchild i c Hc)). rewrite Hsel in Hsync.
    specialize (Hsync Hsel). cbn [c_tabindex] in Hsync.
    unfold expected_tabindex, has_open_class, panel_has_class in Hsync, Hopen.
    rewrite Hp' in Hsync. rewrite Hpanel in Hopen. cbn [p_classes] in Hsync.
    rewrite Hopen in Hsync. discriminate Hsync.
Qed.

Lemma setup_takes_controls_out_of_tab_order_witness :
  exists p',
    panel (panel_ui (state_of (setupAccessibilityPanel panel_page))) = Some p'
    /\ (c_tabindex <$> p_children p') =
         [Some (js "-1"); Some (js "-1"); None; None].
Proof.
  destruct (proj1 (setup_takes_controls_out_of_tab_order panel_page
              (mkPanel ∅ (Some (js "true"))
                 [mkPanelChild TagInput ∅ None; mkPanelChild TagSelect ∅ None;
                  mkPanelChild TagTextarea ∅ None; mkPanelChild TagOther ∅ None])
              (mkToggle (Some (js "false"))) eq_refl eq_refl eq_refl))
    as (p' & Hp' & _).
  exists p'. split; [exact Hp'|].
  vm_compute in Hp'. injection Hp' as <-. reflexivity.
Defined.

(** ** The start-up of the class as written *)

Lemma setup_phase_isInitialized :
  preserves (fun w => isInitialized (mgr w)) setup_phase.
Proof.
  unfold setup_phase, setupAccessibilityPanel, setupPanelTabbing, setupPreferenceControls,
    setupThemeToggle, setupFormValidation, setupKeyboardNavigation, setupReducedMotion,
    updateSubmitButtonState, setReducedMotion, localStorage_setItem, announceToScreenReader.
  frame.
Qed.

Lemma loadUserPreferences_isInitialized (h : option ThemeHelpers) :
  preserves (fun w => isInitialized (mgr w)) (loadUserPreferences h).
Proof.
  unfold loadUserPreferences, setReducedMotion, setTheme, setTextSize,
    setHighContrast, detectSystemTheme, updateThemeControls, localStorage_getItem,
    localStorage_setItem, announceToScreenReader.
  frame.
Qed.

Lemma initializeComponents_as_written_run (w : World) :
  exists e w1,
    (setup_phase;;
     (loadUserPreferences as_written;;
      modify (on_mgr (fun m => mkManager (this_panel m) (this_toggle m) true));;
      console_put LogLevel (js "Accessibility Manager initialized successfully"))) w
      = (Throw e, w1)
    /\ isInitialized (mgr w1) = isInitialized (mgr w)
    /\ initializeComponents as_written w =
         (Ok tt, on_console
                   (fun c => c ++ [(ErrorLevel, js "Error initializing Accessibility Manager:")])
                   w1).
Proof.
  assert (Hbody : exists e w1,
    (setup_phase;;
     (loadUserPreferences as_written;;
      modify (on_mgr (fun m => mkManager (this_panel m) (this_toggle m) true));;
      console_put LogLevel (js "Accessibility Manager initialized successfully"))) w
      = (Throw e, w1)
    /\ isInitialized (mgr w1) = isInitialized (mgr w)).
  { pose proof (setup_phase_isInitialized w) as H1. cbv beta in H1.
    unfold bind at 1. unfold state_of in H1.
    destruct (setup_phase w) as [ [ [] |e] w1]; cbn [snd] in H1.
    - pose proof (loadUserPreferences_isInitialized as_written w1) as H2. cbv beta in H2.
      destruct (loadUserPreferences_as_written w1) as (_ & _ & e & He).
      unfold bind at 1. unfold state_of, result_of in H2, He.
      destruct (loadUserPreferences as_written w1) as [r w2]. cbn [fst snd] in H2, He. subst r.
      exists e, w2. split; [reflexivity | congruence].
    - exists e, w1. split; [reflexivity | exact H1]. }
  destruct Hbody as (e & w1 & Hbody & Hinit). exists e, w1.
  split; [exact Hbody|]. split; [exact Hinit|].
  rewrite initializeComponents_split. unfold try_catch. rewrite Hbody. reflexivity.
Qed.

(** ** The script around the class *)

Lemma script_then_loaded_run (h : option ThemeHelpers) (s : Script) :
  loaded_listeners s = [] ->
  script_then_loaded h s =
    mkScript
      (state_of (initializeComponents h
                   (on_mgr (fun _ => mkManager false false false) (world s))))
      (if is_loading s then Interactive else readyState s)
      (if is_loading s then [OnLoadedConstruct] else [])
      TheManager
      (Some (if is_loading s then Undefined else TheManager)).
Proof.
  destruct s as [w rs ls am wam]. cbn [loaded_listeners world readyState]. intros ->.
  destruct (initializeComponents_returns h (on_mgr (fun _ => mkManager false false false) w))
    as (w' & Hrun).
  destruct rs;
    cbv beta iota zeta delta
      [script_then_loaded script_main fire_DOMContentLoaded construct_and_assign
       run_loaded_listener constructor init in_world is_loading
       on_world with_readyState with_loaded_listeners with_accessibilityManager
       with_window_accessibilityManager
       world readyState loaded_listeners accessibilityManager window_accessibilityManager
       fold_left app snd];
    rewrite Hrun; reflexivity.
Qed.

(** X27: the script creates one manager and runs [initializeComponents]
    once, on a manager whose fields are cleared, at once when the document
    has been parsed and at [DOMContentLoaded] when it is still loading; the
    variable [accessibilityManager] ends up holding the manager, but
    [window.accessibilityManager] holds it only when the document had been
    parsed when the script ran: it stays undefined otherwise. *)
Theorem script_creates_one_manager (h : option ThemeHelpers) (s : Script) :
  loaded_listeners s = [] ->
  let s' := script_then_loaded h s in
  world s' =
    state_of (initializeComponents h
                (on_mgr (fun _ => mkManager false false false) (world s)))
  /\ accessibilityManager s' = TheManager
  /\ window_accessibilityManager s' =
       Some (if is_loading s then Undefined else TheManager).
Proof.
  intros Hls. cbv zeta. rewrite (script_then_loaded_run h s Hls).
  split; [reflexivity|]. split; reflexivity.
Qed.

Lemma script_creates_one_manager_witness :
  window_accessibilityManager (script_then_loaded as_written loading_document) =
    Some Undefined.
Proof.
  apply (script_creates_one_manager as_written loading_document eq_refl).
Defined.

(** X28: with the class as written, [isReady] never answers true: whatever
    the page is, [loadUserPreferences] throws out of its own handler, because
    [detectSystemTheme] and [updateThemeControls] are not defined, so that
    [initializeComponents] never sets [isInitialized] and ends by logging
    the error. *)
Theorem as_written_manager_is_never_ready (s : Script) :
  loaded_listeners s = [] ->
  let w' := world (script_then_loaded as_written s) in
  result_of (isReady w') = Ok false
  /\ exists c,
       console w' = c ++ [(ErrorLevel, js "Error initializing Accessibility Manager:")].
Proof.
  intros Hls. cbv zeta. rewrite (script_then_loaded_run as_written s Hls). cbn [world].
  destruct (initializeComponents_as_written_run
              (on_mgr (fun _ => mkManager false false false) (world s)))
    as (e & w1 & _ & Hinit & ->).
  cbn [state_of snd]. unfold isReady, gets, result_of. cbn [fst]. wsimpl.
  split; [f_equal; exact Hinit | eexists; reflexivity].
Qed.

Lemma as_written_manager_is_never_ready_witness :
  result_of (isReady (world (script_then_loaded as_written loading_document))) = Ok false.
Proof.
  apply (as_written_manager_is_never_ready loading_document eq_refl).
Defined.

Lemma quiet_steps_run (w : World) :
  exists w4,
    (setupAccessibilityPanel;; setupThemeToggle;; setupFormValidation;;
     setupKeyboardNavigation) w = (Ok tt, w4)
    /\ storage w4 = storage w /\ media w4 = media w
    /\ root_classes (page w4) = root_classes (page w)
    /\ root_data_theme (page w4) = root_data_theme (page w).
Proof.
  unfold bind.
  destruct (quiet_step_run _ w setupAccessibilityPanel_quiet)
    as (w1 & -> & Hs1 & Hm1 & Hc1 & Ht1).
  destruct (quiet_step_run _ w1 setupThemeToggle_quiet)
    as (w2 & -> & Hs2 & Hm2 & Hc2 & Ht2).
  destruct (quiet_step_run _ w2 setupFormValidation_quiet)
    as (w3 & -> & Hs3 & Hm3 & Hc3 & Ht3).
  destruct (quiet_step_run _ w3 setupKeyboardNavigation_quiet)
    as (w4 & -> & Hs4 & Hm4 & Hc4 & Ht4).
  exists w4. split; [reflexivity|]. repeat split; congruence.
Qed.

Lemma setup_phase_split (w : World) :
  setup_phase w =
    ((setupAccessibilityPanel;; setupThemeToggle;; setupFormValidation;;
      setupKeyboardNavigation);; setupReducedMotion) w.
Proof.
  unfold setup_phase, bind.
  destruct (setupAccessibilityPanel w) as [ [?|?] ?]; [|reflexivity].
  destruct (setupThemeToggle _) as [ [?|?] ?]; [|reflexivity].
  destruct (setupFormValidation _) as [ [?|?] ?]; [|reflexivity].
  destruct (setupKeyboardNavigation _) as [ [?|?] ?]; reflexivity.
Qed.

Lemma loadUserPreferences_as_written_store (w : World) :
  set_throws (storage w) = false ->
  exists e w',
    loadUserPreferences as_written w = (Throw e, w')
    /\ root_data_theme (page w') = Some (js "dark")
    /\ root_classes (page w') = root_classes (page w)
    /\ items (storage w') = <[js "theme" := js "dark"]> (items (storage w)).
Proof.
  intros Hset.
  unfold loadUserPreferences, as_written, detectSystemTheme, updateThemeControls,
    setTheme, localStorage_setItem, announceToScreenReader, setTimeout, console_put.
  run. rewrite Hset. run. eexists _, _. split; [reflexivity|]. wsimpl.
  repeat split; reflexivity.
Qed.

(** X29: with the class as written and a store that works, every start-up
    ends with the dark theme on the document and in the store, whatever
    theme was stored and whatever the system asks for; the stored text size
    and contrast are neither applied to the document nor changed. *)
Theorem as_written_start_up_forces_dark (w : World) :
  set_throws (storage w) = false ->
  let w' := state_of (initializeComponents as_written w) in
  root_data_theme (page w') = Some (js "dark")
  /\ items (storage w') !! js "theme" = Some (js "dark")
  /\ root_classes (page w') =
       (if prefers_reduced_motion (media w)
        then classList_add (js "reduce-motion") (root_classes (page w))
        else root_classes (page w))
  /\ (forall key, key <> js "theme" -> key <> js "reducedMotion" ->
        items (storage w') !! key = items (storage w) !! key).
Proof.
  intros Hset. cbv zeta.
  destruct (initializeComponents_as_written_run w) as (e & w1 & Hbody & _ & ->).
  cbn [state_of snd]. wsimpl.
  unfold bind at 1 in Hbody. rewrite setup_phase_split in Hbody. unfold bind at 1 in Hbody.
  destruct (quiet_steps_run w) as (w4 & Hrun4 & Hs4 & Hm4 & Hc4 & Ht4).
  rewrite Hrun4 in Hbody.
  assert (Hset4 : set_throws (storage w4) = false) by (rewrite Hs4; exact Hset).
  destruct (setupReducedMotion_run w4 Hset4) as (Hr5 & _ & Hs5 & _ & _ & Hc5 & Hi5).
  unfold result_of, state_of in Hr5, Hs5, Hc5, Hi5.
  destruct (setupReducedMotion w4) as [r5 w5]. cbn [fst snd] in *. subst r5.
  destruct (loadUserPreferences_as_written_store w5 Hs5) as (e6 & w6 & Hrun6 & Ht6 & Hc6 & Hi6).
  unfold bind at 1 in Hbody. rewrite Hrun6 in Hbody. injection Hbody as _ <-.
  rewrite Ht6, Hc6, Hi6, Hc5, Hi5, Hm4, Hc4, Hs4.
  split; [reflexivity|]. split; [apply lookup_insert_eq|]. split; [reflexivity|].
  intros key Hk1 Hk2. rewrite lookup_insert_ne by done.
  destruct (prefers_reduced_motion (media w)); [|reflexivity].
  rewrite lookup_insert_ne by done. reflexivity.
Qed.

Lemma as_written_start_up_forces_dark_witness :
  root_data_theme (page (state_of (initializeComponents as_written
     (on_storage (with_items (<[js "theme" := js "light"]> ∅)) blank_world))))
  = Some (js "dark").
Proof.
  apply (as_written_start_up_forces_dark
           (on_storage (with_items (<[js "theme" := js "light"]> ∅)) blank_world) eq_refl).
Defined.

(** ** A start-up that stops at the motion preference *)

Lemma quiet_steps_listeners (ok : Listener -> Prop) :
  (forall l, l <> OnMotionPreferenceChange -> ok l) ->
  keeps (listeners_all ok)
    (setupAccessibilityPanel;; setupThemeToggle;; setupFormValidation;;
     setupKeyboardNavigation).
Proof.
  intros Hok.
  unfold setupAccessibilityPanel, setupPanelTabbing, setupPreferenceControls,
    setupThemeToggle, setupFormValidation, setupKeyboardNavigation, updateSubmitButtonState.
  repeat listeners_step ok ltac:(apply Hok; discriminate).
Qed.

Lemma quiet_steps_isInitialized :
  preserves (fun w => isInitialized (mgr w))
    (setupAccessibilityPanel;; setupThemeToggle;; setupFormValidation;;
     setupKeyboardNavigation).
Proof.
  unfold setupAccessibilityPanel, setupPanelTabbing, setupPreferenceControls,
    setupThemeToggle, setupFormValidation, setupKeyboardNavigation, updateSubmitButtonState.
  frame.
Qed.

(** X30: when the system asks for reduced motion and the store refuses
    writes, the start-up stops in [setupReducedMotion]: the class
    [reduce-motion] is on the document, but the listener for changes of the
    system preference is not attached, [loadUserPreferences] is not reached,
    so no theme is applied, and the manager is not marked as initialized.
    This holds with or without the two methods the class does not define. *)
Theorem start_up_stops_at_reduced_motion (h : option ThemeHelpers) (w : World) :
  set_throws (storage w) = true ->
  prefers_reduced_motion (media w) = true ->
  let w' := state_of (initializeComponents h w) in
  result_of (initializeComponents h w) = Ok tt
  /\ has_root_class (js "reduce-motion") w' = true
  /\ root_data_theme (page w') = root_data_theme (page w)
  /\ storage w' = storage w
  /\ isInitialized (mgr w') = isInitialized (mgr w)
  /\ (OnMotionPreferenceChange ∈ listeners (loop w') ->
      OnMotionPreferenceChange ∈ listeners (loop w))
  /\ exists c,
       console w' = c ++ [(ErrorLevel, js "Error initializing Accessibility Manager:")].
Proof.
  intros Hset Hprefers. cbv zeta.
  destruct (quiet_steps_run w) as (w4 & Hrun4 & Hs4 & Hm4 & Hc4 & Ht4).
  pose proof (quiet_steps_isInitialized w) as Hi4.
  pose proof (quiet_steps_listeners
                (fun l => l ∈ listeners (loop w) \/ l <> OnMotionPreferenceChange)
                ltac:(intros l Hl; right; exact Hl) w
                ltac:(intros l Hl; left; exact Hl)) as Hl4.
  rewrite Hrun4 in Hi4, Hl4. cbn [state_of snd] in Hi4, Hl4.
  assert (Hrun5 : exists w5,
            setupReducedMotion w4 = (Throw (DOMException (js "QuotaExceededError")), w5)
            /\ has_root_class (js "reduce-motion") w5 = true
            /\ root_data_theme (page w5) = root_data_theme (page w4)
            /\ storage w5 = storage w4
            /\ mgr w5 = mgr w4
            /\ listeners (loop w5) = listeners (loop w4)).
  { unfold setupReducedMotion, set_reducedMotion_checked, setReducedMotion,
      documentElement_classList, localStorage_setItem.
    rewrite <- Hs4 in Hset. rewrite <- Hm4 in Hprefers.
    open_world w4. run. eexists. split; [reflexivity|].
    unfold has_root_class, classList_contains, classList_toggle, classList_add. wsimpl.
    split; [apply bool_decide_eq_true_2; set_solver|]. repeat split; reflexivity. }
  destruct Hrun5 as (w5 & Hrun5 & Hc5 & Ht5 & Hs5 & Hg5 & Hl5).
  assert (Hinit : initializeComponents h w =
            (Ok tt, on_console
                      (fun c => c ++ [(ErrorLevel,
                                       js "Error initializing Accessibility Manager:")]) w5)).
  { rewrite initializeComponents_split. unfold try_catch. unfold bind at 1.
    rewrite setup_phase_split. unfold bind at 1. rewrite Hrun4, Hrun5. reflexivity. }
  rewrite Hinit. cbn [result_of state_of fst snd]. unfold has_root_class in *. wsimpl.
  split; [reflexivity|]. split; [exact Hc5|]. split; [congruence|]. split; [congruence|].
  split; [rewrite Hg5; exact Hi4|]. split; [|eexists; reflexivity].
  rewrite Hl5. intros Hin. destruct (Hl4 _ Hin) as [?|Hne]; [assumption | done].
Qed.

Lemma start_up_stops_at_reduced_motion_witness :
  root_data_theme (page (state_of (initializeComponents as_written
     reduced_motion_page_without_store))) = None.
Proof.
  apply (start_up_stops_at_reduced_motion as_written reduced_motion_page_without_store
           eq_refl eq_refl).
Defined.
